(** * Dizziness differential-diagnosis dashboard: feature mapping, prediction
      and explanation pipeline of [src/app.py], embedded and verified.

    The Python program is embedded shallowly:
    - Python floats (and numpy float64) are Rocq's primitive binary64 floats,
      with [nan] for [np.nan];
    - Python dicts are insertion-ordered association lists ([Dict]);
    - [try/except] blocks are a [result] type, the Streamlit [st.error] calls
      are events appended to an explicit log;
    - the external libraries (Streamlit widgets, Google Drive, joblib, the
      trained models, SHAP, numpy's [argsort] and [sum]) are records of
      functions passed as parameters. *)

From Stdlib Require Import ZArith List String Ascii Bool Lia Floats.
From Stdlib Require Import Permutation Sorted.
Import ListNotations.

Local Open Scope string_scope.
Local Open Scope list_scope.

(* Decimal literals such as 0.71 denote the nearest binary64 value, as in Python. *)
#[local] Set Warnings "-inexact-float".

(* ================================================================== *)
(** * Python floats: the comparison operators on binary64 *)
(* ================================================================== *)

Module PyFloat.

(** [a > b] and [a <= b] of Python on two floats. *)
Definition gt (a b : float) : bool := PrimFloat.ltb b a.
Definition le (a b : float) : bool := PrimFloat.leb a b.

(** [float(b)] for a bool, and [float(n)] for an int of magnitude below
    2^63 (the int64 cells of a frame; the ints the form handles are codes,
    ages, days and minutes, far below 2^53, so their conversion is exact). *)
Definition of_bool (b : bool) : float := if b then 1%float else 0%float.
Definition of_int (z : Z) : float :=
  if (z <? 0)%Z then PrimFloat.opp (PrimFloat.of_uint63 (Uint63.of_Z (- z)))
  else PrimFloat.of_uint63 (Uint63.of_Z z).

(** A probability: a float [p] with [0 <= p <= 1]. *)
Definition is_prob (p : float) : bool :=
  PrimFloat.leb 0%float p && PrimFloat.leb p 1%float.

(** Not NaN, stated the way Python would test it ([p == p]). *)
Definition is_num (p : float) : bool := PrimFloat.eqb p p.

End PyFloat.


(* ================================================================== *)
(** * Python values, exceptions and dicts *)
(* ================================================================== *)

(** The values stored in the form's [inputs] dict: [str] (the patient
    name), [int] (age, sex, days) and [float]. *)
Inductive pyval : Type :=
| PyStr (s : string)
| PyInt (z : Z)
| PyFloat (f : float).

Definition np_nan : pyval := PyFloat nan.

(** A raised Python exception, with its message. *)
Inductive exn : Type := Exception (msg : string).

Inductive result (A : Type) : Type :=
| Ok (a : A)
| Raise (e : exn).
Arguments Ok {A} a.
Arguments Raise {A} e.

(** Python's [dict]: keys are strings, iteration follows insertion order,
    and assigning to an existing key keeps the key's position. *)
Module Dict.

Definition t (V : Type) : Type := list (string * V).

Definition empty {V : Type} : t V := [].

Fixpoint get {V : Type} (d : t V) (k : string) : option V :=
  match d with
  | [] => None
  | (k', v) :: r => if String.eqb k k' then Some v else get r k
  end.

(** [d[k] = v] *)
Fixpoint set {V : Type} (d : t V) (k : string) (v : V) : t V :=
  match d with
  | [] => [(k, v)]
  | (k', v') :: r =>
      if String.eqb k k' then (k', v) :: r else (k', v') :: set r k v
  end.

(** [k in d] *)
Definition mem {V : Type} (d : t V) (k : string) : bool :=
  match get d k with Some _ => true | None => false end.

(** [d.get(k, default)] *)
Definition get_default {V : Type} (d : t V) (k : string) (dflt : V) : V :=
  match get d k with Some v => v | None => dflt end.

Definition keys {V : Type} (d : t V) : list string := map fst d.
Definition values {V : Type} (d : t V) : list V := map snd d.
Definition items {V : Type} (d : t V) : list (string * V) := d.

(** A dict holds each key once. *)
Definition wf {V : Type} (d : t V) : Prop := NoDup (keys d).

End Dict.


(* ================================================================== *)
(** * Configuration: the disease labels and the feature schema *)
(* ================================================================== *)

Definition FILE_IDS : Dict.t string :=
  [ ("BPPV", "1BfcFZ6-RnQbg_Qo4eO8YbkkRR-9CvZdg");
    ("VN", "158NQ9j_OKQoaA5JpMCjl1NgqKqc2Ezdb");
    ("SSNHL", "1EiKOeCMv55m3021VW5FNTZcylZLATSTE");
    ("Meniere", "1v_9jwfd6w9iJyiAIRplMOqJfqRiEqvSY");
    ("Others", "1giDrrAwDntoAm9Xt8vS1eMrKo4zVlBwG") ].

(** The fixed label set, in the insertion order of [FILE_IDS]. *)
Definition DISEASES : list string := Dict.keys FILE_IDS.

Definition INPUT_FEATURES : list string :=
  [ "symptoms_frequency"; "symptoms_recurrence"; "symptom_recent";
    "symptom_remote_cat"; "symptom_remote_cat_is_1st_attack";
    "symptom_remote_cat_is_within_30days"; "symptom_remote_cat_is_within_1years";
    "symptom_remote_cat_is_over_1year"; "symptoms_true_vertigo";
    "symptoms_dizziness_duration_ongoing"; "symptoms_duration_minutes";
    "symptoms_duration_minutes_cat_gen"; "symptoms_duration_minutes_cat_gen_is_several_sec";
    "symptoms_duration_minutes_cat_gen_is_several_min"; "symptoms_duration_minutes_cat_gen_is_several_hours";
    "symptoms_duration_minutes_cat_gen_is_several_days"; "symptoms_duration_minutes_cat_20m";
    "symptoms_duration_minutes_cat_20m_is_several_sec"; "symptoms_duration_minutes_cat_20m_is_several_min";
    "symptoms_duration_minutes_cat_20m_is_several_hours"; "symptoms_duration_minutes_cat_20m_is_several_days";
    "symptoms_nausea"; "symptoms_vomiting"; "symptoms_headache"; "symptoms_black_out";
    "symptoms_agg_factor_position_change"; "symptoms_agg_factor_head_rotation";
    "symptoms_agg_factor_eyes_moving"; "symptoms_agg_factor_moving";
    "symptoms_agg_factor_no_moving"; "symptoms_agg_factor_position_change_combined";
    "symptoms_rel_factor_rest"; "symptoms_rel_factor_eyes_closed";
    "symptoms_hearing_impairment_combined"; "symptoms_tinnitus"; "symptoms_ear_fullness";
    "history_dm"; "history_htn"; "history_pul_tbc"; "history_asthma";
    "history_kidney"; "history_entop"; "history_trauma"; "history_ear_disease";
    "history_neckop"; "history_brain_disease"; "history_metabolic_disease";
    "history_coronary_disease"; "history_stomach"; "history_bph"; "history_gynecologic";
    "history_eye_disease"; "history_psychiatric"; "history_thyroid_disease";
    "history_pci"; "history_abdominalop"; "history_respiratory_disease";
    "history_orthopedicop"; "history_ra"; "history_autoimmune_disease";
    "etc_sn_right"; "etc_sn_left"; "etc_gaze_right"; "etc_gaze_left";
    "etc_dht_right"; "etc_dht_left"; "etc_rht_right"; "etc_rht_left";
    "etc_gn_right"; "etc_gn_left"; "etc_hit_right"; "etc_hit_left";
    "etc_hsn_right"; "etc_hsn_left"; "etc_htt_right"; "etc_htt_left";
    "etc_skew_deviation_right"; "etc_skew_deviation_left";
    "etc_weber_right"; "etc_weber_left"; "age"; "sex" ].

(* ================================================================== *)
(** * The data frame and the trained models *)
(* ================================================================== *)

(** A pandas frame: the column labels and the rows of cells. *)
Record DataFrame : Type := {
  columns : list string;
  df_values : list (list pyval)
}.

(** [pd.DataFrame([record])] for one record: the columns are the record's
    keys in insertion order and the single row holds its values. *)
Definition pd_DataFrame (record : Dict.t pyval) : DataFrame :=
  {| columns := Dict.keys record; df_values := [Dict.values record] |}.

(** A trained classifier is opaque: all the program uses is its
    [predict_proba], which returns a 2-d array (one row per input row, one
    column per class) or raises. A loaded model is never mutated, so scoring
    is a function of the frame. *)
Record Model : Type := {
  predict_proba : DataFrame -> result (list (list float))
}.

Definition IndexError : exn := Exception "index out of bounds".
Definition KeyError (k : string) : exn := Exception k.
Definition ValueError : exn := Exception "max() arg is an empty sequence".
Definition TypeError : exn := Exception "'>' not supported".

(** [a[i]] on a sequence. *)
Definition getitem {A : Type} (a : list A) (i : nat) : result A :=
  match nth_error a i with
  | Some x => Ok x
  | None => Raise IndexError
  end.

Definition bind {A B : Type} (r : result A) (k : A -> result B) : result B :=
  match r with
  | Ok a => k a
  | Raise e => Raise e
  end.

Notation "x <- r ;; k" := (bind r (fun x => k))
  (at level 61, r at next level, right associativity).
Notation "' p <- r ;; k" := (bind r (fun x => let 'p := x in k))
  (at level 61, p pattern, r at next level, right associativity).

(** The messages passed to [st.error], oldest first. *)
Definition log : Type := list string.

(* ================================================================== *)
(** * Prediction engine *)
(* ================================================================== *)

(** [model.predict_proba(input_df)[0][1]] *)
Definition positive_class_probability (model : Model) (input_df : DataFrame)
  : result float :=
  arr <- predict_proba model input_df ;;
  row <- getitem arr 0 ;;
  getitem row 1.

(** One iteration of the loop of [predict_all_models]. *)
Definition predict_step (input_df : DataFrame)
    (st : Dict.t float * log) (item : string * Model) : Dict.t float * log :=
  let '(probabilities, errors) := st in
  let '(name, model) := item in
  match positive_class_probability model input_df with
  | Ok prob => (Dict.set probabilities name prob, errors)
  | Raise (Exception e) =>
      (Dict.set probabilities name 0%float,
       errors ++ [(name ++ " 모델 예측 오류: " ++ e)%string])
  end.

Definition predict_all_models (models : Dict.t Model) (input_df : DataFrame)
    (errors : log) : Dict.t float * log :=
  fold_left (predict_step input_df) (Dict.items models) (Dict.empty, errors).

(** Python's [max(iterable, key=key)]: the first item is the candidate; a
    later item replaces it only when its key is strictly greater. A key of
    [None] cannot be compared. *)
Fixpoint max_loop (key : string -> option float)
    (maxitem : string) (maxval : option float) (rest : list string)
  : result string :=
  match rest with
  | [] => Ok maxitem
  | item :: rest' =>
      match key item, maxval with
      | Some v, Some m =>
          if PyFloat.gt v m then max_loop key item (Some v) rest'
          else max_loop key maxitem maxval rest'
      | _, _ => Raise TypeError
      end
  end.

Definition py_max (iterable : list string) (key : string -> option float)
  : result string :=
  match iterable with
  | [] => Raise ValueError
  | item :: rest => max_loop key item (key item) rest
  end.

Definition get_top_prediction (probabilities : Dict.t float)
  : result (string * float) :=
  top_disease <- py_max (Dict.keys probabilities) (Dict.get probabilities) ;;
  match Dict.get probabilities top_disease with
  | Some top_prob => Ok (top_disease, top_prob)
  | None => Raise (KeyError top_disease)
  end.

(* ================================================================== *)
(** * Form-to-vector mapper *)
(* ================================================================== *)

(** The state of the sidebar form, read through the widget keys: what
    [st.text_input], [st.number_input], [st.selectbox] and [st.checkbox]
    return for the widget registered under [key]. *)
Record Streamlit : Type := {
  text_input : string -> string;
  number_input : string -> Z;
  selectbox : string -> string;
  checkbox : string -> bool
}.

(** [d[k]], raising [KeyError] on an absent key. *)
Definition getkey {V : Type} (d : Dict.t V) (k : string) : result V :=
  match Dict.get d k with
  | Some v => Ok v
  | None => Raise (KeyError k)
  end.

Definition frequency_options : Dict.t Z :=
  [ ("1회", 1); ("2-3회", 2); ("4-5회", 3); ("6-10회", 4); ("10회 이상", 5) ]%Z.

Definition duration_cat_options : Dict.t Z :=
  [ ("수 초", 1); ("수 분", 2); ("수 시간", 3); ("수 일", 4) ]%Z.

Definition duration_minutes_map : Dict.t pyval :=
  [ ("수 초", PyFloat 0.5%float); ("수 분", PyInt 5);
    ("수 시간", PyInt 120); ("수 일", PyInt 1440) ].

Definition remote_cat_options : Dict.t Z :=
  [ ("첫 발작", 0); ("30일 이내", 1); ("1년 이내", 2); ("1년 이상", 3) ]%Z.

Definition other_history : list string :=
  [ "history_pul_tbc"; "history_asthma"; "history_kidney"; "history_neckop";
    "history_stomach"; "history_bph"; "history_gynecologic"; "history_eye_disease";
    "history_pci"; "history_abdominalop"; "history_orthopedicop"; "history_ra" ].

Definition other_etc : list string :=
  [ "etc_gn_right"; "etc_gn_left"; "etc_skew_deviation_right";
    "etc_skew_deviation_left"; "etc_weber_right"; "etc_weber_left" ].

(** [1.0 if selected == option else 0.0] *)
Definition one_hot (selected option : string) : pyval :=
  PyFloat (if String.eqb selected option then 1%float else 0%float).

(** [float(st.checkbox(label, key=key))] *)
Definition checked (ui : Streamlit) (key : string) : pyval :=
  PyFloat (PyFloat.of_bool (checkbox ui key)).

(** [for h in names: if h not in inputs: inputs[h] = 0.0] *)
Definition fill_absent (names : list string) (inputs : Dict.t pyval)
  : Dict.t pyval :=
  fold_left
    (fun inputs h =>
       if negb (Dict.mem inputs h) then Dict.set inputs h (PyFloat 0%float)
       else inputs)
    names inputs.

Notation "d '.[' k ']' '::=' v" := (Dict.set d k v)
  (at level 50, left associativity, only parsing).

Definition create_sidebar_inputs (ui : Streamlit) : result (Dict.t pyval) :=
  let inputs := Dict.empty in
  (* basic information *)
  let inputs := inputs.["patient_name"] ::= PyStr (text_input ui "patient_name") in
  let inputs := inputs.["age"] ::= PyInt (number_input ui "age") in
  let sex_option := selectbox ui "sex" in
  let inputs := inputs.["sex"] ::= PyInt (if String.eqb sex_option "여성" then 1 else 0) in
  (* dizziness characteristics *)
  let inputs := inputs.["symptoms_true_vertigo"] ::= checked ui "true_vertigo" in
  let inputs := inputs.["symptoms_dizziness_duration_ongoing"] ::= checked ui "ongoing" in
  let inputs := inputs.["symptom_recent"] ::= PyInt (number_input ui "recent") in
  let freq_selected := selectbox ui "frequency" in
  freq <- getkey frequency_options freq_selected ;;
  let inputs := inputs.["symptoms_frequency"] ::= PyFloat (PyFloat.of_int freq) in
  let inputs := inputs.["symptoms_recurrence"] ::= checked ui "recurrence" in
  let duration_selected := selectbox ui "duration" in
  dur <- getkey duration_cat_options duration_selected ;;
  let inputs := inputs.["symptoms_duration_minutes_cat_gen"] ::= PyFloat (PyFloat.of_int dur) in
  let inputs := inputs.["symptoms_duration_minutes_cat_gen_is_several_sec"] ::= one_hot duration_selected "수 초" in
  let inputs := inputs.["symptoms_duration_minutes_cat_gen_is_several_min"] ::= one_hot duration_selected "수 분" in
  let inputs := inputs.["symptoms_duration_minutes_cat_gen_is_several_hours"] ::= one_hot duration_selected "수 시간" in
  let inputs := inputs.["symptoms_duration_minutes_cat_gen_is_several_days"] ::= one_hot duration_selected "수 일" in
  v <- getkey inputs "symptoms_duration_minutes_cat_gen" ;;
  let inputs := inputs.["symptoms_duration_minutes_cat_20m"] ::= v in
  v <- getkey inputs "symptoms_duration_minutes_cat_gen_is_several_sec" ;;
  let inputs := inputs.["symptoms_duration_minutes_cat_20m_is_several_sec"] ::= v in
  v <- getkey inputs "symptoms_duration_minutes_cat_gen_is_several_min" ;;
  let inputs := inputs.["symptoms_duration_minutes_cat_20m_is_several_min"] ::= v in
  v <- getkey inputs "symptoms_duration_minutes_cat_gen_is_several_hours" ;;
  let inputs := inputs.["symptoms_duration_minutes_cat_20m_is_several_hours"] ::= v in
  v <- getkey inputs "symptoms_duration_minutes_cat_gen_is_several_days" ;;
  let inputs := inputs.["symptoms_duration_minutes_cat_20m_is_several_days"] ::= v in
  minutes <- getkey duration_minutes_map duration_selected ;;
  let inputs := inputs.["symptoms_duration_minutes"] ::= minutes in
  let remote_selected := selectbox ui "remote" in
  remote <- getkey remote_cat_options remote_selected ;;
  let inputs := inputs.["symptom_remote_cat"] ::= PyFloat (PyFloat.of_int remote) in
  let inputs := inputs.["symptom_remote_cat_is_1st_attack"] ::= one_hot remote_selected "첫 발작" in
  let inputs := inputs.["symptom_remote_cat_is_within_30days"] ::= one_hot remote_selected "30일 이내" in
  let inputs := inputs.["symptom_remote_cat_is_within_1years"] ::= one_hot remote_selected "1년 이내" in
  let inputs := inputs.["symptom_remote_cat_is_over_1year"] ::= one_hot remote_selected "1년 이상" in
  (* accompanying symptoms *)
  let inputs := inputs.["symptoms_nausea"] ::= checked ui "nausea" in
  let inputs := inputs.["symptoms_vomiting"] ::= checked ui "vomiting" in
  let inputs := inputs.["symptoms_headache"] ::= checked ui "headache" in
  let inputs := inputs.["symptoms_black_out"] ::= checked ui "blackout" in
  (* otologic symptoms *)
  let inputs := inputs.["symptoms_hearing_impairment_combined"] ::= checked ui "hearing" in
  let inputs := inputs.["symptoms_tinnitus"] ::= checked ui "tinnitus" in
  let inputs := inputs.["symptoms_ear_fullness"] ::= checked ui "ear_fullness" in
  (* aggravating and relieving factors *)
  let inputs := inputs.["symptoms_agg_factor_position_change"] ::= checked ui "agg_position" in
  let inputs := inputs.["symptoms_agg_factor_head_rotation"] ::= checked ui "agg_head" in
  let inputs := inputs.["symptoms_agg_factor_eyes_moving"] ::= checked ui "agg_eyes" in
  let inputs := inputs.["symptoms_agg_factor_moving"] ::= checked ui "agg_moving" in
  let inputs := inputs.["symptoms_agg_factor_no_moving"] ::= checked ui "agg_no_moving" in
  v <- getkey inputs "symptoms_agg_factor_position_change" ;;
  let inputs := inputs.["symptoms_agg_factor_position_change_combined"] ::= v in
  let inputs := inputs.["symptoms_rel_factor_rest"] ::= checked ui "rel_rest" in
  let inputs := inputs.["symptoms_rel_factor_eyes_closed"] ::= checked ui "rel_eyes" in
  (* history *)
  let inputs := inputs.["history_dm"] ::= checked ui "hist_dm" in
  let inputs := inputs.["history_htn"] ::= checked ui "hist_htn" in
  let inputs := inputs.["history_ear_disease"] ::= checked ui "hist_ear" in
  let inputs := inputs.["history_brain_disease"] ::= checked ui "hist_brain" in
  let inputs := inputs.["history_thyroid_disease"] ::= checked ui "hist_thyroid" in
  let inputs := inputs.["history_psychiatric"] ::= checked ui "hist_psych" in
  let inputs := inputs.["history_coronary_disease"] ::= checked ui "hist_coronary" in
  let inputs := inputs.["history_trauma"] ::= checked ui "hist_trauma" in
  let inputs := inputs.["history_entop"] ::= checked ui "hist_entop" in
  let inputs := inputs.["history_metabolic_disease"] ::= checked ui "hist_metabolic" in
  let inputs := inputs.["history_autoimmune_disease"] ::= checked ui "hist_autoimmune" in
  let inputs := inputs.["history_respiratory_disease"] ::= checked ui "hist_respiratory" in
  let inputs := fill_absent other_history inputs in
  (* physical examination *)
  let inputs := inputs.["etc_sn_right"] ::= checked ui "sn_r" in
  let inputs := inputs.["etc_gaze_right"] ::= checked ui "gaze_r" in
  let inputs := inputs.["etc_dht_right"] ::= checked ui "dht_r" in
  let inputs := inputs.["etc_rht_right"] ::= checked ui "rht_r" in
  let inputs := inputs.["etc_sn_left"] ::= checked ui "sn_l" in
  let inputs := inputs.["etc_gaze_left"] ::= checked ui "gaze_l" in
  let inputs := inputs.["etc_dht_left"] ::= checked ui "dht_l" in
  let inputs := inputs.["etc_rht_left"] ::= checked ui "rht_l" in
  let inputs := inputs.["etc_hit_right"] ::= checked ui "hit_r" in
  let inputs := inputs.["etc_hsn_right"] ::= checked ui "hsn_r" in
  let inputs := inputs.["etc_htt_right"] ::= checked ui "htt_r" in
  let inputs := inputs.["etc_hit_left"] ::= checked ui "hit_l" in
  let inputs := inputs.["etc_hsn_left"] ::= checked ui "hsn_l" in
  let inputs := inputs.["etc_htt_left"] ::= checked ui "htt_l" in
  let inputs := fill_absent other_etc inputs in
  Ok inputs.

(** [main]: [{feat: inputs.get(feat, np.nan) for feat in INPUT_FEATURES}] *)
Definition input_data (inputs : Dict.t pyval) : Dict.t pyval :=
  fold_left
    (fun data feat => Dict.set data feat (Dict.get_default inputs feat np_nan))
    INPUT_FEATURES Dict.empty.

(** [main]: [pd.DataFrame([input_data])] *)
Definition input_df (inputs : Dict.t pyval) : DataFrame :=
  pd_DataFrame (input_data inputs).

(* ================================================================== *)
(** * Model repository *)
(* ================================================================== *)

(** What one download leaves behind: the whole artifact, or an exception
    with whatever the destination file held at that point ([None] when the
    file was never opened). *)
Inductive download_outcome : Type :=
| Downloaded (content : list Byte.byte)
| DownloadFailed (partial : option (list Byte.byte)) (e : exn).

(** The Drive client built by [googleapiclient]. *)
Record Service : Type := {
  get_media : string -> download_outcome
}.

(** The process environment the loader talks to. *)
Record World : Type := {
  (* [Credentials.from_service_account_info] followed by [build] *)
  build_service : result Service;
  (* [joblib.load] on the content of a file *)
  joblib_load : list Byte.byte -> result Model;
  (* [tempfile.gettempdir()] *)
  gettempdir : string
}.

(** The mutable part: the files on disk and the [st.error] messages. *)
Record Env : Type := {
  files : Dict.t (list Byte.byte);
  errors : log
}.

Definition st_error (msg : string) (env : Env) : Env :=
  {| files := files env; errors := errors env ++ [msg] |}.

Definition write_file (path : string) (content : list Byte.byte) (env : Env) : Env :=
  {| files := Dict.set (files env) path content; errors := errors env |}.

Definition get_google_drive_service (w : World) (env : Env)
  : option Service * Env :=
  match build_service w with
  | Ok service => (Some service, env)
  | Raise (Exception e) =>
      (None, st_error ("Google Drive 인증 오류: " ++ e)%string env)
  end.

Definition download_file_from_drive (service : Service) (file_id destination : string)
    (env : Env) : bool * Env :=
  match get_media service file_id with
  | Downloaded content => (true, write_file destination content env)
  | DownloadFailed partial (Exception e) =>
      let env :=
        match partial with
        | Some content => write_file destination content env
        | None => env
        end in
      (false, st_error ("파일 다운로드 오류: " ++ e)%string env)
  end.

(** [str.lower] on ASCII letters. *)
Definition lower_ascii (c : ascii) : ascii :=
  let n := nat_of_ascii c in
  if (65 <=? n)%nat && (n <=? 90)%nat then ascii_of_nat (n + 32) else c.

Fixpoint lower (s : string) : string :=
  match s with
  | EmptyString => EmptyString
  | String c r => String (lower_ascii c) (lower r)
  end.

(** [os.path.join(a, b)] for a relative [b]. *)
Definition os_path_join (a b : string) : string :=
  match a with
  | EmptyString => b
  | _ =>
      if String.eqb (substring (String.length a - 1) 1 a) "/"
      then (a ++ b)%string else (a ++ "/" ++ b)%string
  end.

(** [open(path, 'rb')] inside [joblib.load]. *)
Definition load_artifact (w : World) (path : string) (env : Env) : result Model :=
  match Dict.get (files env) path with
  | Some content => joblib_load w content
  | None => Raise (Exception "No such file or directory")
  end.

(** The [for name, file_id in FILE_IDS.items()] loop of [load_models], with
    its two early [return None]. *)
Fixpoint load_loop (w : World) (service : Service) (temp_dir : string)
    (items : list (string * string)) (models : Dict.t Model) (env : Env)
  : option (Dict.t Model) * Env :=
  match items with
  | [] => (Some models, env)
  | (name, file_id) :: rest =>
      let temp_path :=
        os_path_join temp_dir ("label_" ++ lower name ++ "_model.joblib")%string in
      let '(downloaded, env) :=
        download_file_from_drive service file_id temp_path env in
      if downloaded then
        match load_artifact w temp_path env with
        | Ok model =>
            load_loop w service temp_dir rest (Dict.set models name model) env
        | Raise (Exception e) =>
            (None, st_error (name ++ " 모델 로드 오류: " ++ e)%string env)
        end
      else (None, st_error (name ++ " 모델 다운로드 실패")%string env)
  end.

(** The body of [load_models] (the [st.cache_resource] decorator only
    memoises its result). *)
Definition load_models (w : World) (env : Env) : option (Dict.t Model) * Env :=
  let '(service, env) := get_google_drive_service w env in
  match service with
  | None => (None, env)
  | Some service =>
      load_loop w service (gettempdir w) (Dict.items FILE_IDS) Dict.empty env
  end.

(* ================================================================== *)
(** * Explanation engine *)
(* ================================================================== *)

(** What [explainer.shap_values] returns: a Python list of per-class 2-d
    arrays, or one 2-d array (one row per input row). *)
Inductive shap_output : Type :=
| ShapList (arrays : list (list (list float)))
| ShapArray (array : list (list float)).

(** [explainer.expected_value]: a scalar, or one baseline per class. *)
Inductive expected : Type :=
| ExpectedScalar (v : float)
| ExpectedArray (vs : list float).

Record Explainer : Type := {
  shap_values : DataFrame -> result shap_output;
  expected_value : expected
}.

(** The library calls of [generate_shap_plot] that are not the program's:
    [shap.TreeExplainer], [np.argsort] and [np.sum]. *)
Record Libs : Type := {
  TreeExplainer : Model -> result Explainer;
  np_argsort : list float -> list nat;
  np_sum : list float -> float
}.

(** The [isinstance(shap_values, list)] branch: the attribution vector [sv]
    of row 0 and the baseline. *)
Definition select_attribution (values : shap_output) (ev : expected)
  : result (list float * float) :=
  match values with
  | ShapList arrays =>
      positive <- getitem arrays 1 ;;
      sv <- getitem positive 0 ;;
      base_value <- match ev with
                    | ExpectedArray vs => getitem vs 1
                    | ExpectedScalar _ => Raise IndexError
                    end ;;
      Ok (sv, base_value)
  | ShapArray array =>
      sv <- getitem array 0 ;;
      base_value <- match ev with
                    | ExpectedScalar v => Ok v
                    | ExpectedArray _ => Raise TypeError
                    end ;;
      Ok (sv, base_value)
  end.

(** [np.argsort(np.abs(sv))[::-1][:k]] *)
Definition top_indices (libs : Libs) (sv : list float) (k : nat) : list nat :=
  firstn k (rev (np_argsort libs (map PrimFloat.abs sv))).

(** [a[idx]] for a list of indices. *)
Fixpoint take {A : Type} (a : list A) (idx : list nat) : result (list A) :=
  match idx with
  | [] => Ok []
  | i :: rest =>
      x <- getitem a i ;;
      xs <- take a rest ;;
      Ok (x :: xs)
  end.

(** The cast pandas applies in [input_df.values]: a frame of numbers becomes
    an array of float64, an int cell turning into the float of the same
    value; with a string column the cells stay as they are. *)
Definition is_number (v : pyval) : bool :=
  match v with PyStr _ => false | _ => true end.

Definition to_float64 (v : pyval) : pyval :=
  match v with
  | PyInt z => PyFloat (PyFloat.of_int z)
  | _ => v
  end.

Definition row_values (row : list pyval) : list pyval :=
  if forallb is_number row then map to_float64 row else row.

(** One y-axis label of the waterfall: the test [val == int(val)] converts
    every float cell, and [int] raises on NaN and on the infinities. *)
Definition y_label (val : pyval) (feature : string) : result (pyval * string) :=
  match val with
  | PyFloat f =>
      if PrimFloat.is_nan f || PrimFloat.is_infinity f
      then Raise (Exception "cannot convert float to integer")
      else Ok (val, feature)
  | _ => Ok (val, feature)
  end.

Fixpoint y_labels (data : list pyval) (features : list string)
  : result (list (pyval * string)) :=
  match data, features with
  | val :: data', feature :: features' =>
      l <- y_label val feature ;;
      ls <- y_labels data' features' ;;
      Ok (l :: ls)
  | _, _ => Ok []
  end.

(** What the two figures show: the bars of the waterfall (label, signed
    value, colour) with the score of its title, and the bars of the
    importance chart. Turning them into pixels is matplotlib's part. *)
Record Waterfall : Type := {
  waterfall_labels : list (pyval * string);
  waterfall_values : list float;
  waterfall_colors : list string;
  f_x : float
}.

Record BarChart : Type := {
  bar_features : list string;
  bar_values : list float
}.

Definition bar_color (v : float) : string :=
  if PyFloat.gt v 0%float then "#ff6b6b" else "#4dabf7".

(** The part of [generate_shap_plot] below the [isinstance] branch: both
    figures, from the attribution vector [sv] and the baseline. *)
Definition render_figures (libs : Libs) (input_df : DataFrame)
    (sv : list float) (base_value : float) : result (Waterfall * BarChart) :=
  let feature_names := columns input_df in
  let sorted_idx := top_indices libs sv 10 in
  top_features <- take feature_names sorted_idx ;;
  top_values <- take sv sorted_idx ;;
  row <- getitem (df_values input_df) 0 ;;
  top_data <- take (row_values row) sorted_idx ;;
  let fx := PrimFloat.add base_value (np_sum libs sv) in
  labels <- y_labels top_data top_features ;;
  let sorted_idx_20 := top_indices libs sv 20 in
  top_features_20 <- take feature_names sorted_idx_20 ;;
  sv_20 <- take sv sorted_idx_20 ;;
  let abs_values_20 := map PrimFloat.abs sv_20 in
  Ok ({| waterfall_labels := labels;
         waterfall_values := top_values;
         waterfall_colors := map bar_color top_values;
         f_x := fx |},
      {| bar_features := top_features_20;
         bar_values := abs_values_20 |}).

(** The [try] block of [generate_shap_plot]. *)
Definition shap_figures (libs : Libs) (model : Model) (input_df : DataFrame)
  : result (Waterfall * BarChart) :=
  explainer <- TreeExplainer libs model ;;
  values <- shap_values explainer input_df ;;
  ' (sv, base_value) <- select_attribution values (expected_value explainer) ;;
  render_figures libs input_df sv base_value.

(** The [except] handler of [generate_shap_plot]: the figures, or
    [(None, None)] and a message. *)
Definition shap_report (outcome : result (Waterfall * BarChart)) (errors : log)
  : option (Waterfall * BarChart) * log :=
  match outcome with
  | Ok figures => (Some figures, errors)
  | Raise (Exception e) => (None, errors ++ [("SHAP 분석 오류: " ++ e)%string])
  end.

Definition generate_shap_plot (libs : Libs) (model : Model) (input_df : DataFrame)
    (disease_name : string) (errors : log)
  : option (Waterfall * BarChart) * log :=
  shap_report (shap_figures libs model input_df) errors.

(* ================================================================== *)
(** * Main app *)
(* ================================================================== *)

Definition DISEASE_NAMES_KR : Dict.t string :=
  [ ("BPPV", "양성돌발성체위현훈 (BPPV)");
    ("VN", "전정신경염 (Vestibular Neuritis)");
    ("SSNHL", "돌발성난청 (SSNHL)");
    ("Meniere", "메니에르병 (Meniere's Disease)");
    ("Others", "기타 원인") ].

(** Python's truth value of a cell: a non-empty string, a non-zero int, a
    float different from 0.0 (NaN counts as true). *)
Definition truthy (v : pyval) : bool :=
  match v with
  | PyStr s => match s with EmptyString => false | _ => true end
  | PyInt z => negb (Z.eqb z 0)
  | PyFloat f => negb (PrimFloat.eqb f 0%float)
  end.

(** [v == 1] *)
Definition equals_one (v : pyval) : bool :=
  match v with
  | PyStr _ => false
  | PyInt z => Z.eqb z 1
  | PyFloat f => PrimFloat.eqb f 1%float
  end.

(** ["예" if v else "아니오"] *)
Definition yes_no (v : pyval) : pyval :=
  PyStr (if truthy v then "예" else "아니오").

(** The [summary_data] dict of [main]. *)
Definition summary_data (inputs : Dict.t pyval) : result (Dict.t pyval) :=
  name <- getkey inputs "patient_name" ;;
  age <- getkey inputs "age" ;;
  sex <- getkey inputs "sex" ;;
  vertigo <- getkey inputs "symptoms_true_vertigo" ;;
  hearing <- getkey inputs "symptoms_hearing_impairment_combined" ;;
  tinnitus <- getkey inputs "symptoms_tinnitus" ;;
  Ok [ ("환자 이름", if truthy name then name else PyStr "(미입력)");
       ("나이", age);
       ("성별", PyStr (if equals_one sex then "여성" else "남성"));
       ("회전성 어지럼증", yes_no vertigo);
       ("청력 저하", yes_no hearing);
       ("이명", yes_no tinnitus) ].

(** [sorted(items, key=lambda x: x[1], reverse=True)]. Python's sort is
    stable, also with [reverse=True]: items with equal keys keep their
    order. On keys that are numbers this fixes the result, which is the one
    computed here by insertion; keys holding NaN are outside this model. *)
Fixpoint insert_desc (x : string * float) (sorted : list (string * float))
  : list (string * float) :=
  match sorted with
  | [] => [x]
  | y :: rest =>
      if PyFloat.gt (snd y) (snd x) then y :: insert_desc x rest
      else x :: y :: rest
  end.

Definition sorted_by_probability (items : list (string * float))
  : list (string * float) :=
  fold_right insert_desc [] items.

(** The lines of the "probability per disease" column: marker, label,
    probability. *)
Definition probability_rows (probabilities : Dict.t float) (top_disease : string)
  : list (string * string * float) :=
  map (fun item =>
         (if String.eqb (fst item) top_disease then "🟢" else "⚪",
          fst item, snd item))
      (sorted_by_probability (Dict.items probabilities)).

(** What the [if predict_button:] branch of [main] shows. *)
Record Prediction : Type := {
  patient_line : option pyval;
  diagnosis : string;
  top_probability : float;
  rows : list (string * string * float);
  figures : option (Waterfall * BarChart);
  summary : Dict.t pyval
}.

(** The lookups of the branch that can raise, in the order they run. *)
Definition prediction_lookups (models : Dict.t Model) (inputs : Dict.t pyval)
    (probabilities : Dict.t float)
  : result (string * float * pyval * string * Model) :=
  ' (top_disease, top_prob) <- get_top_prediction probabilities ;;
  name <- getkey inputs "patient_name" ;;
  shown <- getkey DISEASE_NAMES_KR top_disease ;;
  model <- getkey models top_disease ;;
  Ok (top_disease, top_prob, name, shown, model).

(** The [if predict_button:] branch of [main]. An exception leaves the
    messages already sent to [st.error] in the log. *)
Definition show_prediction (libs : Libs) (models : Dict.t Model)
    (inputs : Dict.t pyval) (input_df : DataFrame) (errors : log)
  : result Prediction * log :=
  let '(probabilities, errors) := predict_all_models models input_df errors in
  match prediction_lookups models inputs probabilities with
  | Raise e => (Raise e, errors)
  | Ok (top_disease, top_prob, name, shown, model) =>
      let '(figs, errors) :=
        generate_shap_plot libs model input_df top_disease errors in
      match summary_data inputs with
      | Raise e => (Raise e, errors)
      | Ok summary_dict =>
          (Ok {| patient_line := if truthy name then Some name else None;
                 diagnosis := shown;
                 top_probability := top_prob;
                 rows := probability_rows probabilities top_disease;
                 figures := figs;
                 summary := summary_dict |},
           errors)
      end
  end.

(** How a run of [main] ends: [st.stop()] after a failed load, the hint to
    press the button, or the prediction page. *)
Inductive outcome : Type :=
| Stopped
| Waiting
| Predicted (page : Prediction).

Definition load_failed_message : string :=
  "모델을 로드할 수 없습니다. Google Drive 연결 및 Secrets 설정을 확인하세요.".

Definition main (w : World) (libs : Libs) (ui : Streamlit)
    (predict_button : bool) (env : Env) : result outcome * Env :=
  let '(loaded, env) := load_models w env in
  match loaded with
  | None => (Ok Stopped, st_error load_failed_message env)
  | Some models =>
      match create_sidebar_inputs ui with
      | Raise e => (Raise e, env)
      | Ok inputs =>
          let frame := input_df inputs in
          if predict_button then
            let '(page, errs) :=
              show_prediction libs models inputs frame (errors env) in
            (match page with
             | Ok p => Ok (Predicted p)
             | Raise e => Raise e
             end,
             {| files := files env; errors := errs |})
          else (Ok Waiting, env)
      end
  end.

(* ================================================================== *)
(** * Specification vocabulary and scenarios *)
(* ================================================================== *)

(** [<=] and [<] on the specification of binary64 values. *)
Definition SFle (x y : spec_float) : Prop := SFleb x y = true.

Definition SFlt (x y : spec_float) : Prop := SFltb x y = true.

(** The entry and the message one model contributes to [predict_all_models]. *)
Definition entry_of (input_df : DataFrame) (item : string * Model) : string * float :=
  (fst item,
   match positive_class_probability (snd item) input_df with
   | Ok prob => prob
   | Raise _ => 0%float
   end).

Definition message_of (input_df : DataFrame) (item : string * Model) : list string :=
  match positive_class_probability (snd item) input_df with
  | Ok _ => []
  | Raise (Exception e) => [(fst item ++ " 모델 예측 오류: " ++ e)%string]
  end.

(** The spec's scenario: BPPV 0.71, VN 0.20, SSNHL 0.05, Meniere 0.03,
    Others 0.01. *)
Definition scenario_probabilities : Dict.t float :=
  [ ("BPPV", 0.71%float); ("VN", 0.20%float); ("SSNHL", 0.05%float);
    ("Meniere", 0.03%float); ("Others", 0.01%float) ].

(** Two labels share the maximum: VN and Meniere at 0.4. *)
Definition tied_probabilities : Dict.t float :=
  [ ("BPPV", 0.1%float); ("VN", 0.4%float); ("SSNHL", 0.25%float);
    ("Meniere", 0.4%float); ("Others", 0%float) ].

(** A model whose scoring always returns the class probabilities
    [[1 - p, p]], and one whose scoring always raises. *)
Definition constant_model (p : float) : Model :=
  {| predict_proba := fun _ => Ok [[PrimFloat.sub 1%float p; p]] |}.

Definition failing_model (msg : string) : Model :=
  {| predict_proba := fun _ => Raise (Exception msg) |}.

(** The scenario of one failing model: SSNHL raises, the others score. *)
Definition scenario_models : Dict.t Model :=
  [ ("BPPV", constant_model 0.71%float); ("VN", constant_model 0.20%float);
    ("SSNHL", failing_model "feature mismatch");
    ("Meniere", constant_model 0.03%float); ("Others", constant_model 0.01%float) ].

Definition empty_frame : DataFrame := pd_DataFrame Dict.empty.

(** The form is valid when every select box holds one of its options. *)
Definition valid_form (ui : Streamlit) : Prop :=
  In (selectbox ui "frequency") (Dict.keys frequency_options) /\
  In (selectbox ui "duration") (Dict.keys duration_cat_options) /\
  In (selectbox ui "remote") (Dict.keys remote_cat_options).

(** Membership in the schema, decided. *)
Definition in_schema (name : string) : bool :=
  existsb (String.eqb name) INPUT_FEATURES.

(** A cell is missing when it holds NaN. *)
Definition is_missing (v : pyval) : bool :=
  match v with
  | PyFloat f => PrimFloat.is_nan f
  | _ => false
  end.

(** The vector with 1.0 at position [i] and 0.0 elsewhere, as the entries
    a dict lookup returns. *)
Definition one_hot_vector (i n : nat) : list (option pyval) :=
  map (fun j => Some (PyFloat (if Nat.eqb j i then 1%float else 0%float)))
      (seq 0 n).

Definition duration_gen_indicators : list string :=
  [ "symptoms_duration_minutes_cat_gen_is_several_sec";
    "symptoms_duration_minutes_cat_gen_is_several_min";
    "symptoms_duration_minutes_cat_gen_is_several_hours";
    "symptoms_duration_minutes_cat_gen_is_several_days" ].

Definition duration_20m_indicators : list string :=
  [ "symptoms_duration_minutes_cat_20m_is_several_sec";
    "symptoms_duration_minutes_cat_20m_is_several_min";
    "symptoms_duration_minutes_cat_20m_is_several_hours";
    "symptoms_duration_minutes_cat_20m_is_several_days" ].

Definition remote_indicators : list string :=
  [ "symptom_remote_cat_is_1st_attack";
    "symptom_remote_cat_is_within_30days";
    "symptom_remote_cat_is_within_1years";
    "symptom_remote_cat_is_over_1year" ].

(** The entries of the feature vector at a list of names. *)
Definition features_at (inputs : Dict.t pyval) (names : list string)
  : list (option pyval) :=
  map (Dict.get (input_data inputs)) names.

(** The spec's scenario: age 45, female, true vertigo, duration "several
    minutes", recurrence; every other widget at its default. *)
Definition scenario_form : Streamlit := {|
  text_input := fun _ => EmptyString;
  number_input := fun key => if String.eqb key "age" then 45%Z else 1%Z;
  selectbox := fun key =>
    if String.eqb key "sex" then "여성"
    else if String.eqb key "frequency" then "1회"
    else if String.eqb key "duration" then "수 분"
    else "첫 발작";
  checkbox := fun key =>
    String.eqb key "true_vertigo" || String.eqb key "recurrence"
|}.

Definition scenario_inputs : Dict.t pyval :=
  match create_sidebar_inputs scenario_form with
  | Ok inputs => inputs
  | Raise _ => Dict.empty
  end.

(** The derived features that copy a primary feature: (alias, primary). *)
Definition lockstep_pairs : list (string * string) :=
  [ ("symptoms_duration_minutes_cat_20m", "symptoms_duration_minutes_cat_gen");
    ("symptoms_duration_minutes_cat_20m_is_several_sec",
     "symptoms_duration_minutes_cat_gen_is_several_sec");
    ("symptoms_duration_minutes_cat_20m_is_several_min",
     "symptoms_duration_minutes_cat_gen_is_several_min");
    ("symptoms_duration_minutes_cat_20m_is_several_hours",
     "symptoms_duration_minutes_cat_gen_is_several_hours");
    ("symptoms_duration_minutes_cat_20m_is_several_days",
     "symptoms_duration_minutes_cat_gen_is_several_days");
    ("symptoms_agg_factor_position_change_combined",
     "symptoms_agg_factor_position_change") ].

(** [alias] and [primary] are both present in [d] and hold the same value. *)
Definition in_lockstep (d : Dict.t pyval) (pair : string * string) : Prop :=
  exists v, Dict.get d (fst pair) = Some v /\ Dict.get d (snd pair) = Some v.

(** The history and examination features of the schema. *)
Definition history_and_exam_features : list string :=
  filter (fun feat => String.prefix "history_" feat || String.prefix "etc_" feat)
         INPUT_FEATURES.

(** The history and examination features that have a checkbox, with the
    key of the checkbox. *)
Definition history_exam_checkboxes : list (string * string) :=
  [ ("history_dm", "hist_dm"); ("history_htn", "hist_htn");
    ("history_ear_disease", "hist_ear"); ("history_brain_disease", "hist_brain");
    ("history_thyroid_disease", "hist_thyroid"); ("history_psychiatric", "hist_psych");
    ("history_coronary_disease", "hist_coronary"); ("history_trauma", "hist_trauma");
    ("history_entop", "hist_entop"); ("history_metabolic_disease", "hist_metabolic");
    ("history_autoimmune_disease", "hist_autoimmune");
    ("history_respiratory_disease", "hist_respiratory");
    ("etc_sn_right", "sn_r"); ("etc_gaze_right", "gaze_r");
    ("etc_dht_right", "dht_r"); ("etc_rht_right", "rht_r");
    ("etc_sn_left", "sn_l"); ("etc_gaze_left", "gaze_l");
    ("etc_dht_left", "dht_l"); ("etc_rht_left", "rht_l");
    ("etc_hit_right", "hit_r"); ("etc_hsn_right", "hsn_r"); ("etc_htt_right", "htt_r");
    ("etc_hit_left", "hit_l"); ("etc_hsn_left", "hsn_l"); ("etc_htt_left", "htt_l") ].

(** The scenario's form with a patient name typed in. *)
Definition named_form (name : string) : Streamlit := {|
  text_input := fun key => if String.eqb key "patient_name" then name else EmptyString;
  number_input := number_input scenario_form;
  selectbox := selectbox scenario_form;
  checkbox := checkbox scenario_form
|}.

Definition named_inputs (name : string) : Dict.t pyval :=
  match create_sidebar_inputs (named_form name) with
  | Ok inputs => inputs
  | Raise _ => Dict.empty
  end.

(** The model behind a file id, when the artifact can be both retrieved
    and deserialized. *)
Definition artifact (w : World) (service : Service) (file_id : string)
  : option Model :=
  match get_media service file_id with
  | Downloaded content =>
      match joblib_load w content with
      | Ok model => Some model
      | Raise _ => None
      end
  | DownloadFailed _ _ => None
  end.

(** A world where every artifact downloads and deserializes, and one where
    the SSNHL download breaks half-way. *)
Definition good_service : Service :=
  {| get_media := fun file_id => Downloaded [] |}.

Definition flaky_service : Service :=
  {| get_media := fun file_id =>
       if String.eqb file_id "1EiKOeCMv55m3021VW5FNTZcylZLATSTE"
       then DownloadFailed (Some []) (Exception "timeout")
       else Downloaded [] |}.

Definition world_with (service : Service) : World :=
  {| build_service := Ok service;
     joblib_load := fun _ => Ok (constant_model 0.5%float);
     gettempdir := "/tmp" |}.

Definition fresh_env : Env := {| files := Dict.empty; errors := [] |}.

(** [idx] is what [np.argsort(a)] may return on an array of numbers: the
    indices of [a], ordered so that the values ascend (ties in any order, as
    numpy's default sort is not stable). Arrays holding NaN, which numpy
    sorts last, are outside this contract. *)
Definition is_argsort (a : list float) (idx : list nat) : Prop :=
  Permutation idx (seq 0 (List.length a)) /\
  Sorted (fun i j => PyFloat.le (nth i a nan) (nth j a nan) = true) idx.

(** [|sv[i]|] *)
Definition abs_at (sv : list float) (i : nat) : float :=
  PrimFloat.abs (nth i sv nan).

(** [idx] holds the [k] features of largest absolute attribution, largest
    first: it has [min k n] distinct valid indices, in descending order of
    [|sv[i]|], and no index left out has a larger [|sv[i]|] than one kept. *)
Definition ranked_top (sv : list float) (k : nat) (idx : list nat) : Prop :=
  List.length idx = Nat.min k (List.length sv) /\
  NoDup idx /\
  (forall i, In i idx -> i < List.length sv) /\
  StronglySorted (fun i j => PyFloat.le (abs_at sv j) (abs_at sv i) = true) idx /\
  (forall i j, In i idx -> j < List.length sv -> ~ In j idx ->
               PyFloat.le (abs_at sv j) (abs_at sv i) = true).

(** An [argsort] by insertion, a left-to-right [sum], and an explainer that
    returns fixed attributions in the pair-of-arrays shape. *)
Fixpoint insert_by (a : list float) (i : nat) (sorted : list nat) : list nat :=
  match sorted with
  | [] => [i]
  | j :: rest =>
      if PyFloat.le (nth i a nan) (nth j a nan) then i :: j :: rest
      else j :: insert_by a i rest
  end.

Definition argsort_insertion (a : list float) : list nat :=
  fold_right (insert_by a) [] (seq 0 (List.length a)).

Definition pair_explainer (negative positive : list float) (v0 v1 : float)
  : Explainer :=
  {| shap_values := fun _ => Ok (ShapList [[negative]; [positive]]);
     expected_value := ExpectedArray [v0; v1] |}.

Definition scenario_libs : Libs :=
  {| TreeExplainer := fun _ =>
       Ok (pair_explainer [-0.5; 2; -1; 0.25]%float [0.5; -2; 1; -0.25]%float
                          0.3%float (-0.3)%float);
     np_argsort := argsort_insertion;
     np_sum := fun a => fold_left PrimFloat.add a 0%float |}.

Definition scenario_frame : DataFrame :=
  pd_DataFrame [ ("age", PyInt 45); ("sex", PyInt 1);
                 ("symptoms_true_vertigo", PyFloat 1%float);
                 ("symptoms_nausea", PyFloat 0%float) ].

(** An explainer that returns fixed attributions in the single-array shape. *)
Definition single_explainer (sv : list float) (v : float) : Explainer :=
  {| shap_values := fun _ => Ok (ShapArray [sv]);
     expected_value := ExpectedScalar v |}.

(** The scoring of a model raises on this frame. *)
Definition fails (input_df : DataFrame) (item : string * Model) : bool :=
  match positive_class_probability (snd item) input_df with
  | Ok _ => false
  | Raise _ => true
  end.


(** The minutes the form records for the four duration options, in the
    order of the options. *)
Definition duration_minutes_values : list pyval :=
  [ PyFloat 0.5%float; PyInt 5; PyInt 120; PyInt 1440 ].

(** The summary the page shows for a form, written from the widgets. *)
Definition summary_of_form (ui : Streamlit) : Dict.t pyval :=
  [ ("환자 이름",
     match text_input ui "patient_name" with
     | EmptyString => PyStr "(미입력)"
     | name => PyStr name
     end);
    ("나이", PyInt (number_input ui "age"));
    ("성별", PyStr (if String.eqb (selectbox ui "sex") "여성" then "여성" else "남성"));
    ("회전성 어지럼증", PyStr (if checkbox ui "true_vertigo" then "예" else "아니오"));
    ("청력 저하", PyStr (if checkbox ui "hearing" then "예" else "아니오"));
    ("이명", PyStr (if checkbox ui "tinnitus" then "예" else "아니오")) ].

(** Where [load_models] stores the artifact of a label. *)
Definition temp_path (temp_dir name : string) : string :=
  os_path_join temp_dir ("label_" ++ lower name ++ "_model.joblib")%string.

(** The bounds the two number widgets enforce ([min_value], [max_value]). *)
Definition widget_bounds (ui : Streamlit) : Prop :=
  (10 <= number_input ui "age" <= 100)%Z /\
  (0 <= number_input ui "recent" <= 180)%Z.

(** A cell for which the label test [val == int(val)] does not raise. *)
Definition label_ok (v : pyval) : bool :=
  match v with
  | PyFloat f => negb (PrimFloat.is_nan f || PrimFloat.is_infinity f)
  | _ => true
  end.

(** An attribution vector of 82 distinct values, and the libraries that
    return it in the single-array shape. *)
Definition wide_sv : list float :=
  map (fun i => PyFloat.of_int (Z.of_nat i)) (seq 0 82).

Definition wide_libs : Libs :=
  {| TreeExplainer := fun _ => Ok (single_explainer wide_sv 0.5%float);
     np_argsort := argsort_insertion;
     np_sum := fun a => fold_left PrimFloat.add a 0%float |}.

(** The scenario's frame with the [sex] cell missing. *)
Definition nan_frame : DataFrame :=
  pd_DataFrame [ ("age", PyInt 45); ("sex", np_nan);
                 ("symptoms_true_vertigo", PyFloat 1%float);
                 ("symptoms_nausea", PyFloat 0%float) ].

(** A cell the frame can hold as a finite number. *)
Definition cell_ok (v : pyval) : bool :=
  is_number v && label_ok (to_float64 v).

(** An explainer whose attributions follow the input row, as SHAP's do: the
    attribution of feature [i] is [weights[i] * x[i]]. *)
Definition cell_float (v : pyval) : float :=
  match to_float64 v with
  | PyFloat f => f
  | _ => nan
  end.

Fixpoint weighted (weights : list float) (cells : list pyval) : list float :=
  match weights, cells with
  | weight :: weights', cell :: cells' =>
      PrimFloat.mul weight (cell_float cell) :: weighted weights' cells'
  | _, _ => []
  end.

Definition row_explainer (weights : list float) (v : float) : Explainer :=
  {| shap_values := fun input_df =>
       match df_values input_df with
       | row :: _ => Ok (ShapArray [weighted weights row])
       | [] => Raise IndexError
       end;
     expected_value := ExpectedScalar v |}.

Definition row_libs : Libs :=
  {| TreeExplainer := fun _ =>
       Ok (row_explainer [0.01; 0.6; 1; 0.8]%float (-0.3)%float);
     np_argsort := argsort_insertion;
     np_sum := fun a => fold_left PrimFloat.add a 0%float |}.

(** A second patient for the scenario's columns: age 30, male, nausea only. *)
Definition second_frame : DataFrame :=
  pd_DataFrame [ ("age", PyInt 30); ("sex", PyInt 0);
                 ("symptoms_true_vertigo", PyFloat 0%float);
                 ("symptoms_nausea", PyFloat 1%float) ].

(** The second ranking as the claim words it: every feature has an
    importance that belongs to the model (its overall mean absolute
    attribution, the same whatever vector is explained), and each importance
    chart sizes its bars by it and lists them in descending order. *)
Definition ranks_by_model_importance (libs : Libs) (model : Model) : Prop :=
  exists importance : string -> float,
    forall input_df disease_name errs w b errs',
      generate_shap_plot libs model input_df disease_name errs
      = (Some (w, b), errs') ->
      bar_values b = map importance (bar_features b) /\
      StronglySorted (fun f g => PyFloat.le (importance g) (importance f) = true)
                     (bar_features b).

(** The frame, its row 0 and the attribution vector [sv] fit together: one
    attribution and one finite cell per column, and [argsort] meets its
    contract on [|sv|]. *)
Definition renderable (libs : Libs) (input_df : DataFrame) (row : list pyval)
    (sv : list float) : Prop :=
  nth_error (df_values input_df) 0 = Some row /\
  List.length sv = List.length (columns input_df) /\
  List.length row = List.length sv /\
  Forall (fun v => label_ok v = true) (row_values row) /\
  is_argsort (map PrimFloat.abs sv) (np_argsort libs (map PrimFloat.abs sv)).

(** Everything the two figures show is taken from the attribution vector
    [sv] and the baseline [base_value]: both rankings are the head of the
    descending [argsort] of [|sv|]; the waterfall has the signed [sv[i]],
    their colours and the labels of the ten features, and the score
    [base_value + sum(sv)]; the importance chart has [|sv[i]|] and the names
    of the twenty features. *)
Definition shows (libs : Libs) (input_df : DataFrame) (row : list pyval)
    (sv : list float) (base_value : float) (w : Waterfall) (b : BarChart)
  : Prop :=
  let ranking := rev (np_argsort libs (map PrimFloat.abs sv)) in
  let top10 := firstn 10 ranking in
  let top20 := firstn 20 ranking in
  let name i := nth i (columns input_df) "" in
  waterfall_values w = map (fun i => nth i sv nan) top10 /\
  waterfall_labels w = map (fun i => (nth i (row_values row) np_nan, name i)) top10 /\
  waterfall_colors w
  = map (fun i => if PyFloat.gt (nth i sv nan) 0%float then "#ff6b6b" else "#4dabf7")
        top10 /\
  f_x w = PrimFloat.add base_value (np_sum libs sv) /\
  bar_features b = map name top20 /\
  bar_values b = map (fun i => PrimFloat.abs (nth i sv nan)) top20.

(* ================================================================== *)
(** * Facts about float comparison and dicts *)
(* ================================================================== *)

Module PyFloatFacts.
Import PyFloat.

Section Spec.

Lemma SFcompare_antisym (x y : spec_float) :
  SFcompare y x = option_map CompOpp (SFcompare x y).
Proof.
  destruct x as [sx|sx| |sx mx ex], y as [sy|sy| |sy my ey]; simpl;
    try reflexivity;
    try (destruct sx; reflexivity);
    try (destruct sy; reflexivity);
    try (destruct sx, sy; reflexivity).
  destruct sx, sy; try reflexivity;
    rewrite (Z.compare_antisym ex ey);
    destruct (ex ?= ey)%Z; simpl; try reflexivity;
    change (Pos.compare_cont Eq) with Pos.compare;
    rewrite (Pos.compare_antisym mx my);
    rewrite ?CompOpp_involutive; reflexivity.
Qed.

Lemma SFcompare_refl (x : spec_float) :
  x <> S754_nan -> SFcompare x x = Some Eq.
Proof.
  destruct x as [s|s| |s m e]; simpl; intros H; try congruence.
  - destruct s; reflexivity.
  - destruct s; rewrite Z.compare_refl;
      change (Pos.compare_cont Eq m m) with (Pos.compare m m);
      rewrite Pos.compare_refl; reflexivity.
Qed.

Lemma SFle_trans (x y z : spec_float) : SFle x y -> SFle y z -> SFle x z.
Proof.
  unfold SFle, SFleb.
  destruct x as [sx|sx| |sx mx ex], y as [sy|sy| |sy my ey],
           z as [sz|sz| |sz mz ez]; simpl;
    try discriminate; try reflexivity;
    try (destruct sx; simpl; try discriminate; try reflexivity;
         destruct sy; simpl; try discriminate; try reflexivity;
         destruct sz; simpl; try discriminate; reflexivity);
    try (destruct sx; simpl; try discriminate; try reflexivity;
         destruct sz; simpl; try discriminate; reflexivity);
    try (destruct sy; simpl; try discriminate; try reflexivity;
         destruct sz; simpl; try discriminate; reflexivity);
    try (destruct sx; simpl; try discriminate; try reflexivity;
         destruct sy; simpl; try discriminate; reflexivity).
  all: change (Pos.compare_cont Eq) with Pos.compare.
  all: destruct sx, sy, sz; simpl; try discriminate; try reflexivity.
  all: destruct (Z.compare_spec ex ey), (Z.compare_spec ey ez),
         (Z.compare_spec ex ez); simpl;
       try discriminate; try reflexivity; try lia; subst.
  all: destruct (Pos.compare_spec mx my), (Pos.compare_spec my mz),
         (Pos.compare_spec mx mz); simpl;
       try discriminate; try reflexivity; try lia.
Qed.

Lemma SFlt_le_trans (x y z : spec_float) : SFlt x y -> SFle y z -> SFlt x z.
Proof.
  unfold SFlt, SFle, SFltb, SFleb.
  destruct x as [sx|sx| |sx mx ex], y as [sy|sy| |sy my ey],
           z as [sz|sz| |sz mz ez]; simpl;
    try discriminate; try reflexivity;
    try (destruct sx; simpl; try discriminate; try reflexivity;
         destruct sy; simpl; try discriminate; try reflexivity;
         destruct sz; simpl; try discriminate; reflexivity);
    try (destruct sx; simpl; try discriminate; try reflexivity;
         destruct sz; simpl; try discriminate; reflexivity);
    try (destruct sy; simpl; try discriminate; try reflexivity;
         destruct sz; simpl; try discriminate; reflexivity);
    try (destruct sx; simpl; try discriminate; try reflexivity;
         destruct sy; simpl; try discriminate; reflexivity).
  all: change (Pos.compare_cont Eq) with Pos.compare.
  all: destruct sx, sy, sz; simpl; try discriminate; try reflexivity.
  all: destruct (Z.compare_spec ex ey), (Z.compare_spec ey ez),
         (Z.compare_spec ex ez); simpl;
       try discriminate; try reflexivity; try lia; subst.
  all: destruct (Pos.compare_spec mx my), (Pos.compare_spec my mz),
         (Pos.compare_spec mx mz); simpl;
       try discriminate; try reflexivity; try lia.
Qed.

Lemma SFle_lt_trans (x y z : spec_float) : SFle x y -> SFlt y z -> SFlt x z.
Proof.
  unfold SFlt, SFle, SFltb, SFleb.
  destruct x as [sx|sx| |sx mx ex], y as [sy|sy| |sy my ey],
           z as [sz|sz| |sz mz ez]; simpl;
    try discriminate; try reflexivity;
    try (destruct sx; simpl; try discriminate; try reflexivity;
         destruct sy; simpl; try discriminate; try reflexivity;
         destruct sz; simpl; try discriminate; reflexivity);
    try (destruct sx; simpl; try discriminate; try reflexivity;
         destruct sz; simpl; try discriminate; reflexivity);
    try (destruct sy; simpl; try discriminate; try reflexivity;
         destruct sz; simpl; try discriminate; reflexivity);
    try (destruct sx; simpl; try discriminate; try reflexivity;
         destruct sy; simpl; try discriminate; reflexivity).
  all: change (Pos.compare_cont Eq) with Pos.compare.
  all: destruct sx, sy, sz; simpl; try discriminate; try reflexivity.
  all: destruct (Z.compare_spec ex ey), (Z.compare_spec ey ez),
         (Z.compare_spec ex ez); simpl;
       try discriminate; try reflexivity; try lia; subst.
  all: destruct (Pos.compare_spec mx my), (Pos.compare_spec my mz),
         (Pos.compare_spec mx mz); simpl;
       try discriminate; try reflexivity; try lia.
Qed.

End Spec.

Lemma is_num_spec (a : float) :
is_num a = true <-> Prim2SF a <> S754_nan.
Proof.
unfold is_num. rewrite eqb_spec. unfold SFeqb. split.
- intros H E. rewrite E in H. discriminate.
- intros H. now rewrite SFcompare_refl.
Qed.

Lemma le_refl (a : float) : is_num a = true -> le a a = true.
Proof.
intros H. apply is_num_spec in H. unfold le.
rewrite leb_spec. unfold SFleb. now rewrite SFcompare_refl.
Qed.

Lemma le_trans (a b c : float) :
le a b = true -> le b c = true -> le a c = true.
Proof.
unfold le. rewrite !leb_spec. apply SFle_trans.
Qed.

Lemma le_is_num (a b : float) :
le a b = true -> is_num a = true /\ is_num b = true.
Proof.
unfold le. rewrite leb_spec, !is_num_spec. unfold SFleb.
destruct (Prim2SF a), (Prim2SF b); simpl; try discriminate;
  intros _; split; discriminate.
Qed.

(** When neither side is NaN, [not (a > b)] is [a <= b]. *)
Lemma gt_false_le (a b : float) :
is_num a = true -> is_num b = true -> gt a b = false -> le a b = true.
Proof.
unfold gt, le. rewrite ltb_spec, leb_spec, !is_num_spec.
unfold SFltb, SFleb. intros Ha Hb.
rewrite (SFcompare_antisym (Prim2SF a) (Prim2SF b)).
destruct (SFcompare (Prim2SF a) (Prim2SF b)) as [[]|] eqn:E; simpl;
  try reflexivity; try discriminate.
destruct (Prim2SF a), (Prim2SF b); simpl in E; congruence.
Qed.

Lemma gt_le (a b : float) : gt a b = true -> le b a = true.
Proof.
unfold gt, le. rewrite ltb_spec, leb_spec. unfold SFltb, SFleb.
destruct (SFcompare (Prim2SF b) (Prim2SF a)) as [[]|];
  try discriminate; reflexivity.
Qed.

(** [a > b] and [a <= b] exclude each other. *)
Lemma gt_not_le (a b : float) : gt a b = true -> le a b = false.
Proof.
unfold gt, le. rewrite ltb_spec, leb_spec. unfold SFltb, SFleb.
rewrite (SFcompare_antisym (Prim2SF a) (Prim2SF b)).
destruct (SFcompare (Prim2SF a) (Prim2SF b)) as [[]|];
  simpl; try discriminate; reflexivity.
Qed.

(** [a < b <= c] gives [a < c], and [a <= b < c] gives [a < c]. *)
Lemma gt_le_trans (a b c : float) :
gt b a = true -> le b c = true -> gt c a = true.
Proof.
unfold gt, le. rewrite !ltb_spec, leb_spec. apply SFlt_le_trans.
Qed.

Lemma le_gt_trans (a b c : float) :
le a b = true -> gt c b = true -> gt c a = true.
Proof.
unfold gt, le. rewrite !ltb_spec, leb_spec. apply SFle_lt_trans.
Qed.

(** A strictly greater float is not equal ([==]) to the smaller one. *)
Lemma gt_not_eqb (a b : float) : gt a b = true -> PrimFloat.eqb b a = false.
Proof.
unfold gt. rewrite ltb_spec, eqb_spec. unfold SFltb, SFeqb.
destruct (SFcompare (Prim2SF b) (Prim2SF a)) as [[]|];
  try discriminate; reflexivity.
Qed.

Lemma is_prob_is_num (p : float) : is_prob p = true -> is_num p = true.
Proof.
unfold is_prob. intros H. apply andb_true_iff in H as [H _].
now apply le_is_num in H.
Qed.

Lemma nan_not_num : is_num nan = false.
Proof. reflexivity. Qed.

Lemma zero_is_not_nan : 0%float <> nan.
Proof.
intros E. assert (H : is_num 0%float = is_num nan) by now rewrite E.
vm_compute in H. discriminate.
Qed.

End PyFloatFacts.
Module DictFacts.
Import Dict.

Section Lemmas.
Context {V : Type}.
Implicit Types (d : t V) (k : string) (v : V).

Lemma get_set_same d k v : get (set d k v) k = Some v.
Proof.
  induction d as [|[k' v'] r IH]; simpl.
  - now rewrite String.eqb_refl.
  - destruct (String.eqb k k') eqn:E; simpl; rewrite E; auto.
Qed.

Lemma get_set_other d k k' v : k' <> k -> get (set d k v) k' = get d k'.
Proof.
  intros Hne. induction d as [|[k0 v0] r IH]; simpl.
  - apply String.eqb_neq in Hne. now rewrite Hne.
  - destruct (String.eqb k k0) eqn:E; simpl.
    + apply String.eqb_eq in E. subst k0.
      apply String.eqb_neq in Hne. now rewrite Hne.
    + now rewrite IH.
Qed.

Lemma get_None_notin d k : get d k = None <-> ~ In k (keys d).
Proof.
  induction d as [|[k' v'] r IH]; simpl.
  - tauto.
  - destruct (String.eqb k k') eqn:E.
    + apply String.eqb_eq in E. subst. split; [discriminate | tauto].
    + apply String.eqb_neq in E. rewrite IH. split.
      * intros H [H1|H1]; [congruence | tauto].
      * tauto.
Qed.

Lemma get_In d k v : get d k = Some v -> In (k, v) d.
Proof.
  induction d as [|[k' v'] r IH]; simpl; [discriminate|].
  destruct (String.eqb k k') eqn:E.
  - apply String.eqb_eq in E. subst. intros [= ->]. now left.
  - auto.
Qed.

Lemma In_get d k v : wf d -> In (k, v) d -> get d k = Some v.
Proof.
  unfold wf. induction d as [|[k' v'] r IH]; simpl; [tauto|].
  intros Hnd [H|H]; inversion Hnd; subst.
  - injection H as -> ->. now rewrite String.eqb_refl.
  - destruct (String.eqb k k') eqn:E.
    + apply String.eqb_eq in E. subst. exfalso.
      apply H2. change (In (fst (k', v)) (map fst r)). now apply in_map.
    + auto.
Qed.

Lemma keys_set_mem d k v :
  In k (keys d) -> keys (set d k v) = keys d.
Proof.
  induction d as [|[k' v'] r IH]; simpl; [tauto|].
  destruct (String.eqb k k') eqn:E; simpl; [reflexivity|].
  apply String.eqb_neq in E.
  intros [H|H]; [congruence|]. f_equal. now apply IH.
Qed.

Lemma keys_set_new d k v :
  ~ In k (keys d) -> keys (set d k v) = keys d ++ [k].
Proof.
  induction d as [|[k' v'] r IH]; simpl; [reflexivity|].
  intros H. destruct (String.eqb k k') eqn:E; simpl.
  - apply String.eqb_eq in E. subst. tauto.
  - f_equal. apply IH. tauto.
Qed.

Lemma set_new d k v : ~ In k (keys d) -> set d k v = d ++ [(k, v)].
Proof.
  induction d as [|[k' v'] r IH]; simpl; [reflexivity|].
  intros H. destruct (String.eqb k k') eqn:E; simpl.
  - apply String.eqb_eq in E. subst. tauto.
  - f_equal. apply IH. tauto.
Qed.

End Lemmas.

End DictFacts.

(* ================================================================== *)
(** * Prediction engine: facts *)
(* ================================================================== *)

Section MaxLoop.

Variable key : string -> option float.
Variable f : string -> float.

(** The loop of [max] keeps the first item whose key no later item exceeds:
    everything before the winner is strictly smaller, nothing is greater. *)
Lemma max_loop_spec (rest : list string) :
  forall best,
    (forall k, In k (best :: rest) ->
               key k = Some (f k) /\ PyFloat.is_num (f k) = true) ->
    exists top pre post,
      max_loop key best (Some (f best)) rest = Ok top /\
      best :: rest = pre ++ top :: post /\
      (forall k, In k pre -> PyFloat.gt (f top) (f k) = true) /\
      (forall k, In k (best :: rest) -> PyFloat.le (f k) (f top) = true).
Proof.
  induction rest as [|item rest IH]; intros best Hkeys.
  - exists best, [], []. simpl.
    split; [reflexivity|]. split; [reflexivity|]. split; [tauto|].
    intros k [<-|[]]. apply PyFloatFacts.le_refl. apply Hkeys. now left.
  - simpl.
    destruct (Hkeys item) as [Hitem Hnum]; [right; now left|].
    destruct (Hkeys best) as [_ Hbest]; [now left|].
    rewrite Hitem.
    destruct (PyFloat.gt (f item) (f best)) eqn:Hgt.
    + destruct (IH item) as (top & pre & post & Hrun & Hsplit & Hpre & Hmax).
      { intros k Hk. apply Hkeys. now right. }
      exists top, (best :: pre), post. rewrite Hrun, Hsplit.
      assert (Hle : PyFloat.le (f item) (f top) = true)
        by (apply Hmax; now left).
      split; [reflexivity|]. split; [reflexivity|]. split.
      * intros k [<-|Hk]; [|now apply Hpre].
        now apply PyFloatFacts.gt_le_trans with (b := f item).
      * intros k [<-|Hk]; [|now apply Hmax].
        apply PyFloatFacts.le_trans with (b := f item); trivial.
        now apply PyFloatFacts.gt_le.
    + destruct (IH best) as (top & pre & post & Hrun & Hsplit & Hpre & Hmax).
      { intros k [<-|Hk]; apply Hkeys; [now left | right; now right]. }
      assert (Hib : PyFloat.le (f item) (f best) = true)
        by now apply PyFloatFacts.gt_false_le.
      assert (Hbt : PyFloat.le (f best) (f top) = true)
        by (apply Hmax; now left).
      rewrite Hrun. exists top.
      destruct pre as [|b pre'].
      * simpl in Hsplit. injection Hsplit as E1 E2. subst top post.
        exists [], (item :: rest).
        split; [reflexivity|]. split; [reflexivity|]. split.
        -- intros k [].
        -- intros k [<-|[<-|Hk]]; trivial. apply Hmax. now right.
      * simpl in Hsplit. injection Hsplit as E1 E2. subst b rest.
        exists (best :: item :: pre'), post.
        split; [reflexivity|]. split; [reflexivity|]. split.
        -- intros k [<-|[<-|Hk]].
           ++ apply Hpre. now left.
           ++ apply PyFloatFacts.le_gt_trans with (b := f best); trivial.
              apply Hpre. now left.
           ++ apply Hpre. now right.
        -- intros k [<-|[<-|Hk]]; trivial.
           ++ now apply PyFloatFacts.le_trans with (b := f best).
           ++ apply Hmax. now right.
Qed.

End MaxLoop.

Lemma get_in_keys {V : Type} (d : Dict.t V) (k : string) :
  In k (Dict.keys d) -> exists v, Dict.get d k = Some v.
Proof.
  intros Hin. destruct (Dict.get d k) as [v|] eqn:E; [now exists v|].
  apply DictFacts.get_None_notin in E. contradiction.
Qed.

Lemma get_some_in_keys {V : Type} (d : Dict.t V) (k : string) (v : V) :
  Dict.get d k = Some v -> In k (Dict.keys d).
Proof.
  intros H. apply DictFacts.get_In in H.
  change k with (fst (k, v)). now apply in_map.
Qed.

(** [get_top_prediction] on a non-empty dict of numbers: it returns, the
    label is a key, the probability is the label's entry, no entry is
    greater, and every key inserted before the label is strictly smaller. *)
Lemma get_top_prediction_spec (probabilities : Dict.t float) :
  probabilities <> [] ->
  (forall k p, Dict.get probabilities k = Some p -> PyFloat.is_num p = true) ->
  exists top p pre post,
    get_top_prediction probabilities = Ok (top, p) /\
    Dict.get probabilities top = Some p /\
    Dict.keys probabilities = pre ++ top :: post /\
    (forall k q, In k pre -> Dict.get probabilities k = Some q ->
                 PyFloat.gt p q = true) /\
    (forall k q, Dict.get probabilities k = Some q -> PyFloat.le q p = true).
Proof.
  intros Hne Hnum.
  set (f := fun k => Dict.get_default probabilities k nan).
  assert (Hkey : forall k, In k (Dict.keys probabilities) ->
            Dict.get probabilities k = Some (f k) /\ PyFloat.is_num (f k) = true).
  { intros k Hk. destruct (get_in_keys _ _ Hk) as [v Hv].
    unfold f, Dict.get_default. rewrite Hv. split; [reflexivity|].
    now apply (Hnum k). }
  unfold get_top_prediction, py_max.
  destruct (Dict.keys probabilities) as [|k0 rest] eqn:Ekeys.
  { destruct probabilities; [contradiction | discriminate]. }
  destruct (max_loop_spec (Dict.get probabilities) f rest k0 Hkey)
    as (top & pre & post & Hrun & Hsplit & Hpre & Hmax).
  destruct (Hkey k0) as [Hk0 _]; [now left|].
  rewrite Hk0, Hrun. simpl.
  assert (Htop : In top (k0 :: rest)).
  { rewrite Hsplit. apply in_or_app. right. now left. }
  destruct (Hkey top Htop) as [Hget _]. rewrite Hget.
  exists top, (f top), pre, post.
  split; [reflexivity|]. split; [assumption|]. split; [assumption|]. split.
  - intros k q Hk Hq.
    assert (Hin : In k (k0 :: rest)).
    { rewrite Hsplit. apply in_or_app. now left. }
    destruct (Hkey k Hin) as [Hfk _]. rewrite Hfk in Hq. injection Hq as <-.
    now apply Hpre.
  - intros k q Hq.
    assert (Hin : In k (k0 :: rest)).
    { rewrite <- Ekeys. eapply get_some_in_keys; eauto. }
    destruct (Hkey k Hin) as [Hfk _]. rewrite Hfk in Hq. injection Hq as <-.
    now apply Hmax.
Qed.

Lemma predict_fold (input_df : DataFrame) (models : list (string * Model)) :
  forall (acc : Dict.t float) (errs : log),
    NoDup (Dict.keys acc ++ map fst models) ->
    fold_left (predict_step input_df) models (acc, errs)
    = (acc ++ map (entry_of input_df) models,
       errs ++ flat_map (message_of input_df) models).
Proof.
  induction models as [|[name model] rest IH]; intros acc errs Hnd; simpl.
  - now rewrite !app_nil_r.
  - assert (Hnew : ~ In name (Dict.keys acc)).
    { intros Hin. apply NoDup_remove_2 in Hnd. apply Hnd.
      apply in_or_app. now left. }
    assert (Hnd' : forall p, NoDup (Dict.keys (acc ++ [(name, p)]) ++ map fst rest)).
    { intros p. unfold Dict.keys. rewrite map_app. simpl.
      rewrite <- app_assoc. exact Hnd. }
    unfold entry_of, message_of. simpl.
    destruct (positive_class_probability model input_df) as [prob|[e]].
    + rewrite DictFacts.set_new by assumption.
      rewrite IH by apply Hnd'. now rewrite <- app_assoc.
    + rewrite DictFacts.set_new by assumption.
      rewrite IH by apply Hnd'. now rewrite <- !app_assoc.
Qed.

Lemma predict_all_models_eq (models : Dict.t Model) (input_df : DataFrame)
    (errs : log) :
  Dict.wf models ->
  predict_all_models models input_df errs
  = (map (entry_of input_df) models,
     errs ++ flat_map (message_of input_df) models).
Proof.
  intros Hwf. unfold predict_all_models, Dict.items, Dict.empty.
  now rewrite predict_fold.
Qed.

Lemma get_map_entry (input_df : DataFrame) (models : Dict.t Model)
    (name : string) (model : Model) :
  Dict.get models name = Some model ->
  Dict.get (map (entry_of input_df) models) name
  = Some (snd (entry_of input_df (name, model))).
Proof.
  induction models as [|[k m] rest IH]; simpl; [discriminate|].
  destruct (String.eqb name k); [now intros [= ->] | exact IH].
Qed.

Lemma DISEASES_NoDup : NoDup DISEASES.
Proof. repeat constructor; simpl; intuition discriminate. Qed.

(* ================================================================== *)
(** * Prediction engine: verified properties *)
(* ================================================================== *)

Lemma scenario_probabilities_are_probs (d : Dict.t float) :
  d = scenario_probabilities \/ d = tied_probabilities ->
  forall k p, Dict.get d k = Some p -> PyFloat.is_prob p = true.
Proof.
  intros Hd k p H. apply DictFacts.get_In in H.
  destruct Hd; subst d; simpl in H;
    repeat (destruct H as [H|H]; [injection H as _ <-; reflexivity|]);
    contradiction.
Qed.

(** C2. For every PredictionResult over the five disease labels whose
    entries are probabilities, [get_top_prediction] returns a label of the
    fixed five-element set, the returned probability is the result's entry
    for that label, and it is greater than or equal to every entry. *)
Theorem C2_select_top_sound (probabilities : Dict.t float) :
  Permutation (Dict.keys probabilities) DISEASES ->
  (forall k p, Dict.get probabilities k = Some p -> PyFloat.is_prob p = true) ->
  exists label p,
    get_top_prediction probabilities = Ok (label, p) /\
    In label DISEASES /\
    Dict.get probabilities label = Some p /\
    (forall k q, Dict.get probabilities k = Some q -> PyFloat.le q p = true).
Proof.
  intros Hperm Hprob.
  destruct (get_top_prediction_spec probabilities)
    as (top & p & pre & post & Hrun & Hget & Hkeys & _ & Hmax).
  - intros ->. apply Permutation_nil in Hperm. discriminate.
  - intros k p Hk. apply PyFloatFacts.is_prob_is_num. eauto.
  - exists top, p. repeat split; trivial.
    apply (Permutation_in _ Hperm). rewrite Hkeys.
    apply in_or_app. right. now left.
Qed.

Lemma C2_select_top_sound_witness :
  exists label p,
    get_top_prediction scenario_probabilities = Ok (label, p) /\
    In label DISEASES /\
    Dict.get scenario_probabilities label = Some p /\
    (forall k q, Dict.get scenario_probabilities k = Some q ->
                 PyFloat.le q p = true).
Proof.
  apply (C2_select_top_sound scenario_probabilities).
  - apply Permutation_refl.
  - apply scenario_probabilities_are_probs. now left.
Defined.

Example scenario_top :
  get_top_prediction scenario_probabilities = Ok ("BPPV", 0.71%float).
Proof. reflexivity. Qed.

(** C10. When the PredictionResult lists the labels in the fixed order
    BPPV, VN, SSNHL, Meniere, Others, [get_top_prediction] returns the first
    label in that order whose probability is the maximum: no entry is
    greater than the returned one, every label before it is strictly
    smaller, so a label that ties with the maximum is never before it. *)
Theorem C10_tie_break_first (probabilities : Dict.t float) :
  Dict.keys probabilities = DISEASES ->
  (forall k p, Dict.get probabilities k = Some p -> PyFloat.is_prob p = true) ->
  exists label p before after,
    get_top_prediction probabilities = Ok (label, p) /\
    DISEASES = before ++ label :: after /\
    (forall k q, Dict.get probabilities k = Some q -> PyFloat.le q p = true) /\
    (forall k q, In k before -> Dict.get probabilities k = Some q ->
                 PyFloat.gt p q = true) /\
    (forall k q, Dict.get probabilities k = Some q ->
                 PrimFloat.eqb q p = true -> ~ In k before).
Proof.
  intros Hkeys Hprob.
  destruct (get_top_prediction_spec probabilities)
    as (top & p & pre & post & Hrun & Hget & Hsplit & Hpre & Hmax).
  - intros ->. discriminate.
  - intros k p Hk. apply PyFloatFacts.is_prob_is_num. eauto.
  - exists top, p, pre, post. rewrite <- Hkeys.
    repeat split; trivial.
    intros k q Hq Heq Hin.
    apply (Hpre k q Hin) in Hq.
    apply PyFloatFacts.gt_not_eqb in Hq. congruence.
Qed.

Lemma C10_tie_break_first_witness :
  exists label p before after,
    get_top_prediction tied_probabilities = Ok (label, p) /\
    DISEASES = before ++ label :: after /\
    (forall k q, Dict.get tied_probabilities k = Some q ->
                 PyFloat.le q p = true) /\
    (forall k q, In k before -> Dict.get tied_probabilities k = Some q ->
                 PyFloat.gt p q = true) /\
    (forall k q, Dict.get tied_probabilities k = Some q ->
                 PrimFloat.eqb q p = true -> ~ In k before).
Proof.
  apply (C10_tie_break_first tied_probabilities).
  - reflexivity.
  - apply scenario_probabilities_are_probs. now right.
Defined.

Example tied_top :
  get_top_prediction tied_probabilities = Ok ("VN", 0.4%float).
Proof. reflexivity. Qed.

(** C3. For a model set over the five disease labels, [predict_all_models]
    returns (it does not abort) a result with exactly the five labels, one
    entry each. The entry of a model whose scoring succeeds is the cell
    [predict_proba(input_df)[0][1]], the probability of the positive class.
    The entry of a model whose scoring raises (in [predict_proba] itself, or
    because the returned array has no cell [0][1]) is 0.0, and a message
    naming that model is appended to the error log, quoting the exception of
    [predict_proba]. The earlier messages are kept. *)
Theorem C3_predict_graceful (models : Dict.t Model) (input_df : DataFrame)
    (errs : log) :
  Dict.keys models = DISEASES ->
  exists probabilities new_errors,
    predict_all_models models input_df errs = (probabilities, errs ++ new_errors) /\
    Dict.keys probabilities = DISEASES /\
    (forall name model, Dict.get models name = Some model ->
       let failed (e : string) :=
         Dict.get probabilities name = Some 0%float /\
         In (name ++ " 모델 예측 오류: " ++ e)%string new_errors in
       match predict_proba model input_df with
       | Ok arr =>
           match nth_error arr 0 with
           | Some row =>
               match nth_error row 1 with
               | Some prob => Dict.get probabilities name = Some prob
               | None => exists e, failed e
               end
           | None => exists e, failed e
           end
       | Raise (Exception e) => failed e
       end).
Proof.
  intros Hkeys.
  assert (Hwf : Dict.wf models).
  { unfold Dict.wf. rewrite Hkeys. apply DISEASES_NoDup. }
  exists (map (entry_of input_df) models),
         (flat_map (message_of input_df) models).
  split; [now apply predict_all_models_eq|]. split.
  - rewrite <- Hkeys. unfold Dict.keys. rewrite map_map.
    apply map_ext. now intros [k m].
  - intros name model Hget failed. subst failed.
    pose proof (get_map_entry input_df models name model Hget) as Hentry.
    assert (Hmsg : forall e,
              positive_class_probability model input_df = Raise (Exception e) ->
              In (name ++ " 모델 예측 오류: " ++ e)%string
                 (flat_map (message_of input_df) models)).
    { intros e E. apply in_flat_map. exists (name, model). split.
      - now apply DictFacts.get_In.
      - unfold message_of. simpl. rewrite E. now left. }
    unfold entry_of in Hentry. cbn [fst snd] in Hentry.
    unfold positive_class_probability, getitem in Hentry, Hmsg.
    destruct (predict_proba model input_df) as [arr|[e]]; cbn [bind] in *.
    + destruct (nth_error arr 0) as [row|]; cbn [bind] in *.
      * destruct (nth_error row 1) as [prob|]; [exact Hentry|].
        eexists. split; [exact Hentry|]. now apply Hmsg.
      * eexists. split; [exact Hentry|]. now apply Hmsg.
    + split; [exact Hentry|]. now apply Hmsg.
Qed.

Lemma C3_predict_graceful_witness :
  exists probabilities new_errors,
    predict_all_models scenario_models empty_frame [] = (probabilities, [] ++ new_errors) /\
    Dict.keys probabilities = DISEASES /\
    (forall name model, Dict.get scenario_models name = Some model ->
       let failed (e : string) :=
         Dict.get probabilities name = Some 0%float /\
         In (name ++ " 모델 예측 오류: " ++ e)%string new_errors in
       match predict_proba model empty_frame with
       | Ok arr =>
           match nth_error arr 0 with
           | Some row =>
               match nth_error row 1 with
               | Some prob => Dict.get probabilities name = Some prob
               | None => exists e, failed e
               end
           | None => exists e, failed e
           end
       | Raise (Exception e) => failed e
       end).
Proof.
  apply (C3_predict_graceful scenario_models empty_frame []).
  reflexivity.
Defined.

Example scenario_one_failure :
  predict_all_models scenario_models empty_frame []
  = ([ ("BPPV", 0.71%float); ("VN", 0.20%float); ("SSNHL", 0%float);
       ("Meniere", 0.03%float); ("Others", 0.01%float) ],
     [ "SSNHL 모델 예측 오류: feature mismatch" ]).
Proof. reflexivity. Qed.

(* ================================================================== *)
(** * Form-to-vector mapper: facts *)
(* ================================================================== *)

Lemma INPUT_FEATURES_NoDup : NoDup INPUT_FEATURES.
Proof.
  assert (H : nodup string_dec INPUT_FEATURES = INPUT_FEATURES)
    by (vm_compute; reflexivity).
  rewrite <- H. apply NoDup_nodup.
Qed.

(** A dict comprehension over a list of distinct keys lists them in order. *)
Lemma comprehension_fold {V : Type} (g : string -> V) (names : list string) :
  forall acc : Dict.t V,
    NoDup (Dict.keys acc ++ names) ->
    fold_left (fun data k => Dict.set data k (g k)) names acc
    = acc ++ map (fun k => (k, g k)) names.
Proof.
  induction names as [|k rest IH]; intros acc Hnd; simpl.
  - now rewrite app_nil_r.
  - assert (Hnew : ~ In k (Dict.keys acc)).
    { intros Hin. apply NoDup_remove_2 in Hnd. apply Hnd.
      apply in_or_app. now left. }
    rewrite DictFacts.set_new by assumption.
    rewrite IH.
    + now rewrite <- app_assoc.
    + unfold Dict.keys. rewrite map_app. simpl. now rewrite <- app_assoc.
Qed.

Lemma input_data_eq (inputs : Dict.t pyval) :
  input_data inputs
  = map (fun feat => (feat, Dict.get_default inputs feat np_nan)) INPUT_FEATURES.
Proof.
  unfold input_data. rewrite comprehension_fold; [reflexivity|].
  apply INPUT_FEATURES_NoDup.
Qed.

Lemma keys_input_data (inputs : Dict.t pyval) :
  Dict.keys (input_data inputs) = INPUT_FEATURES.
Proof.
  rewrite input_data_eq. unfold Dict.keys. rewrite map_map. apply map_id.
Qed.

Lemma get_comprehension {V : Type} (g : string -> V) (names : list string)
    (k : string) :
  In k names -> Dict.get (map (fun k => (k, g k)) names) k = Some (g k).
Proof.
  induction names as [|k' rest IH]; simpl; [tauto|].
  destruct (String.eqb k k') eqn:E.
  - apply String.eqb_eq in E. now subst.
  - apply String.eqb_neq in E. intros [H|H]; [congruence | auto].
Qed.

Lemma get_input_data (inputs : Dict.t pyval) (feat : string) :
  In feat INPUT_FEATURES ->
  Dict.get (input_data inputs) feat
  = Some (Dict.get_default inputs feat np_nan).
Proof.
  intros Hin. rewrite input_data_eq.
  now apply (get_comprehension (fun feat => Dict.get_default inputs feat np_nan)).
Qed.

Lemma get_input_data_some (inputs : Dict.t pyval) (feat : string) (v : pyval) :
  In feat INPUT_FEATURES -> Dict.get inputs feat = Some v ->
  Dict.get (input_data inputs) feat = Some v.
Proof.
  intros Hin Hget. rewrite get_input_data by assumption.
  unfold Dict.get_default. now rewrite Hget.
Qed.

(** Two answer dicts that agree on the schema features give the same row. *)
Lemma input_data_ext (inputs1 inputs2 : Dict.t pyval) :
  (forall feat, In feat INPUT_FEATURES ->
                Dict.get inputs1 feat = Dict.get inputs2 feat) ->
  input_data inputs1 = input_data inputs2.
Proof.
  intros H. rewrite !input_data_eq. apply map_ext_in.
  intros feat Hin. unfold Dict.get_default. now rewrite (H feat Hin).
Qed.

(** Normalising the dict built by the form while keeping the widget reads. *)
Ltac form_cbv_in H :=
  cbv -[checked one_hot text_input number_input selectbox checkbox
        PyFloat.of_int] in H.

Ltac form_cbv :=
  cbv -[checked one_hot text_input number_input selectbox checkbox
        PyFloat.of_int].

(** From [create_sidebar_inputs ui = Ok inputs]: the three selections are
    options of their select boxes and [inputs] is the dict written out. *)
Ltac invert_form ui H :=
  let female := fresh "female" in
  let Hfemale := fresh "Hfemale" in
  unfold create_sidebar_inputs, getkey in H; cbv zeta in H;
  destruct (Dict.get frequency_options (selectbox ui "frequency"))
    as [?freq|] eqn:?Hfreq; [|form_cbv_in H; discriminate H];
  destruct (Dict.get duration_cat_options (selectbox ui "duration"))
    as [?dur|] eqn:?Hdur; [|form_cbv_in H; discriminate H];
  destruct (Dict.get duration_minutes_map (selectbox ui "duration"))
    as [?minutes|] eqn:?Hminutes; [|form_cbv_in H; discriminate H];
  destruct (Dict.get remote_cat_options (selectbox ui "remote"))
    as [?remote|] eqn:?Hremote; [|form_cbv_in H; discriminate H];
  remember (String.eqb (selectbox ui "sex") "여성") as female eqn:Hfemale;
  form_cbv_in H; injection H as H; subst female; symmetry in H.

Lemma create_sidebar_inputs_valid (ui : Streamlit) (inputs : Dict.t pyval) :
  create_sidebar_inputs ui = Ok inputs -> valid_form ui.
Proof.
  intros H. invert_form ui H.
  repeat split; eapply get_some_in_keys; eauto.
Qed.

Lemma duration_minutes_defined (s : string) :
  In s (Dict.keys duration_cat_options) ->
  exists minutes, Dict.get duration_minutes_map s = Some minutes.
Proof.
  simpl. intros H.
  repeat (destruct H as [H|H]; [subst s; eexists; reflexivity|]).
  contradiction.
Qed.

(** The mapper is total on valid forms. *)
Lemma create_sidebar_inputs_total (ui : Streamlit) :
  valid_form ui -> exists inputs, create_sidebar_inputs ui = Ok inputs.
Proof.
  intros (Hf & Hd & Hr).
  destruct (get_in_keys _ _ Hf) as [freq Hfreq].
  destruct (duration_minutes_defined _ Hd) as [minutes Hminutes].
  destruct (get_in_keys _ _ Hd) as [dur Hdur].
  destruct (get_in_keys _ _ Hr) as [remote Hremote].
  unfold create_sidebar_inputs, getkey. cbv zeta.
  rewrite Hfreq, Hdur, Hminutes, Hremote.
  remember (String.eqb (selectbox ui "sex") "여성") as female.
  form_cbv. eexists. reflexivity.
Qed.

Lemma in_schema_In (name : string) :
  in_schema name = true -> In name INPUT_FEATURES.
Proof.
  unfold in_schema. rewrite existsb_exists.
  intros (x & Hin & Heq). apply String.eqb_eq in Heq. now subst.
Qed.

Lemma map_get_input_data (inputs : Dict.t pyval) (names : list string) :
  forallb in_schema names = true ->
  map (Dict.get (input_data inputs)) names
  = map (fun name => Some (Dict.get_default inputs name np_nan)) names.
Proof.
  rewrite forallb_forall. intros H. apply map_ext_in.
  intros name Hin. apply get_input_data. apply in_schema_In. auto.
Qed.

Lemma not_missing_not_nan (v : pyval) : is_missing v = false -> v <> np_nan.
Proof. intros H ->. discriminate H. Qed.

Lemma checked_not_missing (ui : Streamlit) (key : string) :
  is_missing (checked ui key) = false.
Proof. unfold checked. now destruct (checkbox ui key). Qed.

Lemma one_hot_not_missing (selected option : string) :
  is_missing (one_hot selected option) = false.
Proof. unfold one_hot. now destruct (String.eqb selected option). Qed.

Lemma coded_option_not_missing (options : Dict.t Z) (s : string) (code : Z) :
  options = frequency_options \/ options = duration_cat_options \/
  options = remote_cat_options ->
  Dict.get options s = Some code ->
  is_missing (PyFloat (PyFloat.of_int code)) = false.
Proof.
  intros Hopt H. apply DictFacts.get_In in H.
  destruct Hopt as [ -> | [ -> | -> ] ]; simpl in H;
    repeat (destruct H as [H|H]; [injection H as _ <-; reflexivity|]);
    contradiction.
Qed.

Lemma minutes_not_missing (s : string) (minutes : pyval) :
  Dict.get duration_minutes_map s = Some minutes ->
  is_missing minutes = false.
Proof.
  intros H. apply DictFacts.get_In in H. simpl in H.
  repeat (destruct H as [H|H]; [injection H as _ <-; reflexivity|]).
  contradiction.
Qed.

(* ================================================================== *)
(** * Form-to-vector mapper: verified properties *)
(* ================================================================== *)

Lemma scenario_inputs_ok : create_sidebar_inputs scenario_form = Ok scenario_inputs.
Proof. vm_compute. reflexivity. Qed.

(** C5. For every answer set the form accepts, exactly one of the four
    duration-bucket indicators is 1.0 and the other three are 0.0 (in the
    [cat_gen] scheme and in its [cat_20m] copy), and exactly one of the four
    remote-onset indicators is 1.0 and the other three are 0.0; this holds
    in the form's dict and in the feature vector built from it. *)
Theorem C5_one_hot_exclusive (ui : Streamlit) (inputs : Dict.t pyval) :
  create_sidebar_inputs ui = Ok inputs ->
  (exists i, i < 4 /\
     map (Dict.get inputs) duration_gen_indicators = one_hot_vector i 4 /\
     map (Dict.get inputs) duration_20m_indicators = one_hot_vector i 4 /\
     features_at inputs duration_gen_indicators = one_hot_vector i 4 /\
     features_at inputs duration_20m_indicators = one_hot_vector i 4) /\
  (exists j, j < 4 /\
     map (Dict.get inputs) remote_indicators = one_hot_vector j 4 /\
     features_at inputs remote_indicators = one_hot_vector j 4).
Proof.
  intros H. invert_form ui H. subst inputs.
  apply DictFacts.get_In in Hdur, Hremote. simpl in Hdur, Hremote.
  split.
  - clear Hremote.
    destruct Hdur as [E|[E|[E|[E|[]]]]]; injection E as E _; rewrite <- E;
      [exists 0 | exists 1 | exists 2 | exists 3]; (split; [lia|]);
      unfold features_at; rewrite !map_get_input_data by reflexivity;
      form_cbv; repeat split; reflexivity.
  - clear Hdur.
    destruct Hremote as [E|[E|[E|[E|[]]]]]; injection E as E _; rewrite <- E;
      [exists 0 | exists 1 | exists 2 | exists 3]; (split; [lia|]);
      unfold features_at; rewrite !map_get_input_data by reflexivity;
      form_cbv; repeat split; reflexivity.
Qed.

Lemma C5_one_hot_exclusive_witness :
  (exists i, i < 4 /\
     map (Dict.get scenario_inputs) duration_gen_indicators = one_hot_vector i 4 /\
     map (Dict.get scenario_inputs) duration_20m_indicators = one_hot_vector i 4 /\
     features_at scenario_inputs duration_gen_indicators = one_hot_vector i 4 /\
     features_at scenario_inputs duration_20m_indicators = one_hot_vector i 4) /\
  (exists j, j < 4 /\
     map (Dict.get scenario_inputs) remote_indicators = one_hot_vector j 4 /\
     features_at scenario_inputs remote_indicators = one_hot_vector j 4).
Proof.
  apply (C5_one_hot_exclusive scenario_form scenario_inputs).
  vm_compute. reflexivity.
Defined.

(** C6. For every answer set the form accepts, each of the five
    [symptoms_duration_minutes_cat_20m] features equals the corresponding
    [symptoms_duration_minutes_cat_gen] feature, and
    [symptoms_agg_factor_position_change_combined] equals
    [symptoms_agg_factor_position_change], in the form's dict and in the
    feature vector built from it. *)
Theorem C6_aliases_lockstep (ui : Streamlit) (inputs : Dict.t pyval) :
  create_sidebar_inputs ui = Ok inputs ->
  Forall (in_lockstep inputs) lockstep_pairs /\
  Forall (in_lockstep (input_data inputs)) lockstep_pairs.
Proof.
  intros H. invert_form ui H. subst inputs.
  split; repeat constructor; unfold in_lockstep; simpl fst; simpl snd;
    rewrite ?get_input_data by (apply in_schema_In; reflexivity);
    eexists; split; form_cbv; reflexivity.
Qed.

Lemma C6_aliases_lockstep_witness :
  Forall (in_lockstep scenario_inputs) lockstep_pairs /\
  Forall (in_lockstep (input_data scenario_inputs)) lockstep_pairs.
Proof.
  apply (C6_aliases_lockstep scenario_form scenario_inputs).
  vm_compute. reflexivity.
Defined.

(** Every history or examination feature has a checkbox or is one of the
    features the form fills with 0.0. *)
Lemma history_exam_covered :
  Permutation history_and_exam_features
              (map fst history_exam_checkboxes ++ other_history ++ other_etc).
Proof.
  apply NoDup_Permutation.
  - apply NoDup_filter, INPUT_FEATURES_NoDup.
  - assert (H : nodup string_dec
                  (map fst history_exam_checkboxes ++ other_history ++ other_etc)
                = map fst history_exam_checkboxes ++ other_history ++ other_etc)
      by (vm_compute; reflexivity).
    rewrite <- H. apply NoDup_nodup.
  - intros x. split; intros Hx.
    + assert (Hb : forallb (fun a => existsb (String.eqb a)
                      (map fst history_exam_checkboxes ++ other_history ++ other_etc))
                     history_and_exam_features = true) by (vm_compute; reflexivity).
      rewrite forallb_forall in Hb. apply Hb in Hx.
      apply existsb_exists in Hx as (y & Hy & E).
      apply String.eqb_eq in E. now subst.
    + assert (Hb : forallb (fun a => existsb (String.eqb a) history_and_exam_features)
                     (map fst history_exam_checkboxes ++ other_history ++ other_etc)
                   = true) by (vm_compute; reflexivity).
      rewrite forallb_forall in Hb. apply Hb in Hx.
      apply existsb_exists in Hx as (y & Hy & E).
      apply String.eqb_eq in E. now subst.
Qed.

(** C1 (as the code has it). For every answer set the form accepts, the
    feature vector lists exactly the schema's feature names, in schema order,
    each once; the schema has 82 names. A schema feature that the answer dict
    lacks is NaN in the vector, but the form supplies every schema feature,
    so no cell of the vector is NaN: a history or examination feature with a
    checkbox holds float(checkbox), that is 1.0 or 0.0, and those without a
    widget hold 0.0. *)
Theorem C1_feature_vector_complete (ui : Streamlit) (inputs : Dict.t pyval) :
  create_sidebar_inputs ui = Ok inputs ->
  Dict.keys (input_data inputs) = INPUT_FEATURES /\
  List.length INPUT_FEATURES = 82%nat /\
  NoDup INPUT_FEATURES /\
  (forall feat, In feat INPUT_FEATURES ->
     exists v, Dict.get inputs feat = Some v /\
               Dict.get (input_data inputs) feat = Some v /\
               v <> np_nan) /\
  (forall feat key, In (feat, key) history_exam_checkboxes ->
     Dict.get (input_data inputs) feat = Some (checked ui key)) /\
  (forall feat, In feat (other_history ++ other_etc) ->
     Dict.get (input_data inputs) feat = Some (PyFloat 0%float)) /\
  (forall (answers : Dict.t pyval) feat,
     In feat INPUT_FEATURES -> Dict.get answers feat = None ->
     Dict.get (input_data answers) feat = Some np_nan).
Proof.
  intros H.
  split; [apply keys_input_data|].
  split; [reflexivity|].
  split; [apply INPUT_FEATURES_NoDup|].
  invert_form ui H. subst inputs.
  match goal with
  | |- context [input_data ?L] => set (form := L)
  end.
  split; [|split; [|split]].
  - assert (Hall : Forall (fun kv => is_missing (snd kv) = false) form).
    { subst form.
      repeat (apply Forall_cons; [simpl snd|]); [..|apply Forall_nil];
        try reflexivity;
        try apply checked_not_missing;
        try apply one_hot_not_missing;
        try (eapply minutes_not_missing; eassumption);
        (eapply coded_option_not_missing; [|eassumption]); auto. }
    assert (Hkeys : forallb (fun feat => existsb (String.eqb feat) (Dict.keys form))
                      INPUT_FEATURES = true)
      by (vm_compute; reflexivity).
    rewrite forallb_forall in Hkeys.
    intros feat Hin.
    destruct (get_in_keys form feat) as [v Hv].
    { apply Hkeys in Hin. apply existsb_exists in Hin as (y & Hy & E).
      apply String.eqb_eq in E. now subst. }
    exists v. split; [assumption|]. split.
    + now apply get_input_data_some.
    + apply not_missing_not_nan.
      apply DictFacts.get_In in Hv.
      rewrite Forall_forall in Hall. apply (Hall (feat, v) Hv).
  - assert (HF : Forall (fun p => Dict.get (input_data form) (fst p)
                                  = Some (checked ui (snd p)))
                   history_exam_checkboxes).
    { repeat constructor; simpl fst; simpl snd;
        rewrite get_input_data by (apply in_schema_In; reflexivity);
        subst form; form_cbv; reflexivity. }
    intros feat key Hin. rewrite Forall_forall in HF. apply (HF (feat, key) Hin).
  - assert (HF : Forall (fun feat => Dict.get (input_data form) feat
                                     = Some (PyFloat 0%float))
                   (other_history ++ other_etc)).
    { repeat constructor;
        rewrite get_input_data by (apply in_schema_In; reflexivity);
        subst form; form_cbv; reflexivity. }
    intros feat Hin. rewrite Forall_forall in HF. now apply HF.
  - intros answers feat Hin Hnone. rewrite get_input_data by assumption.
    unfold Dict.get_default. now rewrite Hnone.
Qed.

Lemma C1_feature_vector_complete_witness :
  Dict.keys (input_data scenario_inputs) = INPUT_FEATURES /\
  List.length INPUT_FEATURES = 82%nat /\
  NoDup INPUT_FEATURES /\
  (forall feat, In feat INPUT_FEATURES ->
     exists v, Dict.get scenario_inputs feat = Some v /\
               Dict.get (input_data scenario_inputs) feat = Some v /\
               v <> np_nan) /\
  (forall feat key, In (feat, key) history_exam_checkboxes ->
     Dict.get (input_data scenario_inputs) feat = Some (checked scenario_form key)) /\
  (forall feat, In feat (other_history ++ other_etc) ->
     Dict.get (input_data scenario_inputs) feat = Some (PyFloat 0%float)) /\
  (forall (answers : Dict.t pyval) feat,
     In feat INPUT_FEATURES -> Dict.get answers feat = None ->
     Dict.get (input_data answers) feat = Some np_nan).
Proof.
  apply (C1_feature_vector_complete scenario_form scenario_inputs).
  vm_compute. reflexivity.
Defined.

(** C1 as stated fails on the spec's own scenario: the vector has 82 cells,
    not 80, and every history and examination cell holds 0.0, which is not
    the NaN sentinel. *)
Lemma C1_counterexample :
  create_sidebar_inputs scenario_form = Ok scenario_inputs /\
  List.length (Dict.keys (input_data scenario_inputs)) = 82%nat /\
  (forall feat, In feat history_and_exam_features ->
     Dict.get (input_data scenario_inputs) feat = Some (PyFloat 0%float)) /\
  PyFloat 0%float <> np_nan /\
  ~ (List.length (Dict.keys (input_data scenario_inputs)) = 80%nat /\
     forall feat, In feat history_and_exam_features ->
       Dict.get (input_data scenario_inputs) feat = Some np_nan).
Proof.
  assert (Hzero : PyFloat 0%float <> np_nan)
    by (apply not_missing_not_nan; reflexivity).
  assert (Hcells : forall feat, In feat history_and_exam_features ->
            Dict.get (input_data scenario_inputs) feat = Some (PyFloat 0%float)).
  { assert (HF : forallb
        (fun feat => match Dict.get (input_data scenario_inputs) feat with
                     | Some (PyFloat f) => PrimFloat.Leibniz.eqb f 0%float
                     | _ => false
                     end) history_and_exam_features = true)
      by (vm_compute; reflexivity).
    rewrite forallb_forall in HF. intros feat Hin. apply HF in Hin.
    destruct (Dict.get (input_data scenario_inputs) feat) as [[| |f]|];
      try discriminate.
    apply FloatAxioms.Leibniz.eqb_spec in Hin. now subst. }
  split; [vm_compute; reflexivity|].
  split; [vm_compute; reflexivity|].
  split; [exact Hcells|].
  split; [exact Hzero|].
  intros [Hlen _]. vm_compute in Hlen. discriminate.
Qed.

(** [predict_all_models] appends its messages to the log it is given and
    is otherwise independent of that log. *)
Lemma predict_fold_log (input_df : DataFrame) (items : list (string * Model)) :
  forall (acc : Dict.t float) (errs : log),
    fold_left (predict_step input_df) items (acc, errs)
    = (fst (fold_left (predict_step input_df) items (acc, [])),
       errs ++ snd (fold_left (predict_step input_df) items (acc, []))).
Proof.
  induction items as [|[name model] rest IH]; intros acc errs; simpl.
  - now rewrite app_nil_r.
  - destruct (positive_class_probability model input_df) as [prob|[e]].
    + apply IH.
    + rewrite IH. simpl.
      rewrite (IH _ [(name ++ " 모델 예측 오류: " ++ e)%string]). simpl.
      now rewrite <- app_assoc.
Qed.

Lemma patient_name_not_a_feature : ~ In "patient_name" INPUT_FEATURES.
Proof.
  intros H.
  assert (Hb : existsb (String.eqb "patient_name") INPUT_FEATURES = false)
    by (vm_compute; reflexivity).
  apply not_true_iff_false in Hb. apply Hb.
  apply existsb_exists. exists "patient_name". split; [assumption|].
  apply String.eqb_refl.
Qed.

(** Two forms that differ only in their text inputs (the patient name)
    give dicts that agree on every schema feature. *)
Lemma forms_agree_on_features (ui1 ui2 : Streamlit) (inputs1 inputs2 : Dict.t pyval) :
  (forall key, number_input ui1 key = number_input ui2 key) ->
  (forall key, selectbox ui1 key = selectbox ui2 key) ->
  (forall key, checkbox ui1 key = checkbox ui2 key) ->
  create_sidebar_inputs ui1 = Ok inputs1 ->
  create_sidebar_inputs ui2 = Ok inputs2 ->
  forall feat, In feat INPUT_FEATURES ->
               Dict.get inputs1 feat = Dict.get inputs2 feat.
Proof.
  intros Hnum Hsel Hchk H1 H2.
  invert_form ui1 H1. invert_form ui2 H2. subst inputs1 inputs2.
  rewrite !Hsel in *.
  rewrite Hfreq in Hfreq0. rewrite Hdur in Hdur0.
  rewrite Hminutes in Hminutes0. rewrite Hremote in Hremote0.
  injection Hfreq0 as <-. injection Hdur0 as <-.
  injection Hminutes0 as <-. injection Hremote0 as <-.
  unfold checked. rewrite !Hnum, !Hchk.
  intros feat Hin.
  cbn [Dict.get].
  destruct (String.eqb feat "patient_name") eqn:E; [|reflexivity].
  apply String.eqb_eq in E. subst feat.
  now apply patient_name_not_a_feature in Hin.
Qed.

Example named_inputs_differ :
  Dict.get (named_inputs "Kim") "patient_name" = Some (PyStr "Kim") /\
  Dict.get (named_inputs "Lee") "patient_name" = Some (PyStr "Lee").
Proof. split; vm_compute; reflexivity. Qed.

(** C9. [predict_all_models] is a function of the model set and of the
    feature vector only: two answer dicts that agree on every schema feature
    give the same data frame, and on it the same PredictionResult and the
    same new error messages, whatever the error log held before; the
    [patient_name] entry is not a schema feature, so it has no influence. *)
Theorem C9_predict_depends_only_on_features (models : Dict.t Model)
    (inputs1 inputs2 : Dict.t pyval) (errs1 errs2 : log) :
  (forall feat, In feat INPUT_FEATURES ->
                Dict.get inputs1 feat = Dict.get inputs2 feat) ->
  ~ In "patient_name" INPUT_FEATURES /\
  input_df inputs1 = input_df inputs2 /\
  exists probabilities new_errors,
    predict_all_models models (input_df inputs1) errs1
    = (probabilities, errs1 ++ new_errors) /\
    predict_all_models models (input_df inputs2) errs2
    = (probabilities, errs2 ++ new_errors).
Proof.
  intros Hagree.
  split; [apply patient_name_not_a_feature|].
  assert (Hdf : input_df inputs1 = input_df inputs2).
  { unfold input_df. now rewrite (input_data_ext inputs1 inputs2 Hagree). }
  split; [exact Hdf|].
  rewrite <- Hdf. unfold predict_all_models.
  eexists. eexists. split; rewrite predict_fold_log; reflexivity.
Qed.

Lemma C9_predict_depends_only_on_features_witness :
  ~ In "patient_name" INPUT_FEATURES /\
  input_df (named_inputs "Kim") = input_df (named_inputs "Lee") /\
  exists probabilities new_errors,
    predict_all_models scenario_models (input_df (named_inputs "Kim")) []
    = (probabilities, [] ++ new_errors) /\
    predict_all_models scenario_models (input_df (named_inputs "Lee")) ["earlier"]
    = (probabilities, ["earlier"] ++ new_errors).
Proof.
  apply (C9_predict_depends_only_on_features scenario_models
           (named_inputs "Kim") (named_inputs "Lee") [] ["earlier"]).
  apply (forms_agree_on_features (named_form "Kim") (named_form "Lee"));
    try reflexivity; vm_compute; reflexivity.
Defined.

(* ================================================================== *)
(** * Model repository: facts and verified properties *)
(* ================================================================== *)

Lemma load_loop_spec (w : World) (service : Service) (temp_dir : string)
    (items : list (string * string)) :
  forall (models : Dict.t Model) (env : Env),
    NoDup (Dict.keys models ++ map fst items) ->
    match load_loop w service temp_dir items models env with
    | (Some loaded, env') =>
        errors env' = errors env /\
        Dict.keys loaded = Dict.keys models ++ map fst items /\
        (forall name model, Dict.get models name = Some model ->
                            Dict.get loaded name = Some model) /\
        (forall name file_id, In (name, file_id) items ->
           exists model, artifact w service file_id = Some model /\
                         Dict.get loaded name = Some model)
    | (None, env') =>
        (exists msg more, errors env' = errors env ++ msg :: more) /\
        (exists name file_id, In (name, file_id) items /\
                              artifact w service file_id = None)
    end.
Proof.
  induction items as [|[name file_id] rest IH]; intros models env Hnd.
  - simpl. rewrite app_nil_r. repeat split; trivial. intros ? ? [].
  - assert (Hnew : ~ In name (Dict.keys models)).
    { intros Hin. apply NoDup_remove_2 in Hnd. apply Hnd.
      apply in_or_app. now left. }
    cbn [load_loop]. unfold download_file_from_drive.
    assert (Hart : artifact w service file_id
                   = match get_media service file_id with
                     | Downloaded content =>
                         match joblib_load w content with
                         | Ok model => Some model
                         | Raise _ => None
                         end
                     | DownloadFailed _ _ => None
                     end) by reflexivity.
    destruct (get_media service file_id) as [content|partial [e]] eqn:Hmedia.
    + unfold load_artifact, write_file. cbn [files].
      rewrite DictFacts.get_set_same.
      destruct (joblib_load w content) as [model|[e]] eqn:Hload.
      * match goal with
        | |- context [load_loop w service temp_dir rest ?m ?e] =>
            specialize (IH m e)
        end.
        rewrite DictFacts.keys_set_new in IH by assumption.
        rewrite <- app_assoc in IH. specialize (IH Hnd).
        match type of IH with
        | match ?run with _ => _ end => destruct run as [[loaded|] env']
        end.
        -- destruct IH as (Herr & Hkeys & Hkeep & Hall).
           split; [exact Herr|]. split; [exact Hkeys|]. split.
           ++ intros n m Hget. apply Hkeep.
              rewrite DictFacts.get_set_other; [assumption|].
              intros ->. apply Hnew. eapply get_some_in_keys; eauto.
           ++ intros n fid [E|Hin].
              ** injection E as <- <-.
                 exists model. split; [exact Hart|].
                 apply Hkeep. apply DictFacts.get_set_same.
              ** now apply Hall.
        -- destruct IH as (Herr & n & fid & Hin & Hnone).
           split; [exact Herr|]. exists n, fid. split; [now right | exact Hnone].
      * split.
        -- eexists. exists []. reflexivity.
        -- exists name, file_id. split; [now left | exact Hart].
    + split.
      * exists ("파일 다운로드 오류: " ++ e)%string.
        exists [(name ++ " 모델 다운로드 실패")%string].
        destruct partial; cbn; now rewrite <- app_assoc.
      * exists name, file_id. split; [now left | exact Hart].
Qed.

Lemma load_models_keys (w : World) (env env' : Env) (models : Dict.t Model) :
  load_models w env = (Some models, env') -> Dict.keys models = DISEASES.
Proof.
  unfold load_models, get_google_drive_service.
  destruct (build_service w) as [service|[e]]; [|discriminate].
  pose proof (load_loop_spec w service (gettempdir w) (Dict.items FILE_IDS)
                Dict.empty env DISEASES_NoDup) as Hspec.
  intros H. rewrite H in Hspec. now destruct Hspec as (_ & Hkeys & _).
Qed.

(** The results the program hands to [get_top_prediction] list the labels
    in the order of [FILE_IDS]. *)
Lemma pipeline_result_order (w : World) (env env' : Env) (models : Dict.t Model)
    (input_df : DataFrame) (errs : log) :
  load_models w env = (Some models, env') ->
  Dict.keys (fst (predict_all_models models input_df errs)) = DISEASES.
Proof.
  intros H. apply load_models_keys in H.
  rewrite predict_all_models_eq
    by (unfold Dict.wf; rewrite H; apply DISEASES_NoDup).
  simpl. rewrite <- H. unfold Dict.keys. rewrite map_map.
  apply map_ext. now intros [k m].
Qed.

(** C4. [load_models] is all-or-nothing. It returns [None] exactly when the
    Drive client cannot be built or one of the five artifacts cannot be
    retrieved or deserialized, and then at least one error message has been
    appended to the log; a returned mapping has exactly the five disease
    labels, in the order of [FILE_IDS], each bound to the model
    deserialized from its own artifact, and nothing was logged. *)
Theorem C4_load_all_or_nothing (w : World) (env : Env) :
  (fst (load_models w env) = None <->
     (exists e, build_service w = Raise e) \/
     (exists service name file_id,
        build_service w = Ok service /\
        Dict.get FILE_IDS name = Some file_id /\
        artifact w service file_id = None)) /\
  match load_models w env with
  | (Some models, env') =>
      Dict.keys models = DISEASES /\
      errors env' = errors env /\
      exists service,
        build_service w = Ok service /\
        forall name file_id, Dict.get FILE_IDS name = Some file_id ->
          exists model, artifact w service file_id = Some model /\
                        Dict.get models name = Some model
  | (None, env') =>
      exists msg more, errors env' = errors env ++ msg :: more
  end.
Proof.
  unfold load_models, get_google_drive_service.
  destruct (build_service w) as [service|[e]] eqn:Hbuild.
  - pose proof (load_loop_spec w service (gettempdir w) (Dict.items FILE_IDS)
                  Dict.empty env DISEASES_NoDup) as Hspec.
    destruct (load_loop w service (gettempdir w) (Dict.items FILE_IDS)
                Dict.empty env) as [[models|] env'].
    + destruct Hspec as (Herr & Hkeys & _ & Hall).
      assert (Hget : forall name file_id, Dict.get FILE_IDS name = Some file_id ->
                exists model, artifact w service file_id = Some model /\
                              Dict.get models name = Some model).
      { intros name file_id H. apply Hall. now apply DictFacts.get_In. }
      split.
      * split; [discriminate|]. intros [[e He]|(s & n & fid & Hs & Hn & Hnone)].
        -- discriminate.
        -- injection Hs as <-. destruct (Hget n fid Hn) as (m & Hm & _).
           congruence.
      * split; [exact Hkeys|]. split; [exact Herr|].
        exists service. split; [reflexivity | exact Hget].
    + destruct Hspec as (Herr & n & fid & Hin & Hnone).
      split; [|exact Herr].
      split; [|reflexivity]. intros _. right.
      exists service, n, fid. split; [reflexivity|]. split; [|exact Hnone].
      apply DictFacts.In_get; [apply DISEASES_NoDup | exact Hin].
  - split.
    + split; [|reflexivity]. intros _. left. now exists (Exception e).
    + simpl. now exists ("Google Drive 인증 오류: " ++ e)%string, [].
Qed.

Example load_models_good :
  option_map Dict.keys (fst (load_models (world_with good_service) fresh_env))
  = Some DISEASES /\
  errors (snd (load_models (world_with good_service) fresh_env)) = [] /\
  Dict.keys (files (snd (load_models (world_with good_service) fresh_env)))
  = [ "/tmp/label_bppv_model.joblib"; "/tmp/label_vn_model.joblib";
      "/tmp/label_ssnhl_model.joblib"; "/tmp/label_meniere_model.joblib";
      "/tmp/label_others_model.joblib" ].
Proof. repeat split. Qed.

Example load_models_flaky :
  option_map Dict.keys (fst (load_models (world_with flaky_service) fresh_env))
  = None /\
  errors (snd (load_models (world_with flaky_service) fresh_env))
  = [ "파일 다운로드 오류: timeout"; "SSNHL 모델 다운로드 실패" ].
Proof. split; reflexivity. Qed.

(* ================================================================== *)
(** * Explanation engine: facts *)
(* ================================================================== *)

Lemma StronglySorted_app {A : Type} (R : A -> A -> Prop) (p q : list A) :
  StronglySorted R (p ++ q) <->
  StronglySorted R p /\ StronglySorted R q /\
  (forall x y, In x p -> In y q -> R x y).
Proof.
  induction p as [|a p IH]; simpl.
  - split.
    + intros H. repeat split; [constructor | assumption | intros ? ? []].
    + tauto.
  - split.
    + intros H. apply StronglySorted_inv in H as [Hs Hall].
      apply IH in Hs as (Hp & Hq & Hpq).
      rewrite Forall_forall in Hall.
      repeat split; trivial.
      * constructor; [assumption|]. apply Forall_forall.
        intros x Hx. apply Hall. apply in_or_app. now left.
      * intros x y [<-|Hx] Hy; [|now apply Hpq].
        apply Hall. apply in_or_app. now right.
    + intros (Hp & Hq & Hpq).
      apply StronglySorted_inv in Hp as [Hp Hall].
      rewrite Forall_forall in Hall.
      constructor.
      * apply IH. repeat split; trivial. intros x y Hx Hy. apply Hpq; tauto.
      * apply Forall_forall. intros x Hx. apply in_app_or in Hx as [Hx|Hx].
        -- now apply Hall.
        -- apply Hpq; tauto.
Qed.

Lemma StronglySorted_rev {A : Type} (R : A -> A -> Prop) (l : list A) :
  StronglySorted R l -> StronglySorted (fun x y => R y x) (rev l).
Proof.
  induction 1 as [|a l Hs IH Hall]; simpl; [constructor|].
  apply (StronglySorted_app (fun x y => R y x)). repeat split; trivial.
  - repeat constructor.
  - intros x y Hx [<-|[]]. rewrite Forall_forall in Hall.
    apply Hall. now apply in_rev.
Qed.

Lemma Sorted_impl {A : Type} (R R' : A -> A -> Prop) (l : list A) :
  (forall x y, R x y -> R' x y) -> Sorted R l -> Sorted R' l.
Proof.
  intros Himpl. induction 1 as [|a l Hs IH Hhd]; constructor; trivial.
  destruct Hhd; constructor. now apply Himpl.
Qed.

Lemma In_firstn {A : Type} (n : nat) (l : list A) (x : A) :
  In x (firstn n l) -> In x l.
Proof.
  intros H. rewrite <- (firstn_skipn n l). apply in_or_app. now left.
Qed.

Lemma nth_map_abs (sv : list float) (i : nat) :
  nth i (map PrimFloat.abs sv) nan = abs_at sv i.
Proof.
  unfold abs_at. change nan with (PrimFloat.abs nan) at 1. apply map_nth.
Qed.

Lemma top_indices_ranked (libs : Libs) (sv : list float) (k : nat) :
  is_argsort (map PrimFloat.abs sv) (np_argsort libs (map PrimFloat.abs sv)) ->
  ranked_top sv k (top_indices libs sv k).
Proof.
  intros [Hperm Hsorted]. unfold top_indices.
  set (idx := np_argsort libs (map PrimFloat.abs sv)) in *.
  rewrite length_map in Hperm.
  assert (Hdesc : StronglySorted
            (fun i j => PyFloat.le (abs_at sv j) (abs_at sv i) = true) (rev idx)).
  { apply (StronglySorted_rev
             (fun i j => PyFloat.le (abs_at sv i) (abs_at sv j) = true)).
    apply Sorted_StronglySorted.
    - intros x y z Hxy Hyz. eapply PyFloatFacts.le_trans; eauto.
    - eapply Sorted_impl; [|exact Hsorted]. intros i j. cbv beta.
      now rewrite !nth_map_abs. }
  assert (Hrev : Permutation (rev idx) (seq 0 (List.length sv))).
  { eapply Permutation_trans; [apply Permutation_sym, Permutation_rev|]. exact Hperm. }
  assert (Hnd : NoDup (rev idx)).
  { eapply Permutation_NoDup; [apply Permutation_sym; exact Hrev|]. apply seq_NoDup. }
  rewrite <- (firstn_skipn k (rev idx)) in Hdesc, Hnd.
  apply StronglySorted_app in Hdesc as (Hpre & _ & Hcross).
  repeat split.
  - rewrite length_firstn. f_equal.
    rewrite (Permutation_length Hrev). apply length_seq.
  - now apply NoDup_app_remove_r in Hnd.
  - intros i Hi. apply In_firstn in Hi.
    apply (Permutation_in _ Hrev) in Hi. apply in_seq in Hi. lia.
  - exact Hpre.
  - intros i j Hi Hj Hout. apply Hcross; [assumption|].
    assert (Hin : In j (rev idx)).
    { apply (Permutation_in _ (Permutation_sym Hrev)). apply in_seq. lia. }
    rewrite <- (firstn_skipn k (rev idx)) in Hin.
    apply in_app_or in Hin as [Hin|Hin]; [contradiction | assumption].
Qed.

Lemma take_spec {A : Type} (d : A) (a : list A) (idx : list nat) :
  forall l, take a idx = Ok l -> l = map (fun i => nth i a d) idx.
Proof.
  induction idx as [|i rest IH]; simpl; intros l H.
  - now injection H as <-.
  - unfold getitem in H.
    destruct (nth_error a i) as [x|] eqn:Hx; simpl in H; [|discriminate].
    destruct (take a rest) as [xs|] eqn:Hxs; simpl in H; [|discriminate].
    injection H as <-. f_equal; [|now apply IH].
    symmetry. now apply nth_error_nth.
Qed.

Lemma y_labels_spec (data : list pyval) :
  forall (features : list string) (labels : list (pyval * string)),
    y_labels data features = Ok labels ->
    List.length data = List.length features ->
    map snd labels = features.
Proof.
  induction data as [|val data IH]; intros [|feature features] labels H Hlen;
    simpl in *; try discriminate.
  - now injection H as <-.
  - destruct (y_label val feature) as [l|] eqn:Hl; simpl in H; [|discriminate].
    destruct (y_labels data features) as [ls|] eqn:Hls; simpl in H; [|discriminate].
    injection H as <-. simpl. f_equal.
    + unfold y_label in Hl. destruct val as [s|z|f].
      * now injection Hl as <-.
      * now injection Hl as <-.
      * destruct (PrimFloat.is_nan f || PrimFloat.is_infinity f);
          [discriminate | now injection Hl as <-].
    + apply IH; [assumption | lia].
Qed.

Lemma render_figures_inv (libs : Libs) (input_df : DataFrame) (sv : list float)
    (base_value : float) (w : Waterfall) (b : BarChart) :
  render_figures libs input_df sv base_value = Ok (w, b) ->
  let top10 := top_indices libs sv 10 in
  let top20 := top_indices libs sv 20 in
  waterfall_values w = map (fun i => nth i sv nan) top10 /\
  map snd (waterfall_labels w) = map (fun i => nth i (columns input_df) "") top10 /\
  f_x w = PrimFloat.add base_value (np_sum libs sv) /\
  bar_values b = map (abs_at sv) top20 /\
  bar_features b = map (fun i => nth i (columns input_df) "") top20.
Proof.
  unfold render_figures. intros H.
  destruct (take (columns input_df) (top_indices libs sv 10))
    as [top_features|] eqn:Hf; simpl in H; [|discriminate].
  destruct (take sv (top_indices libs sv 10))
    as [top_values|] eqn:Hv; simpl in H; [|discriminate].
  destruct (getitem (df_values input_df) 0) as [row|]; simpl in H; [|discriminate].
  destruct (take (row_values row) (top_indices libs sv 10))
    as [top_data|] eqn:Hd; simpl in H; [|discriminate].
  destruct (y_labels top_data top_features) as [labels|] eqn:Hl;
    simpl in H; [|discriminate].
  destruct (take (columns input_df) (top_indices libs sv 20))
    as [top_features_20|] eqn:Hf20; simpl in H; [|discriminate].
  destruct (take sv (top_indices libs sv 20))
    as [sv_20|] eqn:Hv20; simpl in H; [|discriminate].
  injection H as <- <-. simpl.
  apply (take_spec "") in Hf, Hf20.
  apply (take_spec nan) in Hv, Hv20.
  apply (take_spec np_nan) in Hd.
  repeat split; trivial.
  - rewrite <- Hf. apply (y_labels_spec _ _ _ Hl).
    subst top_data top_features. now rewrite !length_map.
  - subst sv_20. now rewrite map_map.
Qed.

Lemma generate_shap_plot_some (libs : Libs) (model : Model) (input_df : DataFrame)
    (disease_name : string) (errs errs' : log) (figures : Waterfall * BarChart) :
  generate_shap_plot libs model input_df disease_name errs = (Some figures, errs') ->
  shap_figures libs model input_df = Ok figures /\ errs' = errs.
Proof.
  unfold generate_shap_plot, shap_report.
  destruct (shap_figures libs model input_df) as [f|[e]]; [|discriminate].
  intros [= -> ->]. now split.
Qed.

(** A failed explanation is reported and returns no figure. *)
Lemma generate_shap_plot_none (libs : Libs) (model : Model) (input_df : DataFrame)
    (disease_name : string) (errs : log) (e : string) :
  shap_figures libs model input_df = Raise (Exception e) ->
  generate_shap_plot libs model input_df disease_name errs
  = (None, errs ++ [("SHAP 분석 오류: " ++ e)%string]).
Proof. unfold generate_shap_plot. now intros ->. Qed.

(* ================================================================== *)
(** * Explanation engine: verified properties *)
(* ================================================================== *)

(** C7 (as the code has it). [generate_shap_plot] computes the attribution
    vector [sv] of the single input row once and derives both rankings from
    it. The waterfall shows the ten features of largest [|sv[i]|], largest
    first, with their signed values [sv[i]]; the bar chart shows the twenty
    features of largest [|sv[i]|], largest first, with the magnitudes
    [|sv[i]|] of that same row: no mean over other rows is taken, and the
    first ranking is the head of the second. *)
Theorem C7_two_rankings (libs : Libs) (model : Model) (input_df : DataFrame)
    (disease_name : string) (errs errs' : log)
    (explainer : Explainer) (values : shap_output)
    (sv : list float) (base_value : float) (w : Waterfall) (b : BarChart) :
  TreeExplainer libs model = Ok explainer ->
  shap_values explainer input_df = Ok values ->
  select_attribution values (expected_value explainer) = Ok (sv, base_value) ->
  is_argsort (map PrimFloat.abs sv) (np_argsort libs (map PrimFloat.abs sv)) ->
  generate_shap_plot libs model input_df disease_name errs = (Some (w, b), errs') ->
  let top10 := top_indices libs sv 10 in
  let top20 := top_indices libs sv 20 in
  ranked_top sv 10 top10 /\
  waterfall_values w = map (fun i => nth i sv nan) top10 /\
  map snd (waterfall_labels w) = map (fun i => nth i (columns input_df) "") top10 /\
  ranked_top sv 20 top20 /\
  bar_values b = map (abs_at sv) top20 /\
  bar_features b = map (fun i => nth i (columns input_df) "") top20 /\
  top10 = firstn 10 top20.
Proof.
  intros Hexp Hval Hsel Hsort Hplot.
  apply generate_shap_plot_some in Hplot as [Hfig _].
  unfold shap_figures in Hfig. rewrite Hexp in Hfig. simpl in Hfig.
  rewrite Hval in Hfig. simpl in Hfig. rewrite Hsel in Hfig. simpl in Hfig.
  destruct (render_figures_inv _ _ _ _ _ _ Hfig) as (Hw & Hl & _ & Hb & Hbf).
  intros top10 top20. subst top10 top20.
  split; [now apply top_indices_ranked|].
  split; [exact Hw|]. split; [exact Hl|].
  split; [now apply top_indices_ranked|].
  split; [exact Hb|]. split; [exact Hbf|].
  unfold top_indices. now rewrite firstn_firstn.
Qed.

Lemma C7_two_rankings_witness :
  exists w b,
    generate_shap_plot scenario_libs (constant_model 0.71%float) scenario_frame
                       "BPPV" []
    = (Some (w, b), []) /\
    let sv := [0.5; -2; 1; -0.25]%float in
    let top10 := top_indices scenario_libs sv 10 in
    let top20 := top_indices scenario_libs sv 20 in
    ranked_top sv 10 top10 /\
    waterfall_values w = map (fun i => nth i sv nan) top10 /\
    map snd (waterfall_labels w)
    = map (fun i => nth i (columns scenario_frame) "") top10 /\
    ranked_top sv 20 top20 /\
    bar_values b = map (abs_at sv) top20 /\
    bar_features b = map (fun i => nth i (columns scenario_frame) "") top20 /\
    top10 = firstn 10 top20.
Proof.
  destruct (shap_figures scenario_libs (constant_model 0.71%float) scenario_frame)
    as [[w b]|] eqn:Hfig; [|vm_compute in Hfig; discriminate].
  assert (Hplot : generate_shap_plot scenario_libs (constant_model 0.71%float)
                    scenario_frame "BPPV" [] = (Some (w, b), []))
    by (unfold generate_shap_plot; rewrite Hfig; reflexivity).
  exists w, b. split; [exact Hplot|].
  apply (C7_two_rankings scenario_libs (constant_model 0.71%float) scenario_frame
           "BPPV" [] []
           (pair_explainer [-0.5; 2; -1; 0.25]%float [0.5; -2; 1; -0.25]%float
                           0.3%float (-0.3)%float)
           (ShapList [[[-0.5; 2; -1; 0.25]%float]; [[0.5; -2; 1; -0.25]%float]])
           [0.5; -2; 1; -0.25]%float (-0.3)%float w b).
  - reflexivity.
  - reflexivity.
  - reflexivity.
  - split.
    + vm_compute. apply NoDup_Permutation.
      * repeat constructor; simpl; intuition discriminate.
      * repeat constructor; simpl; intuition discriminate.
      * intros x. simpl. tauto.
    + vm_compute. repeat constructor.
  - exact Hplot.
Defined.

Example scenario_figures :
  shap_figures scenario_libs (constant_model 0.71%float) scenario_frame
  = Ok ({| waterfall_labels :=
             [ (PyFloat 1%float, "sex"); (PyFloat 1%float, "symptoms_true_vertigo");
               (PyFloat 45%float, "age"); (PyFloat 0%float, "symptoms_nausea") ];
           waterfall_values := [-2; 1; 0.5; -0.25]%float;
           waterfall_colors := [ "#4dabf7"; "#ff6b6b"; "#ff6b6b"; "#4dabf7" ];
           f_x := (-1.05)%float |},
        {| bar_features := [ "sex"; "symptoms_true_vertigo"; "age"; "symptoms_nausea" ];
           bar_values := [2; 1; 0.5; 0.25]%float |}).
Proof. vm_compute. reflexivity. Qed.

(** C7 as stated fails: with one model, the importance chart of the
    scenario's patient lists true vertigo, sex, age, nausea with bars 1,
    0.6, 0.45, 0, and that of a second patient lists nausea, age, sex, true
    vertigo with bars 0.8, 0.3, 0, 0. The bars are the magnitudes of the
    attributions of the row at hand, so no importance belonging to the model
    ranks both charts. *)
Lemma C7_counterexample :
  columns scenario_frame = columns second_frame /\
  (exists w b,
     generate_shap_plot row_libs (constant_model 0.71%float) scenario_frame "BPPV" []
     = (Some (w, b), []) /\
     bar_features b = [ "symptoms_true_vertigo"; "sex"; "age"; "symptoms_nausea" ] /\
     bar_values b = [1; 0.6; 0.45; 0]%float) /\
  (exists w b,
     generate_shap_plot row_libs (constant_model 0.71%float) second_frame "BPPV" []
     = (Some (w, b), []) /\
     bar_features b = [ "symptoms_nausea"; "age"; "symptoms_true_vertigo"; "sex" ] /\
     bar_values b = [0.8; 0.3; 0; 0]%float) /\
  ~ ranks_by_model_importance row_libs (constant_model 0.71%float).
Proof.
  split; [reflexivity|].
  destruct (generate_shap_plot row_libs (constant_model 0.71%float)
              scenario_frame "BPPV" []) as [[[w1 b1]|] errs1] eqn:H1;
    [|vm_compute in H1; discriminate].
  destruct (generate_shap_plot row_libs (constant_model 0.71%float)
              second_frame "BPPV" []) as [[[w2 b2]|] errs2] eqn:H2;
    [|vm_compute in H2; discriminate].
  assert (E1 : (b1, errs1)
               = ({| bar_features := [ "symptoms_true_vertigo"; "sex"; "age";
                                       "symptoms_nausea" ];
                     bar_values := [1; 0.6; 0.45; 0]%float |}, [])).
  { vm_compute in H1. now injection H1 as _ <- <-. }
  assert (E2 : (b2, errs2)
               = ({| bar_features := [ "symptoms_nausea"; "age";
                                       "symptoms_true_vertigo"; "sex" ];
                     bar_values := [0.8; 0.3; 0; 0]%float |}, [])).
  { vm_compute in H2. now injection H2 as _ <- <-. }
  injection E1 as -> ->. injection E2 as -> ->.
  split; [now exists w1; eexists|]. split; [now exists w2; eexists|].
  intros [importance Hrank].
  destruct (Hrank _ _ _ _ _ _ H1) as [Hbars1 _].
  destruct (Hrank _ _ _ _ _ _ H2) as [Hbars2 _].
  cbn [bar_values bar_features map] in Hbars1, Hbars2.
  injection Hbars1 as _ _ Hage1 _. injection Hbars2 as _ Hage2 _ _.
  rewrite <- Hage1 in Hage2.
  apply (f_equal (fun x => PrimFloat.ltb x 0.4%float)) in Hage2.
  vm_compute in Hage2. discriminate.
Qed.

(** The same attributions and baseline in the single-array shape give the
    same figures as the pair shape. *)
Example single_shape_same_figures :
  shap_figures {| TreeExplainer := fun _ =>
                    Ok (single_explainer [0.5; -2; 1; -0.25]%float (-0.3)%float);
                  np_argsort := argsort_insertion;
                  np_sum := np_sum scenario_libs |}
               (constant_model 0.71%float) scenario_frame
  = shap_figures scenario_libs (constant_model 0.71%float) scenario_frame.
Proof. vm_compute. reflexivity. Qed.

(* ================================================================== *)
(** * Prediction engine: edge cases and composition *)
(* ================================================================== *)

Lemma gt_nan_false (v : float) : PyFloat.gt v nan = false.
Proof.
  unfold PyFloat.gt. rewrite ltb_spec.
  replace (Prim2SF nan) with S754_nan by (vm_compute; reflexivity).
  reflexivity.
Qed.

Lemma gt_is_num (a b : float) : PyFloat.gt a b = true -> PyFloat.is_num a = true.
Proof.
  intros H. apply PyFloatFacts.gt_le in H.
  now apply PyFloatFacts.le_is_num in H.
Qed.

(** [max] over keys that all have a value: it returns one of the items; the
    winner is the first item or holds a number; an initial NaN is kept. *)
Lemma max_loop_any (key : string -> option float) (rest : list string) :
  forall best m,
    key best = Some m ->
    (forall k, In k rest -> exists v, key k = Some v) ->
    exists top v,
      max_loop key best (Some m) rest = Ok top /\
      In top (best :: rest) /\
      key top = Some v /\
      (top = best /\ v = m \/ PyFloat.is_num v = true) /\
      (PyFloat.is_num m = false -> top = best).
Proof.
  induction rest as [|item rest IH]; intros best m Hbest Hall.
  - exists best, m. simpl. repeat split; auto.
  - destruct (Hall item) as [v Hv]; [now left|].
    simpl. rewrite Hv.
    destruct (PyFloat.gt v m) eqn:Hgt.
    + destruct (IH item v Hv) as (top & u & Hrun & Hin & Hkey & Hcase & _).
      { intros k Hk. apply Hall. now right. }
      exists top, u. rewrite Hrun.
      split; [reflexivity|]. split; [now right|]. split; [assumption|]. split.
      * right. destruct Hcase as [[_ ->]|Hnum]; [|assumption].
        now apply gt_is_num in Hgt.
      * intros Hnan. exfalso.
        apply PyFloatFacts.gt_le, PyFloatFacts.le_is_num in Hgt.
        destruct Hgt as [Hm _]. congruence.
    + destruct (IH best m Hbest) as (top & u & Hrun & Hin & Hkey & Hcase & Hnan).
      { intros k Hk. apply Hall. now right. }
      exists top, u. rewrite Hrun.
      split; [reflexivity|]. split.
      { destruct Hin as [<-|Hin]; [now left | right; now right]. }
      split; [assumption|]. split; assumption.
Qed.

Lemma get_top_prediction_any (first : string) (p0 : float)
    (rest : list (string * float)) :
  let d := (first, p0) :: rest in
  exists top p,
    get_top_prediction d = Ok (top, p) /\
    In top (Dict.keys d) /\
    Dict.get d top = Some p /\
    (PyFloat.is_num p = false -> top = first) /\
    (PyFloat.is_num p0 = false -> top = first /\ p = p0).
Proof.
  intros d.
  assert (Hfirst : Dict.get d first = Some p0)
    by (unfold d; simpl; now rewrite String.eqb_refl).
  destruct (max_loop_any (Dict.get d) (Dict.keys rest) first p0 Hfirst)
    as (top & v & Hrun & Hin & Hkey & Hcase & Hnan).
  { intros k Hk. apply get_in_keys. now right. }
  exists top, v. unfold get_top_prediction.
  change (py_max (Dict.keys d) (Dict.get d))
    with (max_loop (Dict.get d) first (Dict.get d first) (Dict.keys rest)).
  rewrite Hfirst, Hrun. cbn [bind]. rewrite Hkey.
  split; [reflexivity|]. split; [exact Hin|]. split; [reflexivity|]. split.
  - intros Hv. destruct Hcase as [[-> _]|Hnum]; [reflexivity | congruence].
  - intros Hp0. specialize (Hnan Hp0). subst top. split; [reflexivity|].
    congruence.
Qed.

(** X1. [get_top_prediction] raises (ValueError) exactly on the empty
    result. On any other result, whatever floats it holds, it returns one of
    the result's labels with that label's entry; a NaN entry is returned only
    when it is the first entry, and a NaN first entry is always returned. *)
Theorem top_prediction_edge_cases (probabilities : Dict.t float) :
  match probabilities with
  | [] => get_top_prediction probabilities = Raise ValueError
  | (first, p0) :: _ =>
      exists top p,
        get_top_prediction probabilities = Ok (top, p) /\
        In top (Dict.keys probabilities) /\
        Dict.get probabilities top = Some p /\
        (PyFloat.is_num p = false -> top = first) /\
        (PyFloat.is_num p0 = false -> top = first /\ p = p0)
  end.
Proof.
  destruct probabilities as [|[first p0] rest]; [reflexivity|].
  apply get_top_prediction_any.
Qed.

Lemma predict_log (input_df : DataFrame) (items : list (string * Model)) :
  forall (acc : Dict.t float) (errs : log),
    snd (fold_left (predict_step input_df) items (acc, errs))
    = errs ++ flat_map (message_of input_df) items.
Proof.
  induction items as [|[name model] rest IH]; intros acc errs; simpl.
  - now rewrite app_nil_r.
  - unfold message_of at 1. simpl.
    destruct (positive_class_probability model input_df) as [prob|[e]].
    + apply IH.
    + rewrite IH. now rewrite <- app_assoc.
Qed.


Lemma one_message_exists (models : Dict.t Model) (input_df : DataFrame)
    (errs : log) :
  exists new_errors,
    snd (predict_all_models models input_df errs) = errs ++ new_errors.
Proof. eexists. apply predict_log. Qed.


(** X3. If the scoring of every one of the five models fails, the result
    still has a top prediction: all entries are 0.0 and the first label,
    BPPV, is returned with probability 0.0, after five messages. *)
Theorem all_models_fail (models : Dict.t Model) (input_df : DataFrame)
    (errs : log) :
  Dict.keys models = DISEASES ->
  (forall item, In item models -> fails input_df item = true) ->
  get_top_prediction (fst (predict_all_models models input_df errs))
  = Ok ("BPPV", 0%float) /\
  List.length (snd (predict_all_models models input_df errs))
  = (List.length errs + 5)%nat.
Proof.
  intros Hkeys Hfail.
  assert (Hwf : Dict.wf models)
    by (unfold Dict.wf; rewrite Hkeys; apply DISEASES_NoDup).
  assert (Hentry : forall item, In item models ->
            entry_of input_df item = (fst item, 0%float)).
  { intros item Hin. specialize (Hfail item Hin). unfold fails in Hfail.
    unfold entry_of.
    now destruct (positive_class_probability (snd item) input_df). }
  assert (Hmsg : forall item, In item models ->
            List.length (message_of input_df item) = 1%nat).
  { intros item Hin. specialize (Hfail item Hin). unfold fails in Hfail.
    unfold message_of.
    now destruct (positive_class_probability (snd item) input_df) as [|[e]]. }
  rewrite predict_all_models_eq by assumption. simpl fst. simpl snd.
  destruct models as [|i1 [|i2 [|i3 [|i4 [|i5 [|i6 rest]]]]]]; try discriminate.
  split.
  - simpl map. rewrite !Hentry by (simpl; tauto).
    injection Hkeys as -> -> -> -> ->. reflexivity.
  - rewrite length_app. f_equal. simpl flat_map. rewrite !length_app.
    rewrite !Hmsg by (simpl; tauto). reflexivity.
Qed.

Lemma all_models_fail_witness :
  get_top_prediction
    (fst (predict_all_models
            [ ("BPPV", failing_model "a"); ("VN", failing_model "b");
              ("SSNHL", failing_model "c"); ("Meniere", failing_model "d");
              ("Others", failing_model "e") ] empty_frame []))
  = Ok ("BPPV", 0%float) /\
  List.length
    (snd (predict_all_models
            [ ("BPPV", failing_model "a"); ("VN", failing_model "b");
              ("SSNHL", failing_model "c"); ("Meniere", failing_model "d");
              ("Others", failing_model "e") ] empty_frame []))
  = (List.length (@nil string) + 5)%nat.
Proof.
  apply all_models_fail.
  - reflexivity.
  - intros item Hin. simpl in Hin.
    repeat (destruct Hin as [<-|Hin]; [reflexivity|]). contradiction.
Defined.

(* ------------------------------------------------------------------ *)
(** ** The sorted column of [main] *)

Lemma insert_desc_perm (x : string * float) (l : list (string * float)) :
  Permutation (insert_desc x l) (x :: l).
Proof.
  induction l as [|y l IH]; simpl; [apply Permutation_refl|].
  destruct (PyFloat.gt (snd y) (snd x)); [|apply Permutation_refl].
  eapply Permutation_trans; [apply perm_skip, IH | apply perm_swap].
Qed.

Lemma sorted_by_probability_perm (l : list (string * float)) :
  Permutation (sorted_by_probability l) l.
Proof.
  induction l as [|x l IH]; simpl; [constructor|].
  eapply Permutation_trans; [apply insert_desc_perm | now apply perm_skip].
Qed.

Lemma insert_desc_sorted (x : string * float) (l : list (string * float)) :
  PyFloat.is_num (snd x) = true ->
  Forall (fun y => PyFloat.is_num (snd y) = true) l ->
  StronglySorted (fun a b => PyFloat.le (snd b) (snd a) = true) l ->
  StronglySorted (fun a b => PyFloat.le (snd b) (snd a) = true) (insert_desc x l).
Proof.
  intros Hx Hnum Hs. induction Hs as [|y l Hs IH Hall]; simpl.
  - repeat constructor.
  - apply Forall_cons_iff in Hnum as [Hy Hnum].
    destruct (PyFloat.gt (snd y) (snd x)) eqn:Hgt.
    + constructor; [now apply IH|].
      eapply Permutation_Forall; [apply Permutation_sym, insert_desc_perm|].
      constructor; [now apply PyFloatFacts.gt_le | assumption].
    + assert (Hyx : PyFloat.le (snd y) (snd x) = true)
        by now apply PyFloatFacts.gt_false_le.
      constructor; [now constructor|].
      constructor; [assumption|].
      eapply Forall_impl; [|exact Hall]. intros z Hz.
      now apply PyFloatFacts.le_trans with (b := snd y).
Qed.

Lemma sorted_by_probability_sorted (l : list (string * float)) :
  Forall (fun y => PyFloat.is_num (snd y) = true) l ->
  StronglySorted (fun a b => PyFloat.le (snd b) (snd a) = true)
                 (sorted_by_probability l).
Proof.
  induction 1 as [|x l Hx Hl IH]; simpl; [constructor|].
  apply insert_desc_sorted; trivial.
  eapply Permutation_Forall; [apply Permutation_sym, sorted_by_probability_perm|].
  assumption.
Qed.

(** The head of the stable descending sort is the first maximal item. *)
Lemma sorted_by_probability_head (l : list (string * float)) :
  l <> [] ->
  exists h tail pre post,
    sorted_by_probability l = h :: tail /\
    l = pre ++ h :: post /\
    (forall x, In x pre -> PyFloat.gt (snd h) (snd x) = true).
Proof.
  induction l as [|x l IH]; intros Hne; [contradiction|].
  destruct l as [|y l'].
  - exists x, [], [], []. simpl. repeat split; trivial. intros ? [].
  - destruct IH as (h & tail & pre & post & Hs & Hsplit & Hpre); [discriminate|].
    change (sorted_by_probability (x :: y :: l'))
      with (insert_desc x (sorted_by_probability (y :: l'))).
    rewrite Hs. simpl.
    destruct (PyFloat.gt (snd h) (snd x)) eqn:Hgt.
    + exists h, (insert_desc x tail), (x :: pre), post.
      split; [reflexivity|]. split; [now rewrite Hsplit|].
      intros z [<-|Hz]; [assumption | now apply Hpre].
    + exists x, (h :: tail), [], (y :: l').
      split; [reflexivity|]. split; [reflexivity|]. intros ? [].
Qed.

Lemma NoDup_split_unique {A : Type} (a a' b b' : list A) (x : A) :
  NoDup (a ++ x :: b) -> a ++ x :: b = a' ++ x :: b' -> a = a' /\ b = b'.
Proof.
  revert a'. induction a as [|y a IH]; intros a' Hnd Heq.
  - destruct a' as [|y' a'].
    + simpl in Heq. injection Heq as ->. now split.
    + simpl in Heq. injection Heq as <- Heq. exfalso.
      inversion Hnd as [|? ? Hnotin _]. apply Hnotin. rewrite Heq.
      apply in_or_app. right. now left.
  - destruct a' as [|y' a'].
    + simpl in Heq. injection Heq as -> Heq. exfalso.
      inversion Hnd as [|? ? Hnotin _]. apply Hnotin.
      apply in_or_app. right. now left.
    + simpl in Heq. injection Heq as <- Heq.
      inversion Hnd as [|? ? _ Hnd']. destruct (IH a' Hnd' Heq) as [-> ->].
      now split.
Qed.

Lemma StronglySorted_map {A B : Type} (f : A -> B) (R : B -> B -> Prop)
    (l : list A) :
  StronglySorted (fun a b => R (f a) (f b)) l -> StronglySorted R (map f l).
Proof.
  induction 1 as [|a l Hs IH Hall]; simpl; constructor; trivial.
  apply Forall_map. exact Hall.
Qed.

(** X4. The "probability per disease" column of [main], for a result whose
    entries are numbers: its rows are the entries of the result, each once,
    in descending order of probability; the first row is the top prediction
    and carries the green marker, every other row carries the white one. *)
Theorem rows_start_with_top (probabilities : Dict.t float) (top : string)
    (p : float) :
  Dict.wf probabilities ->
  (forall k q, Dict.get probabilities k = Some q -> PyFloat.is_num q = true) ->
  get_top_prediction probabilities = Ok (top, p) ->
  exists others,
    probability_rows probabilities top = ("🟢", top, p) :: others /\
    Forall (fun row => fst (fst row) = "⚪") others /\
    Permutation (map (fun row => (snd (fst row), snd row))
                     (probability_rows probabilities top))
                probabilities /\
    StronglySorted (fun a b => PyFloat.le b a = true)
                   (map snd (probability_rows probabilities top)).
Proof.
  intros Hwf Hnum Hrun.
  assert (Hne : probabilities <> []).
  { intros ->. discriminate Hrun. }
  destruct (get_top_prediction_spec probabilities Hne Hnum)
    as (top' & p' & pre2 & post2 & Hrun' & Hget & Hkeys & Hstrict & Hmax).
  rewrite Hrun in Hrun'. injection Hrun' as <- <-.
  assert (Hall : Forall (fun y => PyFloat.is_num (snd y) = true) probabilities).
  { apply Forall_forall. intros [k q] Hin. apply (Hnum k).
    now apply DictFacts.In_get. }
  pose proof (sorted_by_probability_perm probabilities) as Hperm.
  pose proof (sorted_by_probability_sorted probabilities Hall) as Hsorted.
  destruct (sorted_by_probability_head probabilities Hne)
    as (h & tail & pre & post & Hs & Hsplit & Hpre).
  assert (Hh : Dict.get probabilities (fst h) = Some (snd h)).
  { apply DictFacts.In_get; [assumption|]. rewrite Hsplit.
    destruct h. apply in_or_app. right. now left. }
  assert (Hhmax : forall x, In x probabilities ->
            PyFloat.le (snd x) (snd h) = true).
  { intros x Hx. apply (Permutation_in _ (Permutation_sym Hperm)) in Hx.
    rewrite Hs in Hx, Hsorted. destruct Hx as [<-|Hx].
    - apply PyFloatFacts.le_refl. now apply (Hnum (fst h)).
    - apply StronglySorted_inv in Hsorted as [_ Hf].
      rewrite Forall_forall in Hf. now apply Hf. }
  assert (Heq : h = (top, p)).
  { assert (Hin : In (top, p) probabilities) by now apply DictFacts.get_In.
    rewrite Hsplit in Hin. apply in_app_or in Hin as [Hin|[Hin|Hin]].
    - exfalso. apply Hpre in Hin. simpl in Hin.
      apply PyFloatFacts.gt_not_le in Hin.
      rewrite (Hmax (fst h) (snd h) Hh) in Hin. discriminate.
    - assumption.
    - exfalso. apply in_split in Hin as (q1 & q2 & Hpost).
      assert (Hk : Dict.keys probabilities
                   = (map fst pre ++ fst h :: map fst q1) ++ top :: map fst q2).
      { rewrite Hsplit, Hpost. unfold Dict.keys.
        rewrite map_app. simpl. rewrite map_app. simpl.
        now rewrite <- app_assoc. }
      assert (Hnd : NoDup ((map fst pre ++ fst h :: map fst q1)
                           ++ top :: map fst q2)).
      { rewrite <- Hk. exact Hwf. }
      rewrite Hkeys in Hk. symmetry in Hk.
      destruct (NoDup_split_unique _ _ _ _ _ Hnd Hk) as [Hpre2 _].
      assert (Hin2 : In (fst h) pre2).
      { rewrite <- Hpre2. apply in_or_app. right. now left. }
      pose proof (Hstrict (fst h) (snd h) Hin2 Hh) as Hgt.
      apply PyFloatFacts.gt_not_le in Hgt.
      assert (Hle : PyFloat.le (snd (top, p)) (snd h) = true)
        by (apply Hhmax; now apply DictFacts.get_In).
      simpl in Hle. congruence. }
  subst h.
  assert (Hnd : NoDup (map fst ((top, p) :: tail))).
  { rewrite <- Hs. eapply Permutation_NoDup; [|exact Hwf].
    apply Permutation_map. now apply Permutation_sym. }
  unfold probability_rows, Dict.items. rewrite Hs.
  exists (map (fun item =>
                 (if String.eqb (fst item) top then "🟢" else "⚪",
                  fst item, snd item)) tail).
  split; [simpl; now rewrite String.eqb_refl|]. split; [|split].
  - apply Forall_map. apply Forall_forall. intros x Hx. simpl.
    destruct (String.eqb (fst x) top) eqn:E; [|reflexivity].
    apply String.eqb_eq in E. exfalso.
    simpl in Hnd. inversion Hnd as [|? ? Hnotin _]. apply Hnotin.
    rewrite <- E. now apply in_map.
  - rewrite <- Hs, map_map. simpl.
    erewrite map_ext; [rewrite map_id; exact Hperm|].
    now intros [k q].
  - rewrite <- Hs, map_map. simpl.
    apply (StronglySorted_map snd). exact Hsorted.
Qed.

Lemma rows_start_with_top_witness :
  exists others,
    probability_rows tied_probabilities "VN" = ("🟢", "VN", 0.4%float) :: others /\
    Forall (fun row => fst (fst row) = "⚪") others /\
    Permutation (map (fun row => (snd (fst row), snd row))
                     (probability_rows tied_probabilities "VN"))
                tied_probabilities /\
    StronglySorted (fun a b => PyFloat.le b a = true)
                   (map snd (probability_rows tied_probabilities "VN")).
Proof.
  apply rows_start_with_top.
  - repeat constructor; simpl; intuition discriminate.
  - intros k q H. apply PyFloatFacts.is_prob_is_num.
    revert k q H. apply scenario_probabilities_are_probs. now right.
  - reflexivity.
Defined.

Example tied_rows :
  probability_rows tied_probabilities "VN"
  = [ ("🟢", "VN", 0.4%float); ("⚪", "Meniere", 0.4%float);
      ("⚪", "SSNHL", 0.25%float); ("⚪", "BPPV", 0.1%float);
      ("⚪", "Others", 0%float) ].
Proof. reflexivity. Qed.

(* ================================================================== *)
(** * Form-to-vector mapper: further properties *)
(* ================================================================== *)

Lemma permutation_by_check (l1 l2 : list string) :
  nodup string_dec l1 = l1 ->
  nodup string_dec l2 = l2 ->
  forallb (fun a => existsb (String.eqb a) l2) l1 = true ->
  forallb (fun a => existsb (String.eqb a) l1) l2 = true ->
  NoDup l1 /\ Permutation l1 l2.
Proof.
  intros H1 H2 H12 H21.
  assert (N1 : NoDup l1) by (rewrite <- H1; apply NoDup_nodup).
  assert (N2 : NoDup l2) by (rewrite <- H2; apply NoDup_nodup).
  split; [exact N1|]. apply NoDup_Permutation; trivial.
  rewrite forallb_forall in H12, H21.
  intros x. split; intros Hx; [apply H12 in Hx | apply H21 in Hx];
    apply existsb_exists in Hx as (y & Hy & E);
    apply String.eqb_eq in E; now subst.
Qed.

(** X5. The dict the form returns has 83 distinct keys: [patient_name] and
    the 82 schema features, nothing else. So the comprehension of [main]
    drops exactly the patient name and never falls back on its default. *)
Theorem form_keys (ui : Streamlit) (inputs : Dict.t pyval) :
  create_sidebar_inputs ui = Ok inputs ->
  Dict.wf inputs /\
  List.length inputs = 83%nat /\
  Permutation (Dict.keys inputs) ("patient_name" :: INPUT_FEATURES).
Proof.
  intros H. invert_form ui H. subst inputs.
  unfold Dict.wf. cbn [Dict.keys map fst].
  match goal with
  | |- NoDup ?K /\ _ /\ Permutation ?K ?L =>
      destruct (permutation_by_check K L) as [Hnd Hperm];
        [vm_compute; reflexivity ..|]
  end.
  split; [exact Hnd|]. split; [reflexivity | exact Hperm].
Qed.

Lemma form_keys_witness :
  Dict.wf scenario_inputs /\
  List.length scenario_inputs = 83%nat /\
  Permutation (Dict.keys scenario_inputs) ("patient_name" :: INPUT_FEATURES).
Proof.
  apply (form_keys scenario_form). vm_compute. reflexivity.
Defined.

(** X6. The three encodings of a selection agree. For the duration box, the
    option at position [i] gives the ordinal code [i + 1], the one-hot
    vector with 1.0 at [i] and the [i]-th of the minutes 0.5, 5, 120, 1440;
    for the remote-onset box, position [j] gives code [j] and the one-hot
    vector at [j]; for the frequency box, position [k] gives code [k + 1]. *)
Theorem selection_encodings_agree (ui : Streamlit) (inputs : Dict.t pyval) :
  create_sidebar_inputs ui = Ok inputs ->
  (exists i,
     nth_error (Dict.keys duration_cat_options) i = Some (selectbox ui "duration") /\
     Dict.get (input_data inputs) "symptoms_duration_minutes_cat_gen"
     = Some (PyFloat (PyFloat.of_int (Z.of_nat (S i)))) /\
     features_at inputs duration_gen_indicators = one_hot_vector i 4 /\
     Dict.get (input_data inputs) "symptoms_duration_minutes"
     = nth_error duration_minutes_values i) /\
  (exists j,
     nth_error (Dict.keys remote_cat_options) j = Some (selectbox ui "remote") /\
     Dict.get (input_data inputs) "symptom_remote_cat"
     = Some (PyFloat (PyFloat.of_int (Z.of_nat j))) /\
     features_at inputs remote_indicators = one_hot_vector j 4) /\
  (exists k,
     nth_error (Dict.keys frequency_options) k = Some (selectbox ui "frequency") /\
     Dict.get (input_data inputs) "symptoms_frequency"
     = Some (PyFloat (PyFloat.of_int (Z.of_nat (S k))))).
Proof.
  intros H. invert_form ui H. subst inputs.
  apply DictFacts.get_In in Hfreq, Hdur, Hminutes, Hremote.
  simpl in Hfreq, Hdur, Hminutes, Hremote.
  split; [|split].
  - clear Hfreq Hremote.
    destruct Hdur as [E|[E|[E|[E|[]]]]]; injection E as E <-;
      rewrite <- E in *; clear E;
      repeat (destruct Hminutes as [Hminutes|Hminutes];
              [try discriminate Hminutes; injection Hminutes as <-|]);
      try contradiction;
      [exists 0 | exists 1 | exists 2 | exists 3];
      unfold features_at;
      rewrite !map_get_input_data by reflexivity;
      rewrite !get_input_data by (apply in_schema_In; reflexivity);
      form_cbv; repeat split; reflexivity.
  - clear Hfreq Hdur Hminutes.
    destruct Hremote as [E|[E|[E|[E|[]]]]]; injection E as E <-;
      rewrite <- E in *; clear E;
      [exists 0 | exists 1 | exists 2 | exists 3];
      unfold features_at;
      rewrite !map_get_input_data by reflexivity;
      rewrite !get_input_data by (apply in_schema_In; reflexivity);
      form_cbv; repeat split; reflexivity.
  - clear Hdur Hminutes Hremote.
    destruct Hfreq as [E|[E|[E|[E|[E|[]]]]]]; injection E as E <-;
      rewrite <- E in *; clear E;
      [exists 0 | exists 1 | exists 2 | exists 3 | exists 4];
      rewrite !get_input_data by (apply in_schema_In; reflexivity);
      form_cbv; repeat split; reflexivity.
Qed.

Lemma selection_encodings_agree_witness :
  (exists i,
     nth_error (Dict.keys duration_cat_options) i
     = Some (selectbox scenario_form "duration") /\
     Dict.get (input_data scenario_inputs) "symptoms_duration_minutes_cat_gen"
     = Some (PyFloat (PyFloat.of_int (Z.of_nat (S i)))) /\
     features_at scenario_inputs duration_gen_indicators = one_hot_vector i 4 /\
     Dict.get (input_data scenario_inputs) "symptoms_duration_minutes"
     = nth_error duration_minutes_values i) /\
  (exists j,
     nth_error (Dict.keys remote_cat_options) j
     = Some (selectbox scenario_form "remote") /\
     Dict.get (input_data scenario_inputs) "symptom_remote_cat"
     = Some (PyFloat (PyFloat.of_int (Z.of_nat j))) /\
     features_at scenario_inputs remote_indicators = one_hot_vector j 4) /\
  (exists k,
     nth_error (Dict.keys frequency_options) k
     = Some (selectbox scenario_form "frequency") /\
     Dict.get (input_data scenario_inputs) "symptoms_frequency"
     = Some (PyFloat (PyFloat.of_int (Z.of_nat (S k))))).
Proof.
  apply (selection_encodings_agree scenario_form scenario_inputs).
  vm_compute. reflexivity.
Defined.

Lemma form_lookups (ui : Streamlit) (inputs : Dict.t pyval) :
  create_sidebar_inputs ui = Ok inputs ->
  getkey inputs "patient_name" = Ok (PyStr (text_input ui "patient_name")) /\
  summary_data inputs = Ok (summary_of_form ui).
Proof.
  intros H. invert_form ui H. subst inputs.
  split; [reflexivity|].
  unfold summary_data, summary_of_form, getkey, yes_no.
  cbn [Dict.get String.eqb Ascii.eqb Bool.eqb bind].
  unfold checked, PyFloat.of_bool.
  destruct (text_input ui "patient_name");
    destruct (String.eqb (selectbox ui "sex") "여성");
    destruct (checkbox ui "true_vertigo");
    destruct (checkbox ui "hearing");
    destruct (checkbox ui "tinnitus"); reflexivity.
Qed.

(** X7. The summary of the page reads the answers back from the dict: the
    name typed in (or the placeholder when it is empty), the age entered,
    the sex selected (the codes 1 and 0 decode to the two options), and yes
    or no for the three symptoms exactly as their checkboxes were ticked. *)
Theorem summary_shows_answers (ui : Streamlit) (inputs : Dict.t pyval) :
  create_sidebar_inputs ui = Ok inputs ->
  summary_data inputs = Ok (summary_of_form ui).
Proof.
  intros H. now apply form_lookups.
Qed.

Lemma summary_shows_answers_witness :
  summary_data (named_inputs "Kim") = Ok (summary_of_form (named_form "Kim")).
Proof.
  apply summary_shows_answers. vm_compute. reflexivity.
Defined.

(* ================================================================== *)
(** * Main app: verified properties *)
(* ================================================================== *)

Lemma names_defined (top : string) :
  In top DISEASES -> exists shown, Dict.get DISEASE_NAMES_KR top = Some shown.
Proof.
  simpl. intros H.
  repeat (destruct H as [<-|H]; [eexists; reflexivity|]). contradiction.
Qed.

Lemma probability_rows_length (probabilities : Dict.t float) (top : string) :
  List.length (probability_rows probabilities top) = List.length probabilities.
Proof.
  unfold probability_rows. rewrite length_map.
  apply Permutation_length, sorted_by_probability_perm.
Qed.

Lemma generate_shap_plot_log (libs : Libs) (model : Model) (input_df : DataFrame)
    (name : string) (errs : log) :
  exists new, snd (generate_shap_plot libs model input_df name errs) = errs ++ new.
Proof.
  unfold generate_shap_plot, shap_report.
  destruct (shap_figures libs model input_df) as [f|[e]]; simpl.
  - exists []. now rewrite app_nil_r.
  - eexists. reflexivity.
Qed.

(** X8. Once the five models are loaded and the form is valid, pressing the
    button always yields the prediction page: none of the lookups of [main]
    raises, whatever the models return (failures and NaN included) and
    whether or not the explanation is available. The page names one of the
    five diseases with that disease's entry of the result, lists five rows,
    and shows the summary of the form; the log only grows and no file is
    touched. *)
Theorem main_predicts (w : World) (libs : Libs) (ui : Streamlit) (env env1 : Env)
    (models : Dict.t Model) :
  load_models w env = (Some models, env1) ->
  valid_form ui ->
  exists inputs page env2 top new_errors,
    create_sidebar_inputs ui = Ok inputs /\
    main w libs ui true env = (Ok (Predicted page), env2) /\
    In top DISEASES /\
    Dict.get DISEASE_NAMES_KR top = Some (diagnosis page) /\
    Dict.get (fst (predict_all_models models (input_df inputs) (errors env1))) top
    = Some (top_probability page) /\
    List.length (rows page) = 5%nat /\
    summary page = summary_of_form ui /\
    errors env2 = errors env1 ++ new_errors /\
    files env2 = files env1.
Proof.
  intros Hload Hvalid.
  destruct (create_sidebar_inputs_total ui Hvalid) as [inputs Hinputs].
  destruct (form_lookups ui inputs Hinputs) as [Hname Hsummary].
  pose proof (pipeline_result_order w env env1 models (input_df inputs)
                (errors env1) Hload) as Hkeys.
  pose proof (load_models_keys w env env1 models Hload) as Hmodels.
  destruct (one_message_exists models (input_df inputs) (errors env1))
    as [new1 Hlog].
  unfold main. rewrite Hload, Hinputs. unfold show_prediction.
  destruct (predict_all_models models (input_df inputs) (errors env1))
    as [probabilities errs1] eqn:Hpredict.
  simpl in Hkeys, Hlog. subst errs1.
  destruct probabilities as [|[first p0] rest]; [discriminate Hkeys|].
  destruct (get_top_prediction_any first p0 rest)
    as (top & p & Htop & Hin & Hget & _).
  rewrite Hkeys in Hin.
  destruct (names_defined top Hin) as [shown Hshown].
  destruct (get_in_keys models top) as [model Hmodel];
    [now rewrite Hmodels|].
  unfold prediction_lookups. rewrite Htop. cbn [bind].
  rewrite Hname. cbn [bind]. unfold getkey at 1. rewrite Hshown.
  cbn [bind]. unfold getkey at 1. rewrite Hmodel. cbn [bind].
  destruct (generate_shap_plot_log libs model (input_df inputs) top
              (errors env1 ++ new1)) as [new2 Hlog2].
  destruct (generate_shap_plot libs model (input_df inputs) top
              (errors env1 ++ new1)) as [figs errs2].
  simpl in Hlog2. subst errs2. rewrite Hsummary.
  eexists inputs, _, _, top, (new1 ++ new2).
  split; [reflexivity|]. split; [reflexivity|]. split; [exact Hin|].
  split; [exact Hshown|]. split; [rewrite Hpredict; exact Hget|]. split.
  { simpl. rewrite probability_rows_length.
    apply (f_equal (@List.length string)) in Hkeys.
    unfold Dict.keys in Hkeys. rewrite length_map in Hkeys. exact Hkeys. }
  split; [reflexivity|]. split; [simpl; now rewrite app_assoc | reflexivity].
Qed.

Lemma main_predicts_witness :
  exists models env1,
    load_models (world_with good_service) fresh_env = (Some models, env1) /\
    exists inputs page env2 top new_errors,
      create_sidebar_inputs scenario_form = Ok inputs /\
      main (world_with good_service) scenario_libs scenario_form true fresh_env
      = (Ok (Predicted page), env2) /\
      In top DISEASES /\
      Dict.get DISEASE_NAMES_KR top = Some (diagnosis page) /\
      Dict.get (fst (predict_all_models models (input_df inputs) (errors env1))) top
      = Some (top_probability page) /\
      List.length (rows page) = 5%nat /\
      summary page = summary_of_form scenario_form /\
      errors env2 = errors env1 ++ new_errors /\
      files env2 = files env1.
Proof.
  destruct (load_models (world_with good_service) fresh_env)
    as [[models|] env1] eqn:Hload; [|vm_compute in Hload; discriminate].
  exists models, env1. split; [reflexivity|].
  apply (main_predicts (world_with good_service) scenario_libs scenario_form
           fresh_env env1 models Hload).
  repeat split; simpl; auto.
Defined.

Lemma load_models_broken (w : World) (env : Env) (service : Service)
    (name file_id : string) :
  build_service w = Ok service ->
  Dict.get FILE_IDS name = Some file_id ->
  artifact w service file_id = None ->
  exists env1 msg more,
    load_models w env = (None, env1) /\
    errors env1 = errors env ++ msg :: more.
Proof.
  intros Hbuild Hid Hnone.
  unfold load_models, get_google_drive_service. rewrite Hbuild.
  pose proof (load_loop_spec w service (gettempdir w) (Dict.items FILE_IDS)
                Dict.empty env DISEASES_NoDup) as Hspec.
  destruct (load_loop w service (gettempdir w) (Dict.items FILE_IDS)
              Dict.empty env) as [[models|] env1].
  - destruct Hspec as (_ & _ & _ & Hall).
    destruct (Hall name file_id) as (m & Hm & _);
      [now apply DictFacts.get_In | congruence].
  - destruct Hspec as ((msg & more & Herr) & _).
    now exists env1, msg, more.
Qed.

(** X9. A single artifact that cannot be retrieved or deserialized stops the
    whole app: [main] ends in [st.stop()] whatever the form holds and whether
    or not the button was pressed, after the loader's message(s) and the
    final "cannot load the models" message; no prediction is attempted. *)
Theorem main_stops_on_broken_artifact (w : World) (libs : Libs) (ui : Streamlit)
    (predict_button : bool) (env : Env) (service : Service)
    (name file_id : string) :
  build_service w = Ok service ->
  Dict.get FILE_IDS name = Some file_id ->
  artifact w service file_id = None ->
  exists env2 msg more,
    main w libs ui predict_button env = (Ok Stopped, env2) /\
    errors env2 = errors env ++ (msg :: more) ++ [load_failed_message].
Proof.
  intros Hbuild Hid Hnone.
  destruct (load_models_broken w env service name file_id Hbuild Hid Hnone)
    as (env1 & msg & more & Hload & Herr).
  unfold main. rewrite Hload.
  exists (st_error load_failed_message env1), msg, more.
  split; [reflexivity|]. simpl. rewrite Herr. now rewrite <- app_assoc.
Qed.

Lemma main_stops_on_broken_artifact_witness :
  exists env2 msg more,
    main (world_with flaky_service) scenario_libs scenario_form true fresh_env
    = (Ok Stopped, env2) /\
    errors env2 = errors fresh_env ++ (msg :: more) ++ [load_failed_message].
Proof.
  apply (main_stops_on_broken_artifact (world_with flaky_service) scenario_libs
           scenario_form true fresh_env flaky_service
           "SSNHL" "1EiKOeCMv55m3021VW5FNTZcylZLATSTE");
    reflexivity.
Defined.

(* ================================================================== *)
(** * Model repository: the temporary files *)
(* ================================================================== *)

Lemma append_cancel_l (a b1 b2 : string) :
  (a ++ b1)%string = (a ++ b2)%string -> b1 = b2.
Proof.
  induction a as [|c a IH]; simpl; [auto|].
  intros H. injection H as H. now apply IH.
Qed.

Lemma os_path_join_inj (a b1 b2 : string) :
  os_path_join a b1 = os_path_join a b2 -> b1 = b2.
Proof.
  unfold os_path_join. destruct a as [|c a]; [auto|].
  destruct (String.eqb _ "/"); intros H.
  - now apply append_cancel_l in H.
  - apply append_cancel_l in H. now apply (append_cancel_l "/") in H.
Qed.

Lemma NoDup_map_inj {A B : Type} (f : A -> B) (l : list A) :
  (forall x y, f x = f y -> x = y) -> NoDup l -> NoDup (map f l).
Proof.
  intros Hinj. induction 1 as [|x l Hnotin Hnd IH]; simpl; constructor; trivial.
  intros Hin. apply in_map_iff in Hin as (y & Hy & Hin).
  apply Hinj in Hy. now subst.
Qed.

(** The five temporary paths are pairwise distinct, in every directory. *)
Lemma temp_paths_NoDup (temp_dir : string) :
  NoDup (map (temp_path temp_dir) DISEASES).
Proof.
  unfold temp_path.
  rewrite <- (map_map (fun name => ("label_" ++ lower name ++ "_model.joblib")%string)
                      (os_path_join temp_dir)).
  apply NoDup_map_inj; [apply os_path_join_inj|].
  repeat constructor; simpl; intuition discriminate.
Qed.

Lemma load_loop_files (w : World) (service : Service) (temp_dir : string)
    (items : list (string * string)) :
  forall (models loaded : Dict.t Model) (env env' : Env),
    NoDup (map (temp_path temp_dir) (map fst items)) ->
    load_loop w service temp_dir items models env = (Some loaded, env') ->
    (forall name file_id, In (name, file_id) items ->
       exists content,
         get_media service file_id = Downloaded content /\
         Dict.get (files env') (temp_path temp_dir name) = Some content) /\
    (forall path, ~ In path (map (temp_path temp_dir) (map fst items)) ->
                  Dict.get (files env') path = Dict.get (files env) path).
Proof.
  induction items as [|[name file_id] rest IH];
    intros models loaded env env' Hnd Hrun.
  - simpl in Hrun. injection Hrun as _ <-. split; [intros ? ? []|reflexivity].
  - cbn [load_loop] in Hrun. unfold download_file_from_drive in Hrun.
    fold (temp_path temp_dir name) in Hrun.
    simpl in Hnd. inversion Hnd as [|? ? Hnotin Hnd']. subst.
    destruct (get_media service file_id) as [content|partial [e]] eqn:Hmedia;
      [|discriminate].
    unfold load_artifact, write_file in Hrun. cbn [files] in Hrun.
    rewrite DictFacts.get_set_same in Hrun.
    destruct (joblib_load w content) as [model|[e]]; [|discriminate].
    destruct (IH _ _ _ _ Hnd' Hrun) as [Hall Hother].
    cbn [files] in Hother.
    split.
    + intros n fid [E|Hin].
      * injection E as <- <-. exists content. split; [assumption|].
        rewrite Hother by assumption. apply DictFacts.get_set_same.
      * now apply Hall.
    + intros path Hpath. simpl in Hpath.
      rewrite Hother by tauto.
      apply DictFacts.get_set_other. intros ->. tauto.
Qed.

(** X10. After a successful [load_models], the temporary directory holds
    the five artifacts: the file [label_<name>_model.joblib] of each label
    has exactly the bytes downloaded for that label (the five paths are
    distinct in every directory, so no download overwrites another), and
    every other file is as it was. *)
Theorem temp_files_hold_artifacts (w : World) (env env1 : Env)
    (models : Dict.t Model) :
  load_models w env = (Some models, env1) ->
  exists service,
    build_service w = Ok service /\
    (forall name file_id, Dict.get FILE_IDS name = Some file_id ->
       exists content,
         get_media service file_id = Downloaded content /\
         Dict.get (files env1) (temp_path (gettempdir w) name) = Some content) /\
    (forall path,
       (forall name, In name DISEASES -> path <> temp_path (gettempdir w) name) ->
       Dict.get (files env1) path = Dict.get (files env) path).
Proof.
  unfold load_models, get_google_drive_service.
  destruct (build_service w) as [service|[e]]; [|discriminate].
  intros Hrun. exists service. split; [reflexivity|].
  destruct (load_loop_files w service (gettempdir w) (Dict.items FILE_IDS)
              Dict.empty models env env1 (temp_paths_NoDup _) Hrun)
    as [Hall Hother].
  split.
  - intros name file_id H. apply Hall. now apply DictFacts.get_In.
  - intros path Hpath. apply Hother. intros Hin.
    apply in_map_iff in Hin as (name & <- & Hin). now apply (Hpath name).
Qed.

Lemma temp_files_hold_artifacts_witness :
  exists models env1,
    load_models (world_with good_service) fresh_env = (Some models, env1) /\
    exists service,
      build_service (world_with good_service) = Ok service /\
      (forall name file_id, Dict.get FILE_IDS name = Some file_id ->
         exists content,
           get_media service file_id = Downloaded content /\
           Dict.get (files env1)
                    (temp_path (gettempdir (world_with good_service)) name)
           = Some content) /\
      (forall path,
         (forall name, In name DISEASES ->
            path <> temp_path (gettempdir (world_with good_service)) name) ->
         Dict.get (files env1) path = Dict.get (files fresh_env) path).
Proof.
  destruct (load_models (world_with good_service) fresh_env)
    as [[models|] env1] eqn:Hload; [|vm_compute in Hload; discriminate].
  exists models, env1. split; [reflexivity|].
  exact (temp_files_hold_artifacts _ _ _ _ Hload).
Defined.

(* ================================================================== *)
(** * Explanation engine: when the figures are available *)
(* ================================================================== *)

Lemma y_label_ok (val : pyval) (feature : string) :
  label_ok val = true -> y_label val feature = Ok (val, feature).
Proof.
  destruct val as [s|z|f]; simpl; trivial.
  now destruct (PrimFloat.is_nan f || PrimFloat.is_infinity f).
Qed.

Lemma y_label_raises (val : pyval) (feature : string) :
  label_ok val = false -> exists e, y_label val feature = Raise (Exception e).
Proof.
  destruct val as [s|z|f]; simpl; try discriminate.
  destruct (PrimFloat.is_nan f || PrimFloat.is_infinity f); [|discriminate].
  intros _. eexists. reflexivity.
Qed.

Lemma y_labels_ok (data : list pyval) :
  forall features,
    Forall (fun v => label_ok v = true) data ->
    exists labels,
      y_labels data features = Ok labels /\
      List.length labels = Nat.min (List.length data) (List.length features).
Proof.
  induction data as [|val data IH]; intros features Hok.
  - exists []. now destruct features.
  - destruct features as [|feature features]; [now exists []|].
    apply Forall_cons_iff in Hok as [Hval Hok].
    destruct (IH features Hok) as (ls & Hls & Hlen).
    exists ((val, feature) :: ls). simpl.
    rewrite (y_label_ok _ _ Hval). simpl. rewrite Hls. simpl.
    split; [reflexivity | now rewrite Hlen].
Qed.

Lemma y_labels_raises (data : list pyval) :
  forall features k v,
    nth_error data k = Some v -> label_ok v = false ->
    k < List.length features ->
    exists e, y_labels data features = Raise (Exception e).
Proof.
  induction data as [|val data IH]; intros features k v Hk Hbad Hlen.
  - now destruct k.
  - destruct features as [|feature features]; [simpl in Hlen; lia|].
    simpl. destruct k as [|k].
    + injection Hk as ->.
      destruct (y_label_raises v feature Hbad) as [e ->]. now exists e.
    + destruct (y_label val feature) as [l|[e]]; [|now exists e]. simpl.
      destruct (IH features k v Hk Hbad) as [e ->]; [simpl in Hlen; lia|].
      now exists e.
Qed.

Lemma take_ok {A : Type} (d : A) (a : list A) (idx : list nat) :
  Forall (fun i => i < List.length a) idx ->
  take a idx = Ok (map (fun i => nth i a d) idx).
Proof.
  induction 1 as [|i rest Hi Hrest IH]; simpl; [reflexivity|].
  unfold getitem. destruct (nth_error a i) as [x|] eqn:Hx.
  - simpl. rewrite IH. simpl. f_equal. f_equal.
    symmetry. now apply nth_error_nth.
  - apply nth_error_None in Hx. lia.
Qed.

Lemma take_length {A : Type} (a : list A) (idx : list nat) (l : list A) :
  take a idx = Ok l -> List.length l = List.length idx.
Proof.
  revert l. induction idx as [|i rest IH]; simpl; intros l H.
  - now injection H as <-.
  - destruct (getitem a i); simpl in H; [|discriminate].
    destruct (take a rest) as [xs|]; simpl in H; [|discriminate].
    injection H as <-. simpl. f_equal. now apply IH.
Qed.

Lemma shap_report_raise (outcome : result (Waterfall * BarChart)) (errs : log) :
  (exists e, outcome = Raise (Exception e)) ->
  exists msg, shap_report outcome errs = (None, errs ++ [msg]).
Proof. intros [e ->]. simpl. eexists. reflexivity. Qed.

(** X11. A NaN (or infinite) cell under one of the ten top-ranked features
    makes the explanation unavailable: the label test [val == int(val)]
    raises, so [generate_shap_plot] returns no figure and sends one message.
    (The prediction itself is not affected.) *)
Theorem nan_cell_blocks_explanation (libs : Libs) (model : Model)
    (input_df : DataFrame) (disease_name : string) (errs : log)
    (explainer : Explainer) (values : shap_output)
    (sv : list float) (base_value : float)
    (row : list pyval) (i : nat) (cell : pyval) :
  TreeExplainer libs model = Ok explainer ->
  shap_values explainer input_df = Ok values ->
  select_attribution values (expected_value explainer) = Ok (sv, base_value) ->
  getitem (df_values input_df) 0 = Ok row ->
  In i (top_indices libs sv 10) ->
  nth_error (row_values row) i = Some cell ->
  label_ok cell = false ->
  exists msg,
    generate_shap_plot libs model input_df disease_name errs
    = (None, errs ++ [msg]).
Proof.
  intros Hexp Hval Hsel Hrow Hin Hcell Hbad.
  unfold generate_shap_plot. apply shap_report_raise.
  unfold shap_figures. rewrite Hexp. cbn [bind]. rewrite Hval. cbn [bind].
  rewrite Hsel. cbn [bind]. unfold render_figures.
  destruct (take (columns input_df) (top_indices libs sv 10))
    as [top_features|[e]] eqn:Hf; [|now exists e]. cbn [bind].
  destruct (take sv (top_indices libs sv 10))
    as [top_values|[e]]; [|now exists e]. cbn [bind].
  rewrite Hrow. cbn [bind].
  destruct (take (row_values row) (top_indices libs sv 10))
    as [top_data|[e]] eqn:Hd; [|now exists e]. cbn [bind].
  apply In_nth_error in Hin as [k Hk].
  assert (Hlen : k < List.length top_features).
  { rewrite (take_length _ _ _ Hf). apply nth_error_Some. congruence. }
  assert (Hdata : nth_error top_data k = Some cell).
  { rewrite (take_spec np_nan _ _ _ Hd).
    rewrite nth_error_map, Hk. simpl. f_equal.
    now apply nth_error_nth. }
  destruct (y_labels_raises top_data top_features k cell Hdata Hbad Hlen)
    as [e ->].
  now exists e.
Qed.

Lemma nan_cell_blocks_explanation_witness :
  exists msg,
    generate_shap_plot scenario_libs (constant_model 0.71%float) nan_frame
                       "BPPV" []
    = (None, [] ++ [msg]).
Proof.
  apply (nan_cell_blocks_explanation scenario_libs (constant_model 0.71%float)
           nan_frame "BPPV" []
           (pair_explainer [-0.5; 2; -1; 0.25]%float [0.5; -2; 1; -0.25]%float
                           0.3%float (-0.3)%float)
           (ShapList [[[-0.5; 2; -1; 0.25]%float]; [[0.5; -2; 1; -0.25]%float]])
           [0.5; -2; 1; -0.25]%float (-0.3)%float
           [PyInt 45; np_nan; PyFloat 1%float; PyFloat 0%float] 1 np_nan);
    try reflexivity.
  vm_compute. auto.
Defined.

Lemma small_int_finite (z : Z) :
  (0 <= z <= 180)%Z -> label_ok (PyFloat (PyFloat.of_int z)) = true.
Proof.
  intros Hz.
  assert (Hall : forallb (fun n => label_ok (PyFloat (PyFloat.of_int (Z.of_nat n))))
                         (seq 0 181) = true) by (vm_compute; reflexivity).
  rewrite forallb_forall in Hall.
  rewrite <- (Z2Nat.id z) by lia. apply Hall. apply in_seq. lia.
Qed.

Lemma checked_cell_ok (ui : Streamlit) (key : string) :
  cell_ok (checked ui key) = true.
Proof. unfold checked. now destruct (checkbox ui key). Qed.

Lemma one_hot_cell_ok (selected option : string) :
  cell_ok (one_hot selected option) = true.
Proof. unfold one_hot. now destruct (String.eqb selected option). Qed.

Lemma coded_cell_ok (options : Dict.t Z) (s : string) (code : Z) :
  options = frequency_options \/ options = duration_cat_options \/
  options = remote_cat_options ->
  Dict.get options s = Some code ->
  cell_ok (PyFloat (PyFloat.of_int code)) = true.
Proof.
  intros Hopt H. apply DictFacts.get_In in H.
  destruct Hopt as [ -> | [ -> | -> ] ]; simpl in H;
    repeat (destruct H as [H|H]; [injection H as _ <-; reflexivity|]);
    contradiction.
Qed.

Lemma minutes_cell_ok (s : string) (minutes : pyval) :
  Dict.get duration_minutes_map s = Some minutes -> cell_ok minutes = true.
Proof.
  intros H. apply DictFacts.get_In in H. simpl in H.
  repeat (destruct H as [H|H]; [injection H as _ <-; reflexivity|]).
  contradiction.
Qed.

Lemma int_cell_ok (z : Z) : (0 <= z <= 180)%Z -> cell_ok (PyInt z) = true.
Proof. intros Hz. unfold cell_ok. simpl. now apply small_int_finite. Qed.

(** Every cell of a frame built from a valid form within the widget bounds
    is a finite number. *)
Lemma form_cells_ok (ui : Streamlit) (inputs : Dict.t pyval) :
  create_sidebar_inputs ui = Ok inputs ->
  widget_bounds ui ->
  Forall (fun v => cell_ok v = true) (Dict.values (input_data inputs)).
Proof.
  intros H [Hage Hrecent]. invert_form ui H. subst inputs.
  rewrite input_data_eq. unfold Dict.values. rewrite map_map. cbn [snd].
  remember (String.eqb (selectbox ui "sex") "여성") as female.
  cbv -[checked one_hot text_input number_input selectbox checkbox
        PyFloat.of_int cell_ok].
  repeat (apply Forall_cons; [|]); [..|apply Forall_nil];
    try apply checked_cell_ok;
    try apply one_hot_cell_ok;
    try (eapply minutes_cell_ok; eassumption);
    try (apply int_cell_ok; lia);
    try (destruct female; reflexivity);
    try reflexivity;
    (eapply coded_cell_ok; [|eassumption]); auto.
Qed.

Lemma row_values_ok (row : list pyval) :
  Forall (fun v => cell_ok v = true) row ->
  List.length (row_values row) = List.length row /\
  Forall (fun v => label_ok v = true) (row_values row).
Proof.
  intros Hok.
  assert (Hnum : forallb is_number row = true).
  { apply forallb_forall. rewrite Forall_forall in Hok. intros v Hv.
    specialize (Hok v Hv). unfold cell_ok in Hok.
    now apply andb_true_iff in Hok. }
  unfold row_values. rewrite Hnum. split; [apply length_map|].
  apply Forall_map. eapply Forall_impl; [|exact Hok].
  intros v Hv. unfold cell_ok in Hv. now apply andb_true_iff in Hv.
Qed.

(** X12. For a frame built from a valid form within the widget bounds, the
    explanation is always available once SHAP returns an attribution vector
    of the schema's length: [generate_shap_plot] returns both figures and
    sends no message, the waterfall has exactly 10 bars (labels, values and
    colours) and the importance chart exactly 20. *)
Theorem explanation_available (libs : Libs) (model : Model) (ui : Streamlit)
    (inputs : Dict.t pyval) (disease_name : string) (errs : log)
    (explainer : Explainer) (values : shap_output)
    (sv : list float) (base_value : float) :
  create_sidebar_inputs ui = Ok inputs ->
  widget_bounds ui ->
  TreeExplainer libs model = Ok explainer ->
  shap_values explainer (input_df inputs) = Ok values ->
  select_attribution values (expected_value explainer) = Ok (sv, base_value) ->
  List.length sv = List.length INPUT_FEATURES ->
  is_argsort (map PrimFloat.abs sv) (np_argsort libs (map PrimFloat.abs sv)) ->
  exists w b,
    generate_shap_plot libs model (input_df inputs) disease_name errs
    = (Some (w, b), errs) /\
    List.length (waterfall_labels w) = 10%nat /\
    List.length (waterfall_values w) = 10%nat /\
    List.length (waterfall_colors w) = 10%nat /\
    List.length (bar_features b) = 20%nat /\
    List.length (bar_values b) = 20%nat.
Proof.
  intros Hform Hbounds Hexp Hval Hsel Hlen Hsort.
  assert (H82 : List.length INPUT_FEATURES = 82%nat) by reflexivity.
  destruct (top_indices_ranked libs sv 10 Hsort) as (Hl10 & _ & Hb10 & _).
  destruct (top_indices_ranked libs sv 20 Hsort) as (Hl20 & _ & Hb20 & _).
  rewrite Hlen, H82 in Hl10, Hl20. simpl in Hl10, Hl20.
  set (row := Dict.values (input_data inputs)).
  assert (Hrow : List.length row = 82%nat).
  { unfold row, Dict.values. rewrite length_map, input_data_eq, length_map.
    exact H82. }
  destruct (row_values_ok row (form_cells_ok ui inputs Hform Hbounds))
    as [Hrvlen Hrvok].
  assert (Hcols : columns (input_df inputs) = INPUT_FEATURES)
    by apply keys_input_data.
  assert (Hin10 : forall n, n = 82%nat ->
            Forall (fun i => i < n) (top_indices libs sv 10)).
  { intros n ->. apply Forall_forall. intros i Hi.
    specialize (Hb10 i Hi). lia. }
  assert (Hin20 : forall n, n = 82%nat ->
            Forall (fun i => i < n) (top_indices libs sv 20)).
  { intros n ->. apply Forall_forall. intros i Hi.
    specialize (Hb20 i Hi). lia. }
  unfold generate_shap_plot, shap_figures.
  rewrite Hexp. cbn [bind]. rewrite Hval. cbn [bind]. rewrite Hsel. cbn [bind].
  unfold render_figures. rewrite Hcols.
  rewrite (take_ok "" INPUT_FEATURES) by now apply Hin10.
  cbn [bind].
  rewrite (take_ok nan sv) by (apply Hin10; lia). cbn [bind].
  change (getitem (df_values (input_df inputs)) 0) with (Ok row). cbn [bind].
  rewrite (take_ok np_nan (row_values row)) by (apply Hin10; lia). cbn [bind].
  match goal with
  | |- context [y_labels ?data ?features] =>
      destruct (y_labels_ok data features) as (labels & Hlabels & Hlablen)
  end.
  { apply Forall_map. apply Forall_forall. intros i Hi.
    rewrite Forall_forall in Hrvok. apply Hrvok. apply nth_In.
    specialize (Hb10 i Hi). lia. }
  rewrite Hlabels. cbn [bind].
  rewrite (take_ok "" INPUT_FEATURES) by now apply Hin20.
  cbn [bind].
  rewrite (take_ok nan sv) by (apply Hin20; lia). cbn [bind].
  eexists. eexists. split; [reflexivity|].
  cbn [waterfall_labels waterfall_values waterfall_colors bar_features bar_values].
  rewrite !length_map in Hlablen. rewrite Hl10 in Hlablen.
  rewrite !length_map, Hl10, Hl20. repeat split. exact Hlablen.
Qed.

Lemma permutation_nat_check (l1 l2 : list nat) :
  nodup Nat.eq_dec l1 = l1 ->
  nodup Nat.eq_dec l2 = l2 ->
  forallb (fun a => existsb (Nat.eqb a) l2) l1 = true ->
  forallb (fun a => existsb (Nat.eqb a) l1) l2 = true ->
  Permutation l1 l2.
Proof.
  intros H1 H2 H12 H21.
  apply NoDup_Permutation.
  - rewrite <- H1. apply NoDup_nodup.
  - rewrite <- H2. apply NoDup_nodup.
  - rewrite forallb_forall in H12, H21.
    intros x. split; intros Hx; [apply H12 in Hx | apply H21 in Hx];
      apply existsb_exists in Hx as (y & Hy & E);
      apply Nat.eqb_eq in E; now subst.
Qed.

Lemma explanation_available_witness :
  exists w b,
    generate_shap_plot wide_libs (constant_model 0.71%float)
                       (input_df scenario_inputs) "BPPV" []
    = (Some (w, b), []) /\
    List.length (waterfall_labels w) = 10%nat /\
    List.length (waterfall_values w) = 10%nat /\
    List.length (waterfall_colors w) = 10%nat /\
    List.length (bar_features b) = 20%nat /\
    List.length (bar_values b) = 20%nat.
Proof.
  apply (explanation_available wide_libs (constant_model 0.71%float)
           scenario_form scenario_inputs "BPPV" []
           (single_explainer wide_sv 0.5%float) (ShapArray [wide_sv])
           wide_sv 0.5%float).
  - apply scenario_inputs_ok.
  - unfold widget_bounds. simpl. lia.
  - reflexivity.
  - reflexivity.
  - reflexivity.
  - reflexivity.
  - split.
    + apply permutation_nat_check; vm_compute; reflexivity.
    + vm_compute. repeat constructor.
Defined.

(* ================================================================== *)
(** * Form-to-vector mapper: the reindexing step *)
(* ================================================================== *)

(** X13. The comprehension of [main] is a reindexing: on any answer dict,
    even an empty one, it yields the 82 schema columns in schema order, and
    applying it to its own result changes nothing. *)
Theorem reindexing_idempotent (answers : Dict.t pyval) :
  Dict.keys (input_data answers) = INPUT_FEATURES /\
  input_data (input_data answers) = input_data answers /\
  input_df (input_data answers) = input_df answers.
Proof.
  assert (Hidem : input_data (input_data answers) = input_data answers).
  { rewrite (input_data_eq (input_data answers)), (input_data_eq answers).
    apply map_ext_in. intros feat Hin. f_equal.
    unfold Dict.get_default at 1.
    rewrite <- input_data_eq, get_input_data by assumption. reflexivity. }
  split; [apply keys_input_data|]. split; [exact Hidem|].
  unfold input_df. now rewrite Hidem.
Qed.

(** X14. The form returns a dict exactly when each of its three coded
    select boxes holds one of its options. Otherwise it raises the KeyError
    of the first offending selection, in the order frequency, duration,
    remote onset. *)
Theorem form_accepts_exactly_valid (ui : Streamlit) :
  let frequency := selectbox ui "frequency" in
  let duration := selectbox ui "duration" in
  let remote := selectbox ui "remote" in
  (valid_form ui <-> exists inputs, create_sidebar_inputs ui = Ok inputs) /\
  (~ In frequency (Dict.keys frequency_options) ->
   create_sidebar_inputs ui = Raise (KeyError frequency)) /\
  (In frequency (Dict.keys frequency_options) ->
   ~ In duration (Dict.keys duration_cat_options) ->
   create_sidebar_inputs ui = Raise (KeyError duration)) /\
  (In frequency (Dict.keys frequency_options) ->
   In duration (Dict.keys duration_cat_options) ->
   ~ In remote (Dict.keys remote_cat_options) ->
   create_sidebar_inputs ui = Raise (KeyError remote)).
Proof.
  intros frequency duration remote. subst frequency duration remote.
  split; [|split; [|split]].
  - split; [apply create_sidebar_inputs_total|].
    intros [inputs H]. now apply create_sidebar_inputs_valid in H.
  - intros Hf. apply DictFacts.get_None_notin in Hf.
    unfold create_sidebar_inputs, getkey. cbv zeta. rewrite Hf. reflexivity.
  - intros Hf Hd. apply DictFacts.get_None_notin in Hd.
    destruct (get_in_keys _ _ Hf) as [freq Hfreq].
    unfold create_sidebar_inputs, getkey. cbv zeta. rewrite Hfreq, Hd.
    reflexivity.
  - intros Hf Hd Hr. apply DictFacts.get_None_notin in Hr.
    destruct (get_in_keys _ _ Hf) as [freq Hfreq].
    destruct (get_in_keys _ _ Hd) as [dur Hdur].
    destruct (duration_minutes_defined _ Hd) as [minutes Hminutes].
    unfold create_sidebar_inputs, getkey. cbv zeta.
    rewrite Hfreq, Hdur, Hminutes, Hr.
    remember (String.eqb (selectbox ui "sex") "여성") as female.
    form_cbv. reflexivity.
Qed.

(* ================================================================== *)
(** * Model repository: a failed load *)
(* ================================================================== *)

Lemma load_loop_stops (w : World) (service : Service) (temp_dir : string)
    (name file_id : string) (after : list (string * string))
    (before : list (string * string)) :
  forall (models : Dict.t Model) (env : Env),
    NoDup (map (temp_path temp_dir) (map fst (before ++ (name, file_id) :: after))) ->
    (forall n f, In (n, f) before -> artifact w service f <> None) ->
    artifact w service file_id = None ->
    exists env1,
      load_loop w service temp_dir (before ++ (name, file_id) :: after) models env
      = (None, env1) /\
      (forall n f, In (n, f) before ->
         exists content,
           get_media service f = Downloaded content /\
           Dict.get (files env1) (temp_path temp_dir n) = Some content) /\
      (forall path,
         ~ In path (map (temp_path temp_dir) (map fst before)) ->
         path <> temp_path temp_dir name ->
         Dict.get (files env1) path = Dict.get (files env) path) /\
      match get_media service file_id with
      | Downloaded content =>
          Dict.get (files env1) (temp_path temp_dir name) = Some content /\
          exists e, errors env1
                    = errors env ++ [(name ++ " 모델 로드 오류: " ++ e)%string]
      | DownloadFailed partial (Exception e) =>
          Dict.get (files env1) (temp_path temp_dir name)
          = match partial with
            | Some content => Some content
            | None => Dict.get (files env) (temp_path temp_dir name)
            end /\
          errors env1
          = errors env ++ [("파일 다운로드 오류: " ++ e)%string;
                           (name ++ " 모델 다운로드 실패")%string]
      end.
Proof.
  induction before as [|[n0 f0] before IH]; intros models env Hnd Hok Hbad.
  - cbn [app load_loop]. unfold download_file_from_drive.
    fold (temp_path temp_dir name). unfold artifact in Hbad.
    destruct (get_media service file_id) as [content|partial [e]].
    + unfold load_artifact, write_file. cbn [files].
      rewrite DictFacts.get_set_same.
      destruct (joblib_load w content) as [model|[e]]; [discriminate|].
      eexists. split; [reflexivity|]. cbn [files errors st_error].
      split; [intros ? ? []|]. split.
      * intros path _ Hpath. now apply DictFacts.get_set_other.
      * split; [apply DictFacts.get_set_same|]. now exists e.
    + eexists. split; [reflexivity|]. cbn [files errors st_error].
      split; [intros ? ? []|]. split.
      * intros path _ Hpath. destruct partial; cbn [files write_file];
          [now apply DictFacts.get_set_other | reflexivity].
      * split.
        -- destruct partial; cbn [files write_file];
             [apply DictFacts.get_set_same | reflexivity].
        -- destruct partial; cbn [errors write_file]; now rewrite <- app_assoc.
  - cbn [app load_loop]. unfold download_file_from_drive.
    fold (temp_path temp_dir n0).
    assert (H0 : artifact w service f0 <> None) by (apply (Hok n0); now left).
    unfold artifact in H0.
    cbn [app map] in Hnd. inversion Hnd as [|? ? Hnotin Hnd']. subst.
    destruct (get_media service f0) as [content0|partial0 e0] eqn:Hmedia;
      [|congruence].
    unfold load_artifact, write_file. cbn [files].
    rewrite DictFacts.get_set_same.
    destruct (joblib_load w content0) as [model0|e0]; [|congruence].
    match goal with
    | |- context [load_loop w service temp_dir _ ?m ?e] =>
        destruct (IH m e Hnd') as (env1 & Hrun & Hbefore & Hframe & Hfail)
    end; [intros n f Hin; apply (Hok n f); now right | assumption |].
    cbn [files errors] in Hframe, Hfail.
    assert (Hne : temp_path temp_dir n0 <> temp_path temp_dir name).
    { intros E. apply Hnotin. rewrite map_app, map_app. apply in_or_app.
      right. left. now symmetry. }
    assert (Hnb : ~ In (temp_path temp_dir n0)
                       (map (temp_path temp_dir) (map fst before))).
    { intros Hin. apply Hnotin. rewrite map_app, map_app. apply in_or_app.
      now left. }
    exists env1. split; [exact Hrun|]. split; [|split].
    + intros n f [E|Hin]; [|now apply Hbefore].
      injection E as <- <-. exists content0. split; [assumption|].
      rewrite Hframe by assumption. apply DictFacts.get_set_same.
    + intros path Hpath Hpn. cbn [map fst] in Hpath.
      rewrite Hframe; [|intros Hin; apply Hpath; now right|exact Hpn].
      apply DictFacts.get_set_other. intros ->. apply Hpath. now left.
    + destruct (get_media service file_id) as [content|partial [e]];
        [exact Hfail|].
      destruct Hfail as [Hfile Herr]. split; [|exact Herr].
      rewrite Hfile. destruct partial; [reflexivity|].
      apply DictFacts.get_set_other. intros E. now apply Hne.
Qed.

(** X15. [load_models] stops at the first artifact that cannot be retrieved
    or deserialized and cleans nothing up: it returns [None], the files of
    the labels before the failing one hold their downloaded artifacts, the
    file of the failing label holds what its download left, the files of the
    labels after it and every other file are untouched; one message is sent
    when deserialization failed and two when the download failed. *)
Theorem load_stops_at_first_failure (w : World) (env : Env) (service : Service)
    (before after : list (string * string)) (name file_id : string) :
  build_service w = Ok service ->
  Dict.items FILE_IDS = before ++ (name, file_id) :: after ->
  (forall n f, In (n, f) before -> artifact w service f <> None) ->
  artifact w service file_id = None ->
  exists env1,
    load_models w env = (None, env1) /\
    (forall n f, In (n, f) before ->
       exists content,
         get_media service f = Downloaded content /\
         Dict.get (files env1) (temp_path (gettempdir w) n) = Some content) /\
    (forall path,
       ~ In path (map (temp_path (gettempdir w)) (map fst before)) ->
       path <> temp_path (gettempdir w) name ->
       Dict.get (files env1) path = Dict.get (files env) path) /\
    match get_media service file_id with
    | Downloaded content =>
        Dict.get (files env1) (temp_path (gettempdir w) name) = Some content /\
        exists e, errors env1
                  = errors env ++ [(name ++ " 모델 로드 오류: " ++ e)%string]
    | DownloadFailed partial (Exception e) =>
        Dict.get (files env1) (temp_path (gettempdir w) name)
        = match partial with
          | Some content => Some content
          | None => Dict.get (files env) (temp_path (gettempdir w) name)
          end /\
        errors env1
        = errors env ++ [("파일 다운로드 오류: " ++ e)%string;
                         (name ++ " 모델 다운로드 실패")%string]
    end.
Proof.
  intros Hbuild Hsplit Hok Hbad.
  unfold load_models, get_google_drive_service. rewrite Hbuild, Hsplit.
  apply load_loop_stops; trivial.
  rewrite <- Hsplit. apply temp_paths_NoDup.
Qed.

Lemma load_stops_at_first_failure_witness :
  exists env1,
    load_models (world_with flaky_service) fresh_env = (None, env1) /\
    (forall n f, In (n, f) [ ("BPPV", "1BfcFZ6-RnQbg_Qo4eO8YbkkRR-9CvZdg");
                             ("VN", "158NQ9j_OKQoaA5JpMCjl1NgqKqc2Ezdb") ] ->
       exists content,
         get_media flaky_service f = Downloaded content /\
         Dict.get (files env1) (temp_path "/tmp" n) = Some content) /\
    (forall path,
       ~ In path (map (temp_path "/tmp") ["BPPV"; "VN"]) ->
       path <> temp_path "/tmp" "SSNHL" ->
       Dict.get (files env1) path = Dict.get (files fresh_env) path) /\
    Dict.get (files env1) (temp_path "/tmp" "SSNHL") = Some [] /\
    errors env1
    = errors fresh_env ++ [ "파일 다운로드 오류: timeout"; "SSNHL 모델 다운로드 실패" ].
Proof.
  apply (load_stops_at_first_failure (world_with flaky_service) fresh_env
           flaky_service
           [ ("BPPV", "1BfcFZ6-RnQbg_Qo4eO8YbkkRR-9CvZdg");
             ("VN", "158NQ9j_OKQoaA5JpMCjl1NgqKqc2Ezdb") ]
           [ ("Meniere", "1v_9jwfd6w9iJyiAIRplMOqJfqRiEqvSY");
             ("Others", "1giDrrAwDntoAm9Xt8vS1eMrKo4zVlBwG") ]
           "SSNHL" "1EiKOeCMv55m3021VW5FNTZcylZLATSTE").
  - reflexivity.
  - reflexivity.
  - intros n f [E|[E|[]]]; injection E as <- <-; discriminate.
  - reflexivity.
Defined.

(* ================================================================== *)
(** * Explanation engine: the two output shapes *)
(* ================================================================== *)

(** The cast keeps the sign and the value of an int cell. *)
Example negative_int_cell :
  row_values [PyInt (-3); PyInt 45; PyFloat 0.5%float]
  = [PyFloat (-3)%float; PyFloat 45%float; PyFloat 0.5%float].
Proof. reflexivity. Qed.

Lemma y_labels_combine (data : list pyval) :
  forall features,
    Forall (fun v => label_ok v = true) data ->
    y_labels data features = Ok (combine data features).
Proof.
  induction data as [|val data IH]; intros features Hok.
  - now destruct features.
  - destruct features as [|feature features]; [reflexivity|].
    apply Forall_cons_iff in Hok as [Hval Hok]. simpl.
    rewrite (y_label_ok _ _ Hval). simpl. now rewrite (IH features Hok).
Qed.

Lemma combine_map {A B C : Type} (f : A -> B) (g : A -> C) (l : list A) :
  combine (map f l) (map g l) = map (fun a => (f a, g a)) l.
Proof. induction l as [|a l IH]; simpl; [reflexivity | now rewrite IH]. Qed.

(** On a frame and an attribution vector that fit together the figures are
    always rendered, and they show that vector and that baseline. *)
Lemma render_figures_ok (libs : Libs) (input_df : DataFrame) (row : list pyval)
    (sv : list float) (base_value : float) :
  renderable libs input_df row sv ->
  exists w b,
    render_figures libs input_df sv base_value = Ok (w, b) /\
    shows libs input_df row sv base_value w b.
Proof.
  intros (Hrow & Hcols & Hlen & Hcells & Hsort).
  destruct (top_indices_ranked libs sv 10 Hsort) as (_ & _ & Hb10 & _).
  destruct (top_indices_ranked libs sv 20 Hsort) as (_ & _ & Hb20 & _).
  assert (Hrv : List.length (row_values row) = List.length row).
  { unfold row_values. destruct (forallb is_number row);
      [apply length_map | reflexivity]. }
  assert (Hin10 : forall n, n = List.length sv ->
            Forall (fun i => i < n) (top_indices libs sv 10)).
  { intros n ->. now apply Forall_forall. }
  assert (Hin20 : forall n, n = List.length sv ->
            Forall (fun i => i < n) (top_indices libs sv 20)).
  { intros n ->. now apply Forall_forall. }
  unfold render_figures.
  rewrite (take_ok "" (columns input_df)) by (apply Hin10; lia). cbn [bind].
  rewrite (take_ok nan sv) by now apply Hin10. cbn [bind].
  unfold getitem at 1. rewrite Hrow. cbn [bind].
  rewrite (take_ok np_nan (row_values row)) by (apply Hin10; lia). cbn [bind].
  rewrite y_labels_combine.
  2:{ apply Forall_map. apply Forall_forall. intros i Hi.
      rewrite Forall_forall in Hcells. apply Hcells. apply nth_In.
      specialize (Hb10 i Hi). lia. }
  cbn [bind].
  rewrite (take_ok "" (columns input_df)) by (apply Hin20; lia). cbn [bind].
  rewrite (take_ok nan sv) by now apply Hin20. cbn [bind].
  eexists. eexists. split; [reflexivity|].
  unfold shows, top_indices.
  cbn [waterfall_labels waterfall_values waterfall_colors f_x
       bar_features bar_values].
  rewrite combine_map, !map_map. unfold bar_color. repeat split.
Qed.

(** C8. [generate_shap_plot] handles both shapes of attribution output.
    With a single array and a scalar baseline, the figures are rendered from
    row 0 of that array and that baseline. With a list of per-class arrays
    and per-class baselines, they are rendered from row 0 of the array at
    index 1 and the baseline at index 1 only. In both cases, on a frame that
    fits the selected vector the figures are returned without a message, and
    everything they show comes from the selected vector and baseline: both
    rankings, the signed values and colours of the waterfall, the magnitudes
    of the importance chart, and the score, which is the selected baseline
    plus the sum of the selected vector. Any other combination of shapes,
    and an array without a row 0, makes the explanation unavailable: no
    figure and one message. *)
Theorem C8_attribution_shapes (libs : Libs) (model : Model) (input_df : DataFrame)
    (disease_name : string) (errs : log)
    (explainer : Explainer) (values : shap_output) :
  TreeExplainer libs model = Ok explainer ->
  shap_values explainer input_df = Ok values ->
  let outcome := generate_shap_plot libs model input_df disease_name errs in
  let unavailable := exists msg, outcome = (None, errs ++ [msg]) in
  let rendered_from (sv : list float) (base_value : float) :=
    outcome = shap_report (render_figures libs input_df sv base_value) errs /\
    (forall row, renderable libs input_df row sv ->
       exists w b, outcome = (Some (w, b), errs) /\
                   shows libs input_df row sv base_value w b) in
  match values, expected_value explainer with
  | ShapArray array, ExpectedScalar v =>
      match nth_error array 0 with
      | Some sv => rendered_from sv v
      | None => unavailable
      end
  | ShapList (negative :: positive :: _), ExpectedArray (v0 :: v1 :: _) =>
      match nth_error positive 0 with
      | Some sv => rendered_from sv v1
      | None => unavailable
      end
  | _, _ => unavailable
  end.
Proof.
  intros Hexp Hval outcome unavailable rendered_from.
  assert (Hraise : forall e, shap_figures libs model input_df = Raise e ->
                             unavailable).
  { intros [e] H. subst unavailable outcome. unfold generate_shap_plot.
    rewrite H. eexists. reflexivity. }
  assert (Hrender : forall sv base_value,
            shap_figures libs model input_df
            = render_figures libs input_df sv base_value ->
            rendered_from sv base_value).
  { intros sv base_value H. subst rendered_from outcome.
    unfold generate_shap_plot. rewrite H. split; [reflexivity|].
    intros row Hfit.
    destruct (render_figures_ok libs input_df row sv base_value Hfit)
      as (w & b & -> & Hshows).
    now exists w, b. }
  assert (Hfig : shap_figures libs model input_df
                 = ' (sv, base_value) <-
                     select_attribution values (expected_value explainer) ;;
                   render_figures libs input_df sv base_value).
  { unfold shap_figures. rewrite Hexp. cbn [bind]. now rewrite Hval. }
  clearbody unavailable rendered_from. clear outcome.
  unfold select_attribution, getitem in Hfig.
  destruct values as [arrays|array], (expected_value explainer) as [v|vs].
  - assert (H : shap_figures libs model input_df = Raise IndexError).
    { rewrite Hfig. destruct arrays as [|negative [|positive more]];
        try reflexivity.
      change (nth_error (negative :: positive :: more) 1) with (Some positive).
      cbn [bind]. now destruct (nth_error positive 0). }
    destruct arrays as [|negative [|positive more]]; cbv beta iota;
      now apply (Hraise IndexError).
  - destruct arrays as [|negative [|positive more]]; cbv beta iota;
      try (apply (Hraise IndexError); rewrite Hfig; reflexivity).
    change (nth_error (negative :: positive :: more) 1) with (Some positive)
      in Hfig.
    cbn [bind] in Hfig.
    destruct vs as [|v0 [|v1 vs']]; cbv beta iota;
      try (apply (Hraise IndexError); rewrite Hfig;
           now destruct (nth_error positive 0)).
    change (nth_error (v0 :: v1 :: vs') 1) with (Some v1) in Hfig.
    destruct (nth_error positive 0) as [sv|]; cbn [bind] in Hfig;
      [now apply Hrender | now apply (Hraise IndexError)].
  - destruct (nth_error array 0) as [sv|]; cbn [bind] in Hfig;
      [now apply Hrender | now apply (Hraise IndexError)].
  - apply (Hraise (match nth_error array 0 with
                   | Some _ => TypeError
                   | None => IndexError
                   end)).
    rewrite Hfig. now destruct (nth_error array 0).
Qed.

Lemma C8_attribution_shapes_witness :
  exists w b,
    generate_shap_plot scenario_libs (constant_model 0.71%float) scenario_frame
                       "BPPV" []
    = (Some (w, b), []) /\
    shows scenario_libs scenario_frame
          [PyInt 45; PyInt 1; PyFloat 1%float; PyFloat 0%float]
          [0.5; -2; 1; -0.25]%float (-0.3)%float w b.
Proof.
  apply (C8_attribution_shapes scenario_libs (constant_model 0.71%float)
           scenario_frame "BPPV" []
           (pair_explainer [-0.5; 2; -1; 0.25]%float [0.5; -2; 1; -0.25]%float
                           0.3%float (-0.3)%float)
           (ShapList [[[-0.5; 2; -1; 0.25]%float]; [[0.5; -2; 1; -0.25]%float]])
           eq_refl eq_refl).
  unfold renderable. split; [reflexivity|]. split; [reflexivity|].
  split; [reflexivity|]. split.
  - vm_compute. repeat constructor.
  - split.
    + apply permutation_nat_check; vm_compute; reflexivity.
    + vm_compute. repeat constructor.
Defined.
